(** * rkflashtool: the framing codec, the parameter block, the partition
      resolver and the block transfer loops of [rkflashtool.c]

    A shallow embedding of [src/rkflashtool.c].  Bytes are integers in
    [0, 256); the static buffers [buf] and [ibuf] are lists of bytes of a
    fixed length; the USB transport, the standard streams and [random()]
    are an explicit world that every operation threads through; every
    observable action is appended to a trace. *)

From Stdlib Require Import ZArith List Bool Lia String Ascii.
Import ListNotations.
Local Open Scope Z_scope.

(* ================================================================== *)
(** * Part I: definitions *)
(* ================================================================== *)

(** ** C integer conversions *)

Module Int.

Definition u8 (v : Z) : Z := v mod 2 ^ 8.
Definition u16 (v : Z) : Z := v mod 2 ^ 16.
Definition u32 (v : Z) : Z := v mod 2 ^ 32.
Definition u64 (v : Z) : Z := v mod 2 ^ 64.

(** Conversion to [int]: the low 32 bits read in two's complement. *)
Definition s32 (v : Z) : Z :=
  let r := v mod 2 ^ 32 in if r <? 2 ^ 31 then r else r - 2 ^ 32.

End Int.

(** ** Byte buffers *)

Module Buf.

Definition len (b : list Z) : Z := Z.of_nat (List.length b).

(** [n] bytes starting at index [i]. *)
Definition read (b : list Z) (i n : nat) : list Z := firstn n (skipn i b).

(** Overwrite [length d] bytes starting at index [i]. *)
Definition write (b : list Z) (i : nat) (d : list Z) : list Z :=
  firstn i b ++ d ++ skipn (i + List.length d) b.

Definition get (b : list Z) (i : nat) : Z := nth i b 0.

Definition set (b : list Z) (i : nat) (v : Z) : list Z := write b i [v].

(** Whether [n] bytes at index [i] lie inside the buffer. *)
Definition inside (b : list Z) (i n : Z) : bool :=
  (0 <=? i) && (0 <=? n) && (i + n <=? len b).

Definition zeros (n : nat) : list Z := repeat 0 n.

(** Whether every element is a byte. *)
Definition bytes (b : list Z) : bool :=
  forallb (fun x => (0 <=? x) && (x <? 256)) b.

(** [memset(b, c, n)]: the first [n] bytes become [(unsigned char) c]. *)
Definition memset (b : list Z) (c : Z) (n : nat) : list Z :=
  write b 0 (repeat (Int.u8 c) n).

(** The bytes of a string literal. *)
Fixpoint of_string (s : string) : list Z :=
  match s with
  | EmptyString => []
  | String c s' => Z.of_nat (nat_of_ascii c) :: of_string s'
  end.

Definition ch (c : ascii) : Z := Z.of_nat (nat_of_ascii c).

End Buf.

(** ** Constants of [rkflashtool.c] *)

Definition EP1_READ : Z := 0x81.
Definition EP1_WRITE : Z := 0x1.

Definition RKFT_BLOCKSIZE : Z := 0x4000.
Definition RKFT_IDB_DATASIZE : Z := 0x200.
Definition RKFT_IDB_BLOCKSIZE : Z := 0x210.
Definition RKFT_IDB_INCR : Z := 0x20.
Definition RKFT_MEM_INCR : Z := 0x80.
Definition RKFT_OFF_INCR : Z := Z.shiftr RKFT_BLOCKSIZE 9.
Definition MAX_PARAM_LENGTH : Z := 128 * 512 - 12.
Definition SDRAM_BASE_ADDRESS : Z := 0x60000000.

Definition RKFT_CMD_TESTUNITREADY : Z := 0x80000600.
Definition RKFT_CMD_READFLASHID : Z := 0x80000601.
Definition RKFT_CMD_READFLASHINFO : Z := 0x8000061a.
Definition RKFT_CMD_READCHIPINFO : Z := 0x8000061b.
Definition RKFT_CMD_READEFUSE : Z := 0x80000620.
Definition RKFT_CMD_SETDEVICEINFO : Z := 0x00000602.
Definition RKFT_CMD_ERASESYSTEMDISK : Z := 0x00000616.
Definition RKFT_CMD_SETRESETFLASG : Z := 0x0000061e.
Definition RKFT_CMD_RESETDEVICE : Z := 0x000006ff.
Definition RKFT_CMD_TESTBADBLOCK : Z := 0x80000a03.
Definition RKFT_CMD_READSECTOR : Z := 0x80000a04.
Definition RKFT_CMD_READLBA : Z := 0x80000a14.
Definition RKFT_CMD_READSDRAM : Z := 0x80000a17.
Definition RKFT_CMD_UNKNOWN1 : Z := 0x80000a21.
Definition RKFT_CMD_WRITESECTOR : Z := 0x00000a05.
Definition RKFT_CMD_ERASESECTORS : Z := 0x00000a06.
Definition RKFT_CMD_UNKNOWN2 : Z := 0x00000a0b.
Definition RKFT_CMD_WRITELBA : Z := 0x00000a15.
Definition RKFT_CMD_WRITESDRAM : Z := 0x00000a18.
Definition RKFT_CMD_EXECUTESDRAM : Z := 0x00000a19.
Definition RKFT_CMD_WRITEEFUSE : Z := 0x00000a1f.
Definition RKFT_CMD_UNKNOWN3 : Z := 0x00000a22.
Definition RKFT_CMD_WRITESPARE : Z := 0x80001007.
Definition RKFT_CMD_READSPARE : Z := 0x80001008.
Definition RKFT_CMD_LOWERFORMAT : Z := 0x0000001c.
Definition RKFT_CMD_WRITENKB : Z := 0x00000030.

Definition USB_BULK_CB_WRAP_LEN : Z := 31.
Definition USB_BULK_CS_WRAP_LEN : Z := 13.

(** ** Big-endian and little-endian stores and loads *)

(** [SETBE16(a, v)]: byte 1 first, then byte 0, as the macro does. *)
Definition SETBE16 (b : list Z) (a : nat) (v : Z) : list Z :=
  let b := Buf.set b (a + 1) (Z.land v 0xff) in
  Buf.set b a (Z.land (Z.shiftr v 8) 0xff).

(** [SETBE32(a, v)]: bytes 3, 2, 1, 0 in the macro's order. *)
Definition SETBE32 (b : list Z) (a : nat) (v : Z) : list Z :=
  let b := Buf.set b (a + 3) (Z.land v 0xff) in
  let b := Buf.set b (a + 2) (Z.land (Z.shiftr v 8) 0xff) in
  let b := Buf.set b (a + 1) (Z.land (Z.shiftr v 16) 0xff) in
  Buf.set b a (Z.land (Z.shiftr v 24) 0xff).

Definition GETBE16 (b : list Z) (a : nat) : Z :=
  Buf.get b a * 2 ^ 8 + Buf.get b (a + 1).

Definition GETBE32 (b : list Z) (a : nat) : Z :=
  Buf.get b a * 2 ^ 24 + Buf.get b (a + 1) * 2 ^ 16
  + Buf.get b (a + 2) * 2 ^ 8 + Buf.get b (a + 3).

(** The four bytes of a 32-bit value, least significant first. *)
Definition le32_bytes (v : Z) : list Z :=
  [Z.land v 0xff; Z.land (Z.shiftr v 8) 0xff;
   Z.land (Z.shiftr v 16) 0xff; Z.land (Z.shiftr v 24) 0xff].

(** A [uint32_t] load through a cast pointer, [*(uint32_t * )(b + a)], on
    a little-endian host. *)
Definition load_u32 (b : list Z) (a : nat) : Z :=
  Buf.get b a + Buf.get b (a + 1) * 2 ^ 8
  + Buf.get b (a + 2) * 2 ^ 16 + Buf.get b (a + 3) * 2 ^ 24.

(** A [uint32_t] store through a cast pointer on a little-endian host. *)
Definition store_u32 (b : list Z) (a : nat) (v : Z) : list Z :=
  Buf.write b a (le32_bytes v).

(** Modelled from the spec: the macro [PUT32LE] of [rkflashtool.h], which
    is not among the sources; the spec has the CRC32 written immediately
    after the payload as a 32-bit trailer, and the decoder of
    [rkflashtool.c] loads it as a little-endian [uint32_t]. *)
Definition PUT32LE (b : list Z) (a : nat) (v : Z) : list Z :=
  Buf.write b a (le32_bytes v).

(** ** The command block wrapper of [send_cbw] and [send_exec] *)

Definition USBC : list Z := Buf.of_string "USBC".

(** The 31 bytes that [send_cbw(command, offset, nsectors, flag)] leaves
    in [cbw] when [random()] returned [r]. *)
Definition cbw_frame (command offset nsectors flag r : Z) : list Z :=
  let command := Int.u32 command in
  let offset := Int.u32 offset in
  let nsectors := Int.u16 nsectors in
  let flag := Int.u8 flag in
  let cbw := Buf.zeros 31 in
  let cbw := Buf.write cbw 0 USBC in
  let cbw := if r =? 0 then cbw else SETBE32 cbw 4 r in
  let cbw := if offset =? 0 then cbw else SETBE32 cbw 17 offset in
  let cbw := if nsectors =? 0 then cbw else SETBE16 cbw 22 nsectors in
  let cbw := if command =? 0 then cbw else SETBE32 cbw 12 command in
  let cbw := if flag =? 0 then cbw else Buf.set cbw 16 flag in
  cbw.

(** The 31 bytes that [send_exec(krnl_addr, parm_addr)] leaves in [cbw]. *)
Definition exec_frame (krnl_addr parm_addr r : Z) : list Z :=
  let krnl_addr := Int.u32 krnl_addr in
  let parm_addr := Int.u32 parm_addr in
  let cbw := Buf.zeros 31 in
  let cbw := Buf.write cbw 0 USBC in
  let cbw := if r =? 0 then cbw else SETBE32 cbw 4 r in
  let cbw := if krnl_addr =? 0 then cbw else SETBE32 cbw 17 krnl_addr in
  let cbw := if parm_addr =? 0 then cbw else SETBE32 cbw 22 parm_addr in
  SETBE32 cbw 12 RKFT_CMD_EXECUTESDRAM.

(** The receiving side of the frame, following the spec's layout: the
    fields are read back from the positions [send_cbw] writes them to. *)
Module Frame.
Definition signature (f : list Z) : list Z := Buf.read f 0 4.
Definition tag (f : list Z) : Z := GETBE32 f 4.
Definition opcode (f : list Z) : Z := GETBE32 f 12.
Definition modeFlag (f : list Z) : Z := Buf.get f 16.
Definition offset (f : list Z) : Z := GETBE32 f 17.
Definition length (f : list Z) : Z := GETBE16 f 22.
End Frame.

(** ** C strings inside a byte buffer *)

Module CStr.

(** The bytes of [s] up to the first NUL (or the end of the buffer). *)
Fixpoint until_nul (s : list Z) : list Z :=
  match s with
  | [] => []
  | c :: t => if c =? 0 then [] else c :: until_nul t
  end.

(** The C string that starts at index [i] of buffer [b]. *)
Definition at_ (b : list Z) (i : nat) : list Z := until_nul (skipn i b).

Fixpoint is_prefix (p s : list Z) : bool :=
  match p, s with
  | [], _ => true
  | x :: p', y :: s' => (x =? y) && is_prefix p' s'
  | _ :: _, [] => false
  end.

(** Index of the first occurrence of [needle] in [hay]. *)
Fixpoint find (needle hay : list Z) : option nat :=
  if is_prefix needle hay then Some 0%nat
  else match hay with
       | [] => None
       | _ :: t => option_map S (find needle t)
       end.

(** Index of the last occurrence of the character [c] in [s]. *)
Fixpoint rfind (c : Z) (s : list Z) : option nat :=
  match s with
  | [] => None
  | x :: t =>
      match rfind c t with
      | Some i => Some (S i)
      | None => if x =? c then Some 0%nat else None
      end
  end.

(** [strstr(b + i, needle)] as an index into [b]. *)
Definition strstr (b : list Z) (i : nat) (needle : list Z) : option nat :=
  option_map (Nat.add i) (find needle (at_ b i)).

(** [strrchr(b + i, c)] as an index into [b], for [c] other than NUL. *)
Definition strrchr (b : list Z) (i : nat) (c : Z) : option nat :=
  option_map (Nat.add i) (rfind c (at_ b i)).

(** [snprintf(partexp, 256, "(%s)", partname)]: at most 255 characters
    are kept. *)
Definition partexp (partname : list Z) : list Z :=
  firstn 255 (Buf.ch "(" :: partname ++ [Buf.ch ")"]).

(** *** [strtoul(s, NULL, 0)] with a 64-bit [unsigned long] *)

Definition ULONG_MAX : Z := 2 ^ 64 - 1.

Definition isspace (c : Z) : bool := (c =? 32) || ((9 <=? c) && (c <=? 13)).

Definition digit (c : Z) : option Z :=
  if (48 <=? c) && (c <=? 57) then Some (c - 48)
  else if (97 <=? c) && (c <=? 122) then Some (c - 97 + 10)
  else if (65 <=? c) && (c <=? 90) then Some (c - 65 + 10)
  else None.

Fixpoint skip_spaces (s : list Z) : list Z :=
  match s with
  | c :: t => if isspace c then skip_spaces t else s
  | [] => []
  end.

(** The digits of the given base, accumulated until the first character
    that is not one; the flag records an overflow of [unsigned long]. *)
Fixpoint digits (base : Z) (s : list Z) (acc : Z) (ovf : bool) : Z * bool :=
  match s with
  | [] => (acc, ovf)
  | c :: t =>
      match digit c with
      | Some d =>
          if d <? base then
            let acc' := acc * base + d in
            if ULONG_MAX <? acc' then digits base t ULONG_MAX true
            else digits base t acc' ovf
          else (acc, ovf)
      | None => (acc, ovf)
      end
  end.

Definition strtoul (s : list Z) : Z :=
  let s := skip_spaces s in
  let '(neg, s) :=
    match s with
    | c :: t => if c =? Buf.ch "-" then (true, t)
                else if c =? Buf.ch "+" then (false, t) else (false, s)
    | [] => (false, s)
    end in
  let '(base, s) :=
    match s with
    | c :: x :: t =>
        if c =? Buf.ch "0" then
          if (x =? Buf.ch "x") || (x =? Buf.ch "X") then (16, t) else (8, s)
        else (10, s)
    | c :: _ => if c =? Buf.ch "0" then (8, s) else (10, s)
    | [] => (10, s)
    end in
  let '(v, ovf) := digits base s 0 false in
  if ovf then ULONG_MAX else if neg then Int.u64 (- v) else v.

(** [int x = strtoul(s, NULL, 0)]. *)
Definition strtoul_int (s : list Z) : Z := Int.s32 (strtoul s).

End CStr.

(** ** The checksums of [rkcrc.h]

    [rkcrc.h] is not among the sources: the two checksum functions are
    taken as parameters of the program.  [rkcrc16 crc bytes] and
    [rkcrc32 crc bytes] stand for [rkcrc16(crc, p, n)] and
    [rkcrc32(crc, p, n)] where [bytes] are the [n] bytes at [p]. *)

Class RkCrc : Type := {
  rkcrc16 : Z -> list Z -> Z;
  rkcrc32 : Z -> list Z -> Z
}.

(** ** The world of one invocation *)

(** Messages of [info], [infocr] and [fprintf(stderr, ...)]. *)
Inductive message : Type :=
| MsgLoadDDR
| MsgLoadUSB
| MsgWorkingWith (partname : list Z)
| MsgNoMtdparts
| MsgText (text : list Z)
| MsgPartNotFound (partname : list Z)
| MsgBadMtdparts
| MsgFoundOffset (offset : Z)
| MsgToEndOfNand (size : Z)
| MsgFoundSize (size : Z)
| MsgBadSize
| MsgRebooting
| MsgReadingFlash (offset : Z)
| MsgWritingFlash (offset : Z)
| MsgPrematureEOF
| MsgReadingParams (offset : Z)
| MsgSize (size : Z)
| MsgReadError
| MsgReadingMem (offset size : Z)
| MsgWritingMem (offset size : Z)
| MsgBooting
| MsgReadingIDB (offset : Z)
| MsgWritingIDB (offset : Z)
| MsgErasing (offset : Z)
| MsgChipVersion (bytes : list Z)
| MsgFlashID (bytes : list Z)
| MsgFlashInfo (bytes : list Z)
| MsgDone.

(** Messages of [fatal]. *)
Inductive fatal_message : Type :=
| FatalUsage
| FatalBadDataLength
| FatalBadParamLength
| FatalBadCRC (crc_buf crc : Z)
| FatalWriteError.

(** What one invocation does to the outside, in the order it happens. *)
Inductive event : Type :=
| EvInfo (m : message)
| EvFatal (m : fatal_message)
| EvDump (b12 b14 b15 b16 : Z)   (* the [printf] dump of [send_cbw] *)
| EvCbw (frame : list Z)         (* bulk write of the 31 bytes of [cbw] *)
| EvSendBuf (data : list Z)      (* bulk write of payload bytes *)
| EvRecvBuf (length : Z)         (* bulk read of [length] bytes into [buf] *)
| EvRecvCsw                      (* bulk read of the 13 status bytes *)
| EvControl (request value index : Z) (data : list Z)
| EvWrite (data : list Z)        (* [write(STDOUT_FILENO, ...)] *)
| EvUsleep (us : Z)
| EvRelease
| EvClose
| EvLibusbExit.

(** One result of [read(STDIN_FILENO, ...)]: an error, or the bytes that
    are available at that moment. *)
Inductive read_result : Type :=
| RdErr
| RdData (bytes : list Z).

Record world : Type := mkWorld {
  w_buf : list Z;                 (* [buf], [RKFT_BLOCKSIZE] bytes *)
  w_ibuf : list Z;                (* [ibuf], [RKFT_IDB_BLOCKSIZE] bytes *)
  w_stdin : list read_result;     (* what standard input will deliver *)
  w_room : option Z;              (* bytes the output sink still takes *)
  w_dev : list (list Z);          (* what the device sends on each data read *)
  w_rand : list Z;                (* the values [random()] will return *)
  w_trace : list event
}.

(** Standard input redirected from a file holding [bytes]. *)
Definition file_stdin (bytes : list Z) : list read_result := [RdData bytes].

(** The world at program start: the static buffers are zero. *)
Definition initial_world (stdin : list read_result) (room : option Z)
    (dev : list (list Z)) (rand : list Z) : world :=
  mkWorld (Buf.zeros (Z.to_nat RKFT_BLOCKSIZE))
          (Buf.zeros (Z.to_nat RKFT_IDB_BLOCKSIZE))
          stdin room dev rand [].

(** Why control leaves the straight-line flow of [main].  At an access
    outside [buf] the C program has no defined behaviour: the model
    stops there with [Undefined], so a trace of such a run holds the
    events up to that access and tells nothing of what a compiled
    program does after it. *)
Inductive stop : Type :=
| GotoExit      (* [goto exit] *)
| Exit1         (* [fatal]: [exit(1)] *)
| Undefined     (* an access outside [buf] *)
| OutOfFuel.

Inductive res (A : Type) : Type :=
| Ok (a : A)
| Stop (s : stop).
Arguments Ok {A} a.
Arguments Stop {A} s.

Definition M (A : Type) : Type := world -> res A * world.

Definition ret {A} (a : A) : M A := fun w => (Ok a, w).

Definition bind {A B} (m : M A) (k : A -> M B) : M B :=
  fun w => match m w with
           | (Ok a, w') => k a w'
           | (Stop s, w') => (Stop s, w')
           end.

Definition halt {A} (s : stop) : M A := fun w => (Stop s, w).

Declare Scope prog_scope.
Delimit Scope prog_scope with prog.
Notation "x <- m ;; k" := (bind m (fun x => k))
  (at level 61, m at next level, right associativity) : prog_scope.
Notation "m ;; k" := (bind m (fun _ => k))
  (at level 61, right associativity) : prog_scope.
Local Open Scope prog_scope.

Definition emit (e : event) : M unit :=
  fun w => (Ok tt, mkWorld (w_buf w) (w_ibuf w) (w_stdin w) (w_room w)
                           (w_dev w) (w_rand w) (w_trace w ++ [e])).

Definition get_buf : M (list Z) := fun w => (Ok (w_buf w), w).
Definition get_ibuf : M (list Z) := fun w => (Ok (w_ibuf w), w).

Definition set_buf (b : list Z) : M unit :=
  fun w => (Ok tt, mkWorld b (w_ibuf w) (w_stdin w) (w_room w)
                           (w_dev w) (w_rand w) (w_trace w)).

Definition set_ibuf (b : list Z) : M unit :=
  fun w => (Ok tt, mkWorld (w_buf w) b (w_stdin w) (w_room w)
                           (w_dev w) (w_rand w) (w_trace w)).

Definition info (m : message) : M unit := emit (EvInfo m).

Definition fatal {A} (m : fatal_message) : M A := emit (EvFatal m) ;; halt Exit1.

Definition goto_exit {A} : M A := halt GotoExit.

(** [random()]. *)
Definition random : M Z :=
  fun w => (Ok (hd 0 (w_rand w)),
            mkWorld (w_buf w) (w_ibuf w) (w_stdin w) (w_room w)
                    (w_dev w) (tl (w_rand w)) (w_trace w)).

(** [send_cbw]: build the frame, dump four of its bytes with [printf],
    send it. *)
Definition send_cbw (command offset nsectors flag : Z) : M unit :=
  r <- random ;;
  let cbw := cbw_frame command offset nsectors flag r in
  emit (EvDump (Buf.get cbw 12) (Buf.get cbw 14) (Buf.get cbw 15) (Buf.get cbw 16)) ;;
  emit (EvCbw cbw).

Definition send_exec (krnl_addr parm_addr : Z) : M unit :=
  r <- random ;;
  emit (EvCbw (exec_frame krnl_addr parm_addr r)).

(** [send_buf(length)]: the first [length] bytes of [buf]. *)
Definition send_buf (length : Z) : M unit :=
  b <- get_buf ;;
  if Buf.inside b 0 length
  then emit (EvSendBuf (Buf.read b 0 (Z.to_nat length)))
  else halt Undefined.

Definition recv_csw : M unit := emit EvRecvCsw.

(** [recv_buf(length)]: the device's next answer, cut to [length] bytes,
    overwrites the start of [buf]. *)
Definition recv_buf (length : Z) : M unit :=
  emit (EvRecvBuf length) ;;
  fun w =>
    let d := firstn (Z.to_nat length) (hd [] (w_dev w)) in
    if Buf.len d <=? Buf.len (w_buf w)
    then (Ok tt, mkWorld (Buf.write (w_buf w) 0 d) (w_ibuf w) (w_stdin w)
                         (w_room w) (tl (w_dev w)) (w_rand w) (w_trace w))
    else (Stop Undefined, w).

(** [libusb_control_transfer(h, LIBUSB_REQUEST_TYPE_VENDOR, request, value,
    index, buf, nr, 0)]. *)
Definition control_transfer (request value index nr : Z) : M unit :=
  b <- get_buf ;;
  if Buf.inside b 0 nr
  then emit (EvControl request value index (Buf.read b 0 (Z.to_nat nr)))
  else halt Undefined.

(** The next result of [read(STDIN_FILENO, _, count)]: the return value,
    the bytes stored, and what standard input has left. *)
Definition sys_read (count : Z) (s : list read_result)
    : Z * list Z * list read_result :=
  match s with
  | [] => (0, [], [])
  | RdErr :: s' => (-1, [], s')
  | RdData d :: s' =>
      if Buf.len d <=? count then (Buf.len d, d, s')
      else (count, firstn (Z.to_nat count) d,
            RdData (skipn (Z.to_nat count) d) :: s')
  end.

(** [read(STDIN_FILENO, buf + at, count)]. *)
Definition read_stdin_buf (at_ : nat) (count : Z) : M Z :=
  fun w =>
    let '(n, d, s') := sys_read count (w_stdin w) in
    (Ok n, mkWorld (Buf.write (w_buf w) at_ d) (w_ibuf w) s' (w_room w)
                   (w_dev w) (w_rand w) (w_trace w)).

(** [read(STDIN_FILENO, ibuf, count)]. *)
Definition read_stdin_ibuf (count : Z) : M Z :=
  fun w =>
    let '(n, d, s') := sys_read count (w_stdin w) in
    (Ok n, mkWorld (w_buf w) (Buf.write (w_ibuf w) 0 d) s' (w_room w)
                   (w_dev w) (w_rand w) (w_trace w)).

(** [write(STDOUT_FILENO, buf + at, count)]: the return value.  A sink
    with no room left refuses a non-empty write with -1; otherwise as
    many bytes as there is room for are taken. *)
Definition write_stdout (at_ : Z) (count : Z) : M Z :=
  b <- get_buf ;;
  if negb (Buf.inside b at_ count) then halt Undefined
  else
    let d := Buf.read b (Z.to_nat at_) (Z.to_nat count) in
    fun w =>
      match w_room w with
      | None =>
          (Ok count, mkWorld (w_buf w) (w_ibuf w) (w_stdin w) None (w_dev w)
                             (w_rand w) (w_trace w ++ [EvWrite d]))
      | Some room =>
          if (0 <? count) && (room <=? 0) then (Ok (-1), w)
          else
            let k := Z.min count room in
            (Ok k, mkWorld (w_buf w) (w_ibuf w) (w_stdin w) (Some (room - k))
                           (w_dev w) (w_rand w)
                           (w_trace w ++ [EvWrite (firstn (Z.to_nat k) d)]))
      end.

(** ** NAND information, as [main] reads it from the start of [buf] *)

Record nand_info : Type := mkNand {
  flash_size : Z;
  block_size : Z;
  page_size : Z;
  ecc_bits : Z;
  access_time : Z;
  manufacturer_id : Z;
  chip_select : Z
}.

(** [(nand_info * ) buf]: the fields at their offsets in the struct. *)
Definition nand_of_buf (b : list Z) : nand_info :=
  mkNand (load_u32 b 0)
         (Buf.get b 4 + Buf.get b 5 * 2 ^ 8)
         (Buf.get b 6) (Buf.get b 7) (Buf.get b 8) (Buf.get b 9) (Buf.get b 10).

(** ** The program *)

Section Program.

Context {crc : RkCrc}.

(** *** Boot-stage loaders: cases ['l'] and ['L'] of the first switch *)

Fixpoint load_loop (fuel : nat) (index crc16 : Z) : M unit :=
  match fuel with
  | O => halt OutOfFuel
  | S fuel =>
      nr <- read_stdin_buf 0 4096 ;;
      if nr =? 4096 then
        b <- get_buf ;;
        let crc16 := Int.u16 (rkcrc16 crc16 (Buf.read b 0 (Z.to_nat nr))) in
        control_transfer 12 0 index nr ;;
        load_loop fuel index crc16
      else if negb (nr =? -1) then
        b <- get_buf ;;
        let crc16 := Int.u16 (rkcrc16 crc16 (Buf.read b 0 (Z.to_nat nr))) in
        set_buf (Buf.set b (Z.to_nat nr) (Int.u8 (Z.shiftr crc16 8))) ;;
        b <- get_buf ;;
        set_buf (Buf.set b (Z.to_nat (nr + 1)) (Int.u8 (Z.land crc16 0xff))) ;;
        control_transfer 12 0 index (nr + 2)
      else ret tt
  end.

(** Enough fuel for [load_loop]: every [read] either takes an entry of
    the input script or 4096 bytes of one. *)
Fixpoint stdin_fuel (s : list read_result) : nat :=
  match s with
  | [] => 1
  | RdErr :: s' => S (stdin_fuel s')
  | RdData d :: s' => S (List.length d + stdin_fuel s')
  end.

Definition load_loader (m : message) (index : Z) : M unit :=
  info m ;;
  s <- (fun w => (Ok (w_stdin w), w)) ;;
  load_loop (stdin_fuel s) index 0xffff ;;
  goto_exit.

(** *** Partition resolution: the block [if (partname) { ... }] *)

Definition resolve_partition (partname : list Z) (flag : Z) : M (Z * Z) :=
  info (MsgWorkingWith partname) ;;
  send_cbw RKFT_CMD_READLBA 0 RKFT_OFF_INCR flag ;;
  recv_buf RKFT_BLOCKSIZE ;;
  recv_csw ;;
  b <- get_buf ;;
  let size := Int.s32 (load_u32 b 4) in
  if (size <? 0) || (size >? MAX_PARAM_LENGTH) then fatal FatalBadDataLength
  else
  match CStr.strstr b 8 (Buf.of_string "mtdparts=") with
  | None => info MsgNoMtdparts ;; goto_exit
  | Some mtdparts =>
  info (MsgText (CStr.at_ b mtdparts)) ;;
  match CStr.strstr b mtdparts (CStr.partexp partname) with
  | None => info (MsgPartNotFound partname) ;; goto_exit
  | Some par =>
  info (MsgText (CStr.at_ b par)) ;;
  set_buf (Buf.set b par 0) ;;
  b <- get_buf ;;
  match CStr.strrchr b mtdparts (Buf.ch "@") with
  | None => info MsgBadMtdparts ;; goto_exit
  | Some arob =>
  let offset := CStr.strtoul_int (CStr.at_ b (arob + 1)) in
  info (MsgFoundOffset offset) ;;
  set_buf (Buf.set b arob 0) ;;
  b <- get_buf ;;
  match CStr.strrchr b mtdparts (Buf.ch "-") with
  | Some minus =>
      send_cbw RKFT_CMD_READFLASHINFO 0 0 flag ;;
      recv_buf 512 ;;
      recv_csw ;;
      b <- get_buf ;;
      let size := Int.s32 (flash_size (nand_of_buf b) - offset) in
      info (MsgToEndOfNand size) ;;
      ret (offset, size)
  | None =>
  match CStr.strrchr b mtdparts (Buf.ch ",") with
  | Some comma =>
      let size := CStr.strtoul_int (CStr.at_ b (comma + 1)) in
      info (MsgFoundSize size) ;;
      ret (offset, size)
  | None =>
  match CStr.strrchr b mtdparts (Buf.ch ":") with
  | Some colon =>
      let size := CStr.strtoul_int (CStr.at_ b (colon + 1)) in
      info (MsgFoundSize size) ;;
      ret (offset, size)
  | None => info MsgBadSize ;; goto_exit
  end end end end end end.

(** *** The cases of the second switch *)

(** Case ['b']. *)
Definition reboot_device (flag : Z) : M unit :=
  info MsgRebooting ;;
  send_cbw RKFT_CMD_RESETDEVICE 0 0 flag ;;
  recv_csw.

(** Case ['r']: the loop [while (size > 0)]. *)
Fixpoint read_flash_loop (fuel : nat) (flag offset size : Z) : M unit :=
  match fuel with
  | O => halt OutOfFuel
  | S fuel =>
      if size >? 0 then
        info (MsgReadingFlash offset) ;;
        send_cbw RKFT_CMD_READLBA offset RKFT_OFF_INCR flag ;;
        recv_buf RKFT_BLOCKSIZE ;;
        recv_csw ;;
        n <- write_stdout 0 RKFT_BLOCKSIZE ;;
        if n <=? 0 then fatal FatalWriteError
        else read_flash_loop fuel flag (Int.s32 (offset + RKFT_OFF_INCR))
                             (Int.s32 (size - RKFT_OFF_INCR))
      else ret tt
  end.

Definition read_flash (flag offset size : Z) : M unit :=
  read_flash_loop (S (Z.to_nat size)) flag offset size ;;
  info MsgDone.

(** Case ['w']. *)
Fixpoint write_flash_loop (fuel : nat) (flag offset size : Z) : M unit :=
  match fuel with
  | O => halt OutOfFuel
  | S fuel =>
      if size >? 0 then
        info (MsgWritingFlash offset) ;;
        n <- read_stdin_buf 0 RKFT_BLOCKSIZE ;;
        if n <=? 0 then
          info MsgDone ;;
          info MsgPrematureEOF ;;
          goto_exit
        else
          send_cbw RKFT_CMD_WRITELBA offset RKFT_OFF_INCR flag ;;
          send_buf RKFT_BLOCKSIZE ;;
          recv_csw ;;
          write_flash_loop fuel flag (Int.s32 (offset + RKFT_OFF_INCR))
                           (Int.s32 (size - RKFT_OFF_INCR))
      else ret tt
  end.

Definition write_flash (flag offset size : Z) : M unit :=
  write_flash_loop (S (Z.to_nat size)) flag offset size ;;
  info MsgDone.

(** Case ['p']. *)
Definition read_parameters (flag offset : Z) : M unit :=
  info (MsgReadingParams offset) ;;
  send_cbw RKFT_CMD_READLBA offset RKFT_OFF_INCR flag ;;
  recv_buf RKFT_BLOCKSIZE ;;
  recv_csw ;;
  b <- get_buf ;;
  let size := Int.s32 (load_u32 b 4) in
  info (MsgSize size) ;;
  if (size <? 0) || (size >? MAX_PARAM_LENGTH) then fatal FatalBadParamLength
  else if negb (Buf.inside b (8 + size) 4) then halt Undefined
  else
    let crc_buf := load_u32 b (Z.to_nat (8 + size)) in
    let crc := Int.u32 (rkcrc32 0 (Buf.read b 8 (Z.to_nat size))) in
    if negb (crc_buf =? crc) then fatal (FatalBadCRC crc_buf crc)
    else
      n <- write_stdout 8 size ;;
      if n <=? 0 then fatal FatalWriteError else ret tt.

(** Case ['P']: the loop over the eight copies. *)
Fixpoint write_parameters_loop (fuel : nat) (flag offset : Z) : M unit :=
  match fuel with
  | O => halt OutOfFuel
  | S fuel =>
      if offset <? 0x2000 then
        info (MsgWritingFlash offset) ;;
        send_cbw RKFT_CMD_WRITELBA offset RKFT_OFF_INCR flag ;;
        send_buf RKFT_BLOCKSIZE ;;
        recv_csw ;;
        write_parameters_loop fuel flag (offset + 0x400)
      else ret tt
  end.

Definition write_parameters (flag : Z) : M unit :=
  b <- get_buf ;;
  set_buf (Buf.write b 0 (Buf.of_string "PARM")) ;;
  sizeRead <- read_stdin_buf 8 (RKFT_BLOCKSIZE - 8) ;;
  if sizeRead <? 0 then info MsgReadError ;; goto_exit
  else
    b <- get_buf ;;
    set_buf (store_u32 b 4 sizeRead) ;;
    b <- get_buf ;;
    let crc := Int.u32 (rkcrc32 0 (Buf.read b 8 (Z.to_nat sizeRead))) in
    if negb (Buf.inside b (8 + sizeRead) 4) then halt Undefined
    else
      set_buf (PUT32LE b (Z.to_nat (8 + sizeRead)) crc) ;;
      write_parameters_loop 9 flag 0 ;;
      info MsgDone.

(** Case ['m']; [incr] is the constant [RKFT_BLOCKSIZE] of the loop. *)
Fixpoint read_ram_loop (incr : Z) (fuel : nat) (flag offset size : Z)
    : M unit :=
  match fuel with
  | O => halt OutOfFuel
  | S fuel =>
      if size >? 0 then
        let sizeRead := if size >? incr then incr else size in
        info (MsgReadingMem offset sizeRead) ;;
        send_cbw RKFT_CMD_READSDRAM (offset - SDRAM_BASE_ADDRESS) sizeRead flag ;;
        recv_buf sizeRead ;;
        recv_csw ;;
        n <- write_stdout 0 sizeRead ;;
        if n <=? 0 then fatal FatalWriteError
        else read_ram_loop incr fuel flag (Int.s32 (offset + sizeRead))
                           (Int.s32 (size - sizeRead))
      else ret tt
  end.

Definition read_ram (flag offset size : Z) : M unit :=
  read_ram_loop RKFT_BLOCKSIZE (S (Z.to_nat size)) flag offset size ;;
  info MsgDone.

(** Case ['M']. *)
Fixpoint write_ram_loop (fuel : nat) (flag offset size : Z) : M unit :=
  match fuel with
  | O => halt OutOfFuel
  | S fuel =>
      if size >? 0 then
        sizeRead <- read_stdin_buf 0 RKFT_BLOCKSIZE ;;
        if sizeRead <=? 0 then
          info MsgPrematureEOF ;;
          goto_exit
        else
          info (MsgWritingMem offset sizeRead) ;;
          send_cbw RKFT_CMD_WRITESDRAM (offset - SDRAM_BASE_ADDRESS) sizeRead flag ;;
          send_buf sizeRead ;;
          recv_csw ;;
          write_ram_loop fuel flag (Int.s32 (offset + sizeRead))
                         (Int.s32 (size - sizeRead))
      else ret tt
  end.

Definition write_ram (flag offset size : Z) : M unit :=
  write_ram_loop (S (Z.to_nat size)) flag offset size ;;
  info MsgDone.

(** Case ['B']. *)
Definition exec_ram (offset size : Z) : M unit :=
  info MsgBooting ;;
  send_exec (offset - SDRAM_BASE_ADDRESS) (size - SDRAM_BASE_ADDRESS) ;;
  recv_csw.

(** Case ['i']. *)
Fixpoint read_idb_loop (fuel : nat) (flag offset size : Z) : M unit :=
  match fuel with
  | O => halt OutOfFuel
  | S fuel =>
      if size >? 0 then
        let sizeRead := if size >? RKFT_IDB_INCR then RKFT_IDB_INCR else size in
        info (MsgReadingIDB offset) ;;
        send_cbw RKFT_CMD_READSECTOR offset sizeRead flag ;;
        recv_buf (RKFT_IDB_BLOCKSIZE * sizeRead) ;;
        recv_csw ;;
        n <- write_stdout 0 (RKFT_IDB_BLOCKSIZE * sizeRead) ;;
        if n <=? 0 then fatal FatalWriteError
        else read_idb_loop fuel flag (Int.s32 (offset + sizeRead))
                           (Int.s32 (size - sizeRead))
      else ret tt
  end.

Definition read_idb (flag offset size : Z) : M unit :=
  read_idb_loop (S (Z.to_nat size)) flag offset size ;;
  info MsgDone.

(** Case ['j']: one pass of the loop body, up to the bulk write of
    [ibuf]; [false] when [read] returned no data. *)
Definition write_idb_block (flag offset : Z) : M bool :=
  info (MsgWritingIDB offset) ;;
  ib <- get_ibuf ;;
  set_ibuf (Buf.memset ib RKFT_IDB_BLOCKSIZE (Z.to_nat 0xff)) ;;
  n <- read_stdin_ibuf RKFT_IDB_DATASIZE ;;
  if n <=? 0 then ret false
  else
    send_cbw RKFT_CMD_WRITESECTOR offset 1 flag ;;
    ib <- get_ibuf ;;
    emit (EvSendBuf (Buf.read ib 0 (Z.to_nat RKFT_IDB_BLOCKSIZE))) ;;
    recv_csw ;;
    ret true.

Fixpoint write_idb_loop (fuel : nat) (flag offset size : Z) : M unit :=
  match fuel with
  | O => halt OutOfFuel
  | S fuel =>
      if size >? 0 then
        sent <- write_idb_block flag offset ;;
        if sent then
          write_idb_loop fuel flag (Int.s32 (offset + 1)) (Int.s32 (size - 1))
        else
          info MsgDone ;;
          info MsgPrematureEOF ;;
          goto_exit
      else ret tt
  end.

Definition write_idb (flag offset size : Z) : M unit :=
  write_idb_loop (S (Z.to_nat size)) flag offset size ;;
  info MsgDone.

(** Case ['e']. *)
Fixpoint erase_flash_loop (fuel : nat) (flag offset size : Z) : M unit :=
  match fuel with
  | O => halt OutOfFuel
  | S fuel =>
      if size >? 0 then
        info (MsgErasing offset) ;;
        send_cbw RKFT_CMD_WRITELBA offset RKFT_OFF_INCR flag ;;
        send_buf RKFT_BLOCKSIZE ;;
        recv_csw ;;
        erase_flash_loop fuel flag (Int.s32 (offset + RKFT_OFF_INCR))
                         (Int.s32 (size - RKFT_OFF_INCR))
      else ret tt
  end.

Definition erase_flash (flag offset size : Z) : M unit :=
  b <- get_buf ;;
  set_buf (Buf.memset b 0xff (Z.to_nat RKFT_BLOCKSIZE)) ;;
  erase_flash_loop (S (Z.to_nat size)) flag offset size ;;
  info MsgDone.

(** Case ['v']. *)
Definition read_chip_version (flag : Z) : M unit :=
  send_cbw RKFT_CMD_READCHIPINFO 0 0 flag ;;
  recv_buf 16 ;;
  recv_csw ;;
  b <- get_buf ;;
  info (MsgChipVersion
          (map (Buf.get b) [3; 2; 1; 0; 7; 6; 5; 4; 11; 10; 9; 8; 15; 14; 13; 12]%nat)).

(** Case ['n']. *)
Definition read_nand_info (flag : Z) : M unit :=
  send_cbw RKFT_CMD_READFLASHID 0 0 flag ;;
  recv_buf 5 ;;
  recv_csw ;;
  b <- get_buf ;;
  info (MsgFlashID (Buf.read b 0 5)) ;;
  send_cbw RKFT_CMD_READFLASHINFO 0 0 flag ;;
  recv_buf 512 ;;
  recv_csw ;;
  b <- get_buf ;;
  info (MsgFlashInfo (Buf.read b 0 11)).

(** *** The command line, as the first switch leaves it *)

Record request : Type := mkRequest {
  rq_action : Z;
  rq_partname : option (list Z);
  rq_offset : Z;
  rq_size : Z;
  rq_flag : Z
}.

(** [args] are [argv[1]], [argv[2]], ...; [None] is [usage()]. *)
Definition parse_args (args : list (list Z)) : option request :=
  match args with
  | [] => None
  | a :: rest =>
      let action := hd 0 a in
      let argc := List.length rest in
      let arg i := CStr.strtoul (nth i rest []) in
      let on c := action =? Buf.ch c in
      if on "b"%char then
        if (1 <? argc)%nat then None
        else if (argc =? 1)%nat
             then Some (mkRequest action None 0 0 (Int.u8 (arg 0%nat)))
             else Some (mkRequest action None 0 0 0)
      else if on "l"%char || on "L"%char then
        if (argc =? 0)%nat then Some (mkRequest action None 0 0 0) else None
      else if on "e"%char || on "r"%char || on "w"%char then
        if (argc <? 1)%nat || (2 <? argc)%nat then None
        else if (argc =? 1)%nat
             then Some (mkRequest action (Some (nth 0 rest [])) 0 0 0)
             else Some (mkRequest action None (Int.s32 (arg 0%nat))
                                  (Int.s32 (arg 1%nat)) 0)
      else if on "m"%char || on "M"%char || on "B"%char || on "i"%char || on "j"%char then
        if negb (argc =? 2)%nat then None
        else Some (mkRequest action None (Int.s32 (arg 0%nat))
                             (Int.s32 (arg 1%nat)) 0)
      else if on "n"%char || on "v"%char || on "p"%char || on "P"%char then
        if (argc =? 0)%nat then Some (mkRequest action None 0 1024 0) else None
      else None
  end.

(** *** [main] from the first [switch(action)] after the device is open *)

Definition do_action (action flag offset size : Z) : M unit :=
  let on c := action =? Buf.ch c in
  if on "b"%char then reboot_device flag
  else if on "r"%char then read_flash flag offset size
  else if on "w"%char then write_flash flag offset size
  else if on "p"%char then read_parameters flag offset
  else if on "P"%char then write_parameters flag
  else if on "m"%char then read_ram flag offset size
  else if on "M"%char then write_ram flag offset size
  else if on "B"%char then exec_ram offset size
  else if on "i"%char then read_idb flag offset size
  else if on "j"%char then write_idb flag offset size
  else if on "e"%char then erase_flash flag offset size
  else if on "v"%char then read_chip_version flag
  else if on "n"%char then read_nand_info flag
  else ret tt.

Definition main_body (rq : request) : M unit :=
  let action := rq_action rq in
  let flag := rq_flag rq in
  (if action =? Buf.ch "l" then load_loader MsgLoadDDR 1137
   else if action =? Buf.ch "L" then load_loader MsgLoadUSB 1138
   else ret tt) ;;
  send_cbw RKFT_CMD_TESTUNITREADY 0 0 flag ;;
  recv_csw ;;
  emit (EvUsleep (20 * 1000)) ;;
  os <- match rq_partname rq with
        | Some partname => resolve_partition partname flag
        | None => ret (rq_offset rq, rq_size rq)
        end ;;
  do_action action flag (fst os) (snd os).

(** The label [exit]. *)
Definition teardown : M unit :=
  emit EvRelease ;; emit EvClose ;; emit EvLibusbExit.

(** How the process ends.  [Crashed Undefined] is the run that the
    model stops at an access outside a buffer, see [stop]. *)
Inductive outcome : Type :=
| Returned (code : Z)     (* [return] from [main], after [exit:] *)
| Exited (code : Z)       (* [exit(1)] inside [fatal] *)
| Crashed (s : stop).

Definition run (body : M unit) (w : world) : outcome * world :=
  match body w with
  | (Ok _, w') => (Returned 0, snd (teardown w'))
  | (Stop GotoExit, w') => (Returned 0, snd (teardown w'))
  | (Stop Exit1, w') => (Exited 1, w')
  | (Stop s, w') => (Crashed s, w')
  end.

(** [main] from the first [switch(action)] on, on a device that the
    start of [main] has found, opened and claimed.  The version banner
    that [info] prints before the command line is examined, and the
    messages and fatal exits of the detection (see [detect] and
    [open_device]), are not events of this trace. *)
Definition main (args : list (list Z)) (w : world) : outcome * world :=
  match parse_args args with
  | None => run (fatal FatalUsage) w
  | Some rq => run (main_body rq) w
  end.

End Program.

(** ** Reading a trace *)

(** The two events of one call of [send_cbw]. *)
Definition cbw_events (command offset nsectors flag r : Z) : list event :=
  let cbw := cbw_frame command offset nsectors flag r in
  [EvDump (Buf.get cbw 12) (Buf.get cbw 14) (Buf.get cbw 15) (Buf.get cbw 16);
   EvCbw cbw].

(** The command frames of a trace, in order. *)
Definition frames (t : list event) : list (list Z) :=
  flat_map (fun e => match e with EvCbw f => [f] | _ => [] end) t.

(** The payloads of the bulk writes of a trace. *)
Definition sent (t : list event) : list (list Z) :=
  flat_map (fun e => match e with EvSendBuf d => [d] | _ => [] end) t.

(** The lengths of the bulk reads of a trace. *)
Definition requested (t : list event) : list Z :=
  flat_map (fun e => match e with EvRecvBuf n => [n] | _ => [] end) t.

(** What a trace wrote to standard output with [write]. *)
Definition written (t : list event) : list (list Z) :=
  flat_map (fun e => match e with EvWrite d => [d] | _ => [] end) t.

(** The payloads of the vendor control transfers of a trace. *)
Definition controls (t : list event) : list (list Z) :=
  flat_map (fun e => match e with EvControl _ _ _ d => [d] | _ => [] end) t.

Definition fatals (t : list event) : list fatal_message :=
  flat_map (fun e => match e with EvFatal m => [m] | _ => [] end) t.

(** Opcode, offset, length and mode flag of a frame. *)
Definition fields (f : list Z) : Z * Z * Z * Z :=
  (Frame.opcode f, Frame.offset f, Frame.length f, Frame.modeFlag f).

(** The opcodes whose frames carry data to the device or change its
    state: those without the direction bit [0x80] in the flags byte. *)
Definition mutating (f : list Z) : bool := negb (Z.testbit (Frame.opcode f) 31).

(** ** The parameter blob, as the spec lays it out *)

(** Magic, little-endian length, payload and CRC32 trailer, followed by
    the rest of the block. *)
Definition param_blob {crc : RkCrc} (payload : list Z) : list Z :=
  Buf.of_string "PARM" ++ le32_bytes (Buf.len payload) ++ payload
  ++ le32_bytes (Int.u32 (rkcrc32 0 payload))
  ++ Buf.zeros (Z.to_nat RKFT_BLOCKSIZE - 12 - List.length payload).

(** The same block with the payload replaced and the trailer kept. *)
Definition param_blob_with {crc : RkCrc} (payload tampered : list Z) : list Z :=
  Buf.of_string "PARM" ++ le32_bytes (Buf.len payload) ++ tampered
  ++ le32_bytes (Int.u32 (rkcrc32 0 payload))
  ++ Buf.zeros (Z.to_nat RKFT_BLOCKSIZE - 12 - List.length payload).

(** What case ['p'] does up to its length check, when [random()]
    returned [r] and the length field reads [size]. *)
Definition received_events (r : Z) (size : Z) : list event :=
  [EvInfo (MsgReadingParams 0)]
  ++ cbw_events RKFT_CMD_READLBA 0 RKFT_OFF_INCR 0 r
  ++ [EvRecvBuf RKFT_BLOCKSIZE; EvRecvCsw; EvInfo (MsgSize size)].

(** The world after the readiness probe that precedes every action but
    the loaders. *)
Definition probed (w : world) (flag : Z) : world :=
  mkWorld (w_buf w) (w_ibuf w) (w_stdin w) (w_room w) (w_dev w)
          (tl (w_rand w))
          (w_trace w
           ++ cbw_events RKFT_CMD_TESTUNITREADY 0 0 flag (hd 0 (w_rand w))
           ++ [EvRecvCsw; EvUsleep (20 * 1000)]).

(** The events of one of the eight copies that case ['P'] writes: the
    block [b] at [offset], when [random()] returned [r]. *)
Definition copy_events (b : list Z) (offset r : Z) : list event :=
  [EvInfo (MsgWritingFlash offset)]
  ++ cbw_events RKFT_CMD_WRITELBA offset RKFT_OFF_INCR 0 r
  ++ [EvSendBuf b; EvRecvCsw].

(** A checksum that tells apart two payloads that differ in one byte. *)
Definition detects_byte_flips (crc : RkCrc) : Prop :=
  forall (pre post : list Z) (b b' : Z),
    Buf.bytes pre = true -> Buf.bytes post = true ->
    0 <= b < 256 -> 0 <= b' < 256 -> b <> b' ->
    Int.u32 (rkcrc32 0 (pre ++ b :: post))
    <> Int.u32 (rkcrc32 0 (pre ++ b' :: post)).

(** ** A pair of checksums to run the program with

    Cyclic redundancy checks computed bit by bit, most significant bit
    first, over a register of [width] bits with generator [poly]. *)

Module BitCrc.

(** One shift of the register. *)
Definition shift (width poly c : Z) : Z :=
  if c <? 2 ^ (width - 1) then 2 * c
  else Z.lxor (2 * c - 2 ^ width) poly.

(** One byte: it enters at the top of the register, eight shifts
    follow. *)
Definition step (width poly c b : Z) : Z :=
  let s := shift width poly in
  s (s (s (s (s (s (s (s (Z.lxor c (b * 2 ^ (width - 8)))))))))).

Definition crc (width poly c : Z) (bytes : list Z) : Z :=
  fold_left (step width poly) bytes c.

End BitCrc.

Definition bit_crc : RkCrc :=
  {| rkcrc16 := BitCrc.crc 16 0x1021;
     rkcrc32 := BitCrc.crc 32 0x04c10db7 |}.

(** The eight copies of case ['P'], for the tags [random()] returns. *)
Definition copies_events (b : list Z) (rand : list Z) : list event :=
  copy_events b 0 (nth 0 rand 0) ++ copy_events b 0x400 (nth 1 rand 0)
  ++ copy_events b 0x800 (nth 2 rand 0) ++ copy_events b 0xc00 (nth 3 rand 0)
  ++ copy_events b 0x1000 (nth 4 rand 0) ++ copy_events b 0x1400 (nth 5 rand 0)
  ++ copy_events b 0x1800 (nth 6 rand 0) ++ copy_events b 0x1c00 (nth 7 rand 0).

(** ** Partition resolution over an immutable text

    The resolver of the spec, on slices of the parameter text instead of
    NUL bytes written into [buf]: locate the table, locate the bracketed
    name, take the number after the last '@' before it, then look for
    '-', ',' and ':' in what precedes that '@'. *)







(** ** Blocks and tables used in the examples *)

(** A received parameter block: the length field at byte 4, the text
    from byte 8, zeros elsewhere. *)
Definition param_block (length : Z) (text : string) : list Z :=
  store_u32 (Buf.write (Buf.zeros (Z.to_nat RKFT_BLOCKSIZE)) 8
                       (Buf.of_string text)) 4 length.






(** ** The windows of a transfer loop, as the spec describes them *)

(** [window = min(totalCount, maxWindow)] while [totalCount > 0]; each
    entry is the offset and the unit count of one window. *)
Fixpoint windows (fuel : nat) (maxWindow offset totalCount : Z)
    : list (Z * Z) :=
  match fuel with
  | O => []
  | S fuel =>
      if totalCount >? 0 then
        let window := Z.min totalCount maxWindow in
        (offset, window)
        :: windows fuel maxWindow (offset + window) (totalCount - window)
      else []
  end.

Definition windows_of (maxWindow offset totalCount : Z) : list (Z * Z) :=
  windows (S (Z.to_nat totalCount)) maxWindow offset totalCount.

(** Windows that are always full: [window = maxWindow] while
    [totalCount > 0]. *)
Fixpoint full_windows (fuel : nat) (maxWindow offset totalCount : Z)
    : list (Z * Z) :=
  match fuel with
  | O => []
  | S fuel =>
      if totalCount >? 0 then
        (offset, maxWindow)
        :: full_windows fuel maxWindow (offset + maxWindow)
                        (totalCount - maxWindow)
      else []
  end.

Definition full_windows_of (maxWindow offset totalCount : Z) : list (Z * Z) :=
  full_windows (S (Z.to_nat totalCount)) maxWindow offset totalCount.

(** The offset a loop ends with: the start plus all its windows. *)
Definition final_offset (offset : Z) (ws : list (Z * Z)) : Z :=
  fold_left (fun o p => o + snd p) ws offset.

(** ** The write loop on an input that runs dry *)

(** The offsets of [n] consecutive windows of [incr] units. *)
Fixpoint window_offsets (n : nat) (incr offset : Z) : list Z :=
  match n with
  | O => []
  | S n => offset :: window_offsets n incr (offset + incr)
  end.

(** What [buf] holds after each of the reads that deliver [chunks], one
    after the other, into its start. *)
Fixpoint overlays (b : list Z) (chunks : list (list Z)) : list (list Z) :=
  match chunks with
  | [] => []
  | c :: chunks =>
      let b := Buf.write b 0 c in
      b :: overlays b chunks
  end.

(** A chunk that one [read] of a block delivers whole. *)
Definition window_chunk (c : list Z) : bool :=
  (0 <? Buf.len c) && (Buf.len c <=? RKFT_BLOCKSIZE).

(** The return value of the next [read] of a block. *)
Definition next_read (s : list read_result) : Z :=
  fst (fst (sys_read RKFT_BLOCKSIZE s)).

(** Case ['w'] with explicit offset and size, as the first switch leaves
    it. *)
Definition write_request (offset size : Z) : request :=
  mkRequest (Buf.ch "w") None offset size 0.

(** The end of a run whose write loop ran out of input. *)
Definition premature_end : list event :=
  [EvInfo MsgDone; EvInfo MsgPrematureEOF; EvRelease; EvClose; EvLibusbExit].

(** ** The boot-stage loaders *)

(** The running 16-bit checksum over the chunks sent, from [0xffff]. *)
Definition running_crc16 {crc : RkCrc} (chunks : list (list Z)) : Z :=
  fold_left (fun c chunk => Int.u16 (rkcrc16 c chunk)) chunks 0xffff.

(** Request, value and index of the control transfers of a trace. *)
Definition control_targets (t : list event) : list (Z * Z * Z) :=
  flat_map (fun e => match e with
                     | EvControl rq v i _ => [(rq, v, i)]
                     | _ => []
                     end) t.

(** ** ID blocks used in the examples *)



(* ================================================================== *)
(** * Part I, continued: the whole run, the remaining actions and the
      start of [main] *)
(* ================================================================== *)

(** ** What reaches standard output

    Two calls put bytes on standard output: [write(STDOUT_FILENO, ...)]
    in the cases ['r'], ['p'], ['m'] and ['i'] (the event [EvWrite],
    collected by [written]), and the four [printf] calls with which
    [send_cbw] dumps bytes 12, 14, 15 and 16 of every frame it sends
    (the event [EvDump]).  The text of [printf] goes through the buffer
    of stdio and reaches the sink when that buffer is flushed, at the
    latest when the process ends by [return] or [exit]; so where it
    stands among the bytes of [write] is not fixed by the program. *)

(** The four bytes of a frame that [send_cbw] prints. *)
Definition dump_of (f : list Z) : Z * Z * Z * Z :=
  (Buf.get f 12, Buf.get f 14, Buf.get f 15, Buf.get f 16).

(** The dumps that a trace printed, one for each call of [send_cbw]. *)
Definition dumps (t : list event) : list (Z * Z * Z * Z) :=
  flat_map (fun e => match e with
                     | EvDump b12 b14 b15 b16 => [(b12, b14, b15, b16)]
                     | _ => []
                     end) t.

(** [%x] of a byte: one or two digits, lower case. *)
Definition hex_digit (v : Z) : Z := if v <? 10 then 48 + v else 87 + v.

Definition hex (v : Z) : list Z :=
  if v <? 16 then [hex_digit v] else [hex_digit (v / 16); hex_digit (v mod 16)].

(** The text of one dump: the format strings of the four [printf]
    calls of [send_cbw], with their arguments. *)
Definition dump_text (d : Z * Z * Z * Z) : list Z :=
  let '(b12, b14, b15, b16) := d in
  [10] ++ Buf.of_string "Didrection = 0x" ++ hex b12 ++ [10]
  ++ Buf.of_string "Length = 0x" ++ hex b14 ++ [10]
  ++ Buf.of_string "CDB[0] = 0x" ++ hex b15 ++ [10]
  ++ Buf.of_string "CDB[1] = 0x" ++ hex b16 ++ [10].

(** The bytes that a trace handed to [printf]. *)
Definition printed (t : list event) : list Z :=
  List.concat (map dump_text (dumps t)).

(** A run that makes the events [pre] and then an access outside [buf]:
    the run of the model ends at that access, and nothing is said of
    what the process does from there on. *)
Definition undefined_after (pre : list event) (out : outcome * world) : Prop :=
  fst out = Crashed Undefined /\ w_trace (snd out) = pre.

(** What the passes of a read loop hand to [write]: in each pass the
    answer of the device, cut to the [n] bytes asked for, is stored at
    the start of [buf], and the first [n] bytes of [buf] are written. *)
Fixpoint forwarded (b : list Z) (dev : list (list Z)) (counts : list Z)
    : list (list Z) :=
  match counts with
  | [] => []
  | n :: counts =>
      let b' := Buf.write b 0 (firstn (Z.to_nat n) (hd [] dev)) in
      Buf.read b' 0 (Z.to_nat n) :: forwarded b' (tl dev) counts
  end.

(** ** The phases of a command exchange

    Between two commands the transport is [Idle]; [send_cbw] and
    [send_exec] leave it [Commanded]; one bulk transfer of data may follow
    ([Transferred]); [recv_csw] makes it [Idle] again.  Messages, the
    dump of [send_cbw], output, control transfers and the settle delay
    happen while it is idle.  A fatal message and the three calls of the
    label [exit] are no step of an exchange. *)

Inductive phase : Type := Idle | Commanded | Transferred.

Definition phase_step (p : phase) (e : event) : option phase :=
  match e, p with
  | EvCbw _, Idle => Some Commanded
  | EvSendBuf _, Commanded => Some Transferred
  | EvRecvBuf _, Commanded => Some Transferred
  | EvRecvCsw, Commanded => Some Idle
  | EvRecvCsw, Transferred => Some Idle
  | EvInfo _, Idle => Some Idle
  | EvDump _ _ _ _, Idle => Some Idle
  | EvControl _ _ _ _, Idle => Some Idle
  | EvWrite _, Idle => Some Idle
  | EvUsleep _, Idle => Some Idle
  | _, _ => None
  end.

Fixpoint phases (p : phase) (evs : list event) : option phase :=
  match evs with
  | [] => Some p
  | e :: evs =>
      match phase_step p e with
      | Some q => phases q evs
      | None => None
      end
  end.

(** How the events [evs] of a computation that started in phase [p] end:
    a result leaves phase [q]; [goto exit] and [fatal] happen between
    exchanges, the fatal message being the last event; nothing is said
    of a run that left [buf]; the fuel of a loop is never used up. *)
Definition ends {A : Type} (p q : phase) (r : res A) (evs : list event) : Prop :=
  match r with
  | Ok _ => phases p evs = Some q
  | Stop GotoExit => phases p evs = Some Idle
  | Stop Exit1 =>
      exists pre m, evs = pre ++ [EvFatal m] /\ phases p pre = Some Idle
  | Stop Undefined => True
  | Stop OutOfFuel => False
  end.

Definition obeys {A : Type} (p : phase) (m : M A) (q : phase) : Prop :=
  forall w, exists evs,
    w_trace (snd (m w)) = w_trace w ++ evs /\ ends p q (fst (m w)) evs.

(** The calls of the label [exit]. *)
Definition is_teardown (e : event) : bool :=
  match e with
  | EvRelease | EvClose | EvLibusbExit => true
  | _ => false
  end.

Definition is_fatal (e : event) : bool :=
  match e with EvFatal _ => true | _ => false end.

(** ** The command catalog *)

(** What a computation may do to the device and to standard output:
    command frames of 31 bytes with the signature and an opcode of
    [ops]; dumps on standard output that show the four bytes of such a
    frame; bulk payloads of at most a block, if [send]; calls of
    [write] on standard output, if [out]; the vendor control transfers
    of the loaders, if [ctl]. *)
Definition within (ops : list Z) (send out ctl : bool) (e : event) : Prop :=
  match e with
  | EvCbw f =>
      List.length f = 31%nat /\ Frame.signature f = USBC /\
      Buf.bytes f = true /\ In (Frame.opcode f) ops
  | EvSendBuf d => send = true /\ Buf.len d <= RKFT_BLOCKSIZE
  | EvWrite _ => out = true
  | EvControl rq v i d =>
      ctl = true /\ rq = 12 /\ v = 0 /\ (i = 1137 \/ i = 1138) /\
      Buf.len d <= 4096 + 2
  | EvDump b12 b14 b15 b16 =>
      exists f,
        (List.length f = 31%nat /\ Frame.signature f = USBC /\
         Buf.bytes f = true /\ In (Frame.opcode f) ops) /\
        (b12, b14, b15, b16) = dump_of f
  | _ => True
  end.

Definition emits_only {A : Type} (P : event -> Prop) (m : M A) : Prop :=
  forall w, exists evs, w_trace (snd (m w)) = w_trace w ++ evs /\ Forall P evs.

(** The opcodes of each action of the second switch. *)
Definition action_opcodes (action : Z) : list Z :=
  let on c := action =? Buf.ch c in
  if on "b"%char then [RKFT_CMD_RESETDEVICE]
  else if on "r"%char then [RKFT_CMD_READLBA]
  else if on "w"%char then [RKFT_CMD_WRITELBA]
  else if on "p"%char then [RKFT_CMD_READLBA]
  else if on "P"%char then [RKFT_CMD_WRITELBA]
  else if on "m"%char then [RKFT_CMD_READSDRAM]
  else if on "M"%char then [RKFT_CMD_WRITESDRAM]
  else if on "B"%char then [RKFT_CMD_EXECUTESDRAM]
  else if on "i"%char then [RKFT_CMD_READSECTOR]
  else if on "j"%char then [RKFT_CMD_WRITESECTOR]
  else if on "e"%char then [RKFT_CMD_WRITELBA]
  else if on "v"%char then [RKFT_CMD_READCHIPINFO]
  else if on "n"%char then [RKFT_CMD_READFLASHID; RKFT_CMD_READFLASHINFO]
  else [].

(** The actions that send a bulk payload, that write to standard output,
    and the loaders. *)
Definition action_sends (action : Z) : bool :=
  existsb (fun c => action =? Buf.ch c) ["w"; "P"; "M"; "j"; "e"]%char.

Definition action_writes (action : Z) : bool :=
  existsb (fun c => action =? Buf.ch c) ["r"; "p"; "m"; "i"]%char.

Definition action_loads (action : Z) : bool :=
  existsb (fun c => action =? Buf.ch c) ["l"; "L"]%char.

(** The opcodes of a request: none for the loaders; else the readiness
    probe, the two reads of the partition resolution when a name was
    given, and the action's own. *)
Definition request_opcodes (rq : request) : list Z :=
  if action_loads (rq_action rq) then []
  else
    RKFT_CMD_TESTUNITREADY
    :: match rq_partname rq with
       | Some _ => [RKFT_CMD_READLBA; RKFT_CMD_READFLASHINFO]
       | None => []
       end
    ++ action_opcodes (rq_action rq).

(** The events a run of [main] added to the trace. *)
Definition added (w : world) (out : outcome * world) : list event :=
  skipn (List.length (w_trace w)) (w_trace (snd out)).

(** The status reads and the bulk data transfers of a trace. *)
Definition status_reads (t : list event) : nat :=
  List.length (filter (fun e => match e with EvRecvCsw => true | _ => false end) t).

Definition data_transfers (t : list event) : nat :=
  List.length (filter (fun e => match e with
                                | EvSendBuf _ | EvRecvBuf _ => true
                                | _ => false
                                end) t).

(** The opcodes that [rkflashtool.c] defines and no action uses. *)
Definition unused_opcodes : list Z :=
  [RKFT_CMD_READEFUSE; RKFT_CMD_SETDEVICEINFO; RKFT_CMD_ERASESYSTEMDISK;
   RKFT_CMD_SETRESETFLASG; RKFT_CMD_TESTBADBLOCK; RKFT_CMD_UNKNOWN1;
   RKFT_CMD_ERASESECTORS; RKFT_CMD_UNKNOWN2; RKFT_CMD_WRITEEFUSE;
   RKFT_CMD_UNKNOWN3; RKFT_CMD_WRITESPARE; RKFT_CMD_READSPARE;
   RKFT_CMD_LOWERFORMAT; RKFT_CMD_WRITENKB].

(** The actions whose own opcode has no direction bit. *)
Definition action_mutates (action : Z) : bool :=
  existsb (fun c => action =? Buf.ch c) ["b"; "w"; "P"; "M"; "B"; "j"; "e"]%char.

(** ** Requests of the remaining actions, as the first switch leaves them *)

(** [e offset size]. *)
Definition erase_request (offset size : Z) : request :=
  mkRequest (Buf.ch "e") None offset size 0.

(** [e partname]. *)
Definition erase_partition_request (partname : list Z) : request :=
  mkRequest (Buf.ch "e") (Some partname) 0 0 0.

(** The block that case ['e'] sends: [RKFT_BLOCKSIZE] bytes [0xff]. *)
Definition erased_block : list Z := repeat 0xff (Z.to_nat RKFT_BLOCKSIZE).

(** [M offset size]. *)
Definition ram_write_request (offset size : Z) : request :=
  mkRequest (Buf.ch "M") None offset size 0.

(** The writes of the RAM write loop on an input whose reads deliver
    [chunks]: while the count is positive the next chunk is written
    whole at the running offset, and the count goes down by its
    length. *)
Fixpoint ram_writes (offset size : Z) (chunks : list (list Z))
    : list (Z * list Z) :=
  match chunks with
  | [] => []
  | c :: chunks =>
      if size >? 0
      then (offset, c) :: ram_writes (offset + Buf.len c) (size - Buf.len c) chunks
      else []
  end.

(** The bytes of a list of writes. *)
Definition written_bytes (ws : list (Z * list Z)) : Z :=
  Buf.len (List.concat (map snd ws)).

(** The first [k] consecutive slices of [n] bytes of [d]. *)
Fixpoint slices (k n : nat) (d : list Z) : list (list Z) :=
  match k with
  | O => []
  | S k => firstn n d :: slices k n (skipn n d)
  end.

(** [i offset size]. *)
Definition idb_read_request (offset size : Z) : request :=
  mkRequest (Buf.ch "i") None offset size 0.

(** [B krnl_addr parm_addr]. *)
Definition exec_request (krnl_addr parm_addr : Z) : request :=
  mkRequest (Buf.ch "B") None krnl_addr parm_addr 0.

(** ** Chip version and NAND information *)

(** The sixteen characters of the chip version message: each group of
    four bytes of the answer, last byte first. *)
Definition chip_version_text (b : list Z) : list Z :=
  rev (Buf.read b 0 4) ++ rev (Buf.read b 4 4)
  ++ rev (Buf.read b 8 4) ++ rev (Buf.read b 12 4).

(** The table [manufacturer]. *)
Definition manufacturer : list string :=
  ["Samsung"; "Toshiba"; "Hynix"; "Infineon"; "Micron"; "Renesas"; "Intel";
   "UNKNOWN"; "SanDisk"]%string.

Definition MAX_NAND_ID : Z := Z.of_nat (List.length manufacturer).

(** The arguments of the message "Flash Info" of case ['n']. *)
Record flash_report : Type := mkReport {
  fr_manufacturer : string;
  fr_id : Z;
  fr_flash_mb : Z;
  fr_block_kb : Z;
  fr_page_kb : Z;
  fr_ecc_bits : Z;
  fr_access_time : Z;
  fr_chip_selects : list string
}.

Definition flash_info_args (nand : nand_info) : flash_report :=
  let id := manufacturer_id nand in
  let cs := chip_select nand in
  mkReport
    (if id <? MAX_NAND_ID then nth (Z.to_nat id) manufacturer EmptyString
     else "Unknown"%string)
    id
    (Z.shiftr (flash_size nand) 11)
    (Z.shiftr (block_size nand) 1)
    (Z.shiftr (page_size nand) 1)
    (ecc_bits nand)
    (access_time nand)
    [if Z.land cs 1 =? 0 then EmptyString else " <0>"%string;
     if Z.land cs 2 =? 0 then EmptyString else " <1>"%string;
     if Z.land cs 4 =? 0 then EmptyString else " <2>"%string;
     if Z.land cs 8 =? 0 then EmptyString else " <3>"%string].

(** The chip selects that a report names. *)
Definition selected (report : flash_report) : list nat :=
  flat_map (fun p => match snd p with EmptyString => [] | _ => [fst p] end)
           (combine [0; 1; 2; 3]%nat (fr_chip_selects report)).

(** ** The loaders on any input *)

(** What the read after the full chunks delivers: nothing after a read
    error, else the bytes of a short read (none at the end of input). *)
Definition last_read (tail : list read_result) : option (list Z) :=
  match tail with
  | [] => Some []
  | RdErr :: _ => None
  | RdData d :: _ => Some d
  end.

(** The short chunk with the running checksum after it, high byte
    first. *)
Definition closing_chunk {crc : RkCrc} (fulls : list (list Z))
    (short : list Z) : list Z :=
  let c := running_crc16 (fulls ++ [short]) in
  short ++ [Z.shiftr c 8; Z.land c 0xff].

(** [r offset size]. *)
Definition read_request (offset size : Z) : request :=
  mkRequest (Buf.ch "r") None offset size 0.

(** The action characters of the first switch. *)
Definition actions : list Z :=
  map Buf.ch ["b"; "l"; "L"; "e"; "r"; "w"; "m"; "M"; "B"; "i"; "j";
              "n"; "v"; "p"; "P"]%char.

(** ** Writing ID blocks from a file *)

(** [j offset size]. *)
Definition idb_write_request (offset size : Z) : request :=
  mkRequest (Buf.ch "j") None offset size 0.

(** The offsets of [n] consecutive units from [offset] on. *)
Fixpoint unit_offsets (n : nat) (offset : Z) : list Z :=
  match n with
  | O => []
  | S n => offset :: unit_offsets n (offset + 1)
  end.

(** ** The start of [main]: opening the device *)

(** [pidtab], with its closing entry. *)
Definition pidtab : list (Z * string) :=
  [(0x281a, "RK2818"%string); (0x290a, "RK2918"%string);
   (0x292a, "RK2928"%string); (0x292c, "RK3026"%string);
   (0x300a, "RK3066"%string); (0x300b, "RK3168"%string);
   (0x301a, "RK3036"%string); (0x310a, "RK3066B"%string);
   (0x310b, "RK3188"%string); (0x310c, "RK312X"%string);
   (0x310d, "RK3126"%string); (0x320a, "RK3288"%string);
   (0x320b, "RK322X"%string); (0x330a, "RK3368"%string);
   (0x330c, "RK3399"%string); (0, EmptyString)].

(** The vendor id that [main] passes to
    [libusb_open_device_with_vid_pid]. *)
Definition ROCKCHIP_VID : Z := 0x2207.

(** What libusb answers to the calls that [main] makes before the
    second switch: the return values, whether
    [libusb_open_device_with_vid_pid] gives a handle for a vendor and a
    product id, and the [bcdUSB] field of the descriptor. *)
Record usb : Type := mkUsb {
  usb_init : Z;
  usb_open : Z -> Z -> bool;
  usb_kernel_driver_active : Z;
  usb_detach_kernel_driver : Z;
  usb_claim_interface : Z;
  usb_get_device_descriptor : Z;
  usb_bcdUSB : Z
}.

Inductive start_message : Type :=
| MsgDetected (name : string)
| MsgKernelDriverActive
| MsgDriverDetached
| MsgInterfaceClaimed
| MsgMaskRomMode.

Inductive start_fatal : Type :=
| FatalInit          (* "cannot init libusb" *)
| FatalOpen          (* "cannot open device" *)
| FatalClaim         (* "cannot claim interface" *)
| FatalDescriptor.   (* "cannot get device descriptor" *)

(** The calls and messages of the start, in order. *)
Inductive start_event : Type :=
| SeInit
| SeSetDebug (level : Z)
| SeOpen (vid pid : Z)
| SeKernelDriverActive
| SeDetach
| SeClaim
| SeDescriptor
| SeInfo (m : start_message)
| SeFatal (m : start_fatal).

Inductive found : Type :=
| Found (name : string)
| NotFound
| PastTheTable.      (* [ppid] stepped beyond the array *)

(** The loop [while (!h && ppid->pid)], from the entry that [ppid] points
    to: [h] is [NULL] whenever the condition is evaluated, since a
    handle leaves the loop with [break]. *)
Fixpoint detect (u : usb) (ppid : list (Z * string))
    : list start_event * found :=
  match ppid with
  | [] => ([], PastTheTable)
  | (pid, name) :: ppid' =>
      if pid =? 0 then ([], NotFound)
      else if usb_open u ROCKCHIP_VID pid
      then ([SeOpen ROCKCHIP_VID pid; SeInfo (MsgDetected name)], Found name)
      else let '(evs, r) := detect u ppid' in
           (SeOpen ROCKCHIP_VID pid :: evs, r)
  end.

Inductive started : Type :=
| Started            (* the second switch is reached *)
| StartFailed        (* [fatal]: [exit(1)] *)
| StartUndefined.

(** [main] from [libusb_init] to the test of [desc.bcdUSB]. *)
Definition open_device (u : usb) : list start_event * started :=
  if negb (usb_init u =? 0) then ([SeInit; SeFatal FatalInit], StartFailed)
  else
    let '(evs, r) := detect u pidtab in
    let opened := [SeInit; SeSetDebug 3] ++ evs in
    match r with
    | PastTheTable => (opened, StartUndefined)
    | NotFound => (opened ++ [SeFatal FatalOpen], StartFailed)
    | Found _ =>
        let driver :=
          SeKernelDriverActive ::
          (if usb_kernel_driver_active u =? 1
           then SeInfo MsgKernelDriverActive :: SeDetach ::
                (if usb_detach_kernel_driver u =? 0
                 then [SeInfo MsgDriverDetached] else [])
           else []) in
        if usb_claim_interface u <? 0
        then (opened ++ driver ++ [SeClaim; SeFatal FatalClaim], StartFailed)
        else
          let claimed :=
            opened ++ driver
            ++ [SeClaim; SeInfo MsgInterfaceClaimed; SeDescriptor] in
          if negb (usb_get_device_descriptor u =? 0)
          then (claimed ++ [SeFatal FatalDescriptor], StartFailed)
          else (claimed ++ (if usb_bcdUSB u =? 0x200
                            then [SeInfo MsgMaskRomMode] else []),
                Started)
    end.

(** The entries of [pidtab] before the closing one. *)
Definition supported : list (Z * string) := removelast pidtab.


(* ================================================================== *)
(** * Part II: properties *)
(* ================================================================== *)

(** ** Bytes and words *)

Lemma land_ff (v : Z) : Z.land v 0xff = v mod 256.
Proof. change 0xff with (Z.ones 8). now rewrite Z.land_ones by lia. Qed.

Lemma shift_byte (v k : Z) :
  0 <= k -> Z.land (Z.shiftr v k) 0xff = (v / 2 ^ k) mod 256.
Proof. intros Hk. now rewrite land_ff, Z.shiftr_div_pow2 by lia. Qed.

Lemma land_ff_range (v : Z) : 0 <= Z.land v 0xff < 256.
Proof. rewrite land_ff. apply Z.mod_pos_bound. lia. Qed.

Lemma be32_join (v : Z) :
  0 <= v < 2 ^ 32 ->
  Z.land (Z.shiftr v 24) 0xff * 2 ^ 24 + Z.land (Z.shiftr v 16) 0xff * 2 ^ 16
  + Z.land (Z.shiftr v 8) 0xff * 2 ^ 8 + Z.land v 0xff = v.
Proof.
  intros H. rewrite !shift_byte, land_ff by lia.
  change (2 ^ 24) with 16777216. change (2 ^ 16) with 65536.
  change (2 ^ 8) with 256. change (2 ^ 32) with 4294967296 in H.
  Z.to_euclidean_division_equations; lia.
Qed.

Lemma be16_join (v : Z) :
  0 <= v < 2 ^ 16 ->
  Z.land (Z.shiftr v 8) 0xff * 2 ^ 8 + Z.land v 0xff = v.
Proof.
  intros H. rewrite !shift_byte, land_ff by lia.
  change (2 ^ 8) with 256. change (2 ^ 16) with 65536 in H.
  Z.to_euclidean_division_equations; lia.
Qed.

Lemma le32_join (v : Z) :
  0 <= v < 2 ^ 32 ->
  Z.land v 0xff + Z.land (Z.shiftr v 8) 0xff * 2 ^ 8
  + Z.land (Z.shiftr v 16) 0xff * 2 ^ 16 + Z.land (Z.shiftr v 24) 0xff * 2 ^ 24 = v.
Proof. intros H. rewrite <- (be32_join v H) at 5. ring. Qed.

Lemma u32_small (v : Z) : 0 <= v < 2 ^ 32 -> Int.u32 v = v.
Proof. intros H. unfold Int.u32. now apply Z.mod_small. Qed.

Lemma u16_small (v : Z) : 0 <= v < 2 ^ 16 -> Int.u16 v = v.
Proof. intros H. unfold Int.u16. now apply Z.mod_small. Qed.

Lemma u8_small (v : Z) : 0 <= v < 2 ^ 8 -> Int.u8 v = v.
Proof. intros H. unfold Int.u8. now apply Z.mod_small. Qed.

Lemma u32_range (v : Z) : 0 <= Int.u32 v < 2 ^ 32.
Proof. apply Z.mod_pos_bound. lia. Qed.

Lemma s32_small (v : Z) : - 2 ^ 31 <= v < 2 ^ 31 -> Int.s32 v = v.
Proof.
  intros H. unfold Int.s32.
  change (2 ^ 31) with 2147483648 in *. change (2 ^ 32) with 4294967296.
  destruct (Z.ltb_spec (v mod 4294967296) 2147483648);
    Z.to_euclidean_division_equations; lia.
Qed.

(** ** The command frame *)

(** The frame of [send_cbw] written out: the conditional stores collapse,
    because a field that is zero would store zero bytes over zero bytes. *)
Lemma cbw_frame_bytes (command offset nsectors flag r : Z) :
  0 <= command < 2 ^ 32 -> 0 <= offset < 2 ^ 32 ->
  0 <= nsectors < 2 ^ 16 -> 0 <= flag < 2 ^ 8 ->
  cbw_frame command offset nsectors flag r =
  [85; 83; 66; 67;
   Z.land (Z.shiftr r 24) 0xff; Z.land (Z.shiftr r 16) 0xff;
   Z.land (Z.shiftr r 8) 0xff; Z.land r 0xff;
   0; 0; 0; 0;
   Z.land (Z.shiftr command 24) 0xff; Z.land (Z.shiftr command 16) 0xff;
   Z.land (Z.shiftr command 8) 0xff; Z.land command 0xff;
   flag;
   Z.land (Z.shiftr offset 24) 0xff; Z.land (Z.shiftr offset 16) 0xff;
   Z.land (Z.shiftr offset 8) 0xff; Z.land offset 0xff;
   0;
   Z.land (Z.shiftr nsectors 8) 0xff; Z.land nsectors 0xff;
   0; 0; 0; 0; 0; 0; 0].
Proof.
  intros Hc Ho Hn Hf. unfold cbw_frame.
  rewrite (u32_small command), (u32_small offset), (u16_small nsectors),
    (u8_small flag) by assumption.
  destruct (Z.eqb_spec r 0) as [-> | _];
  destruct (Z.eqb_spec offset 0) as [-> | _];
  destruct (Z.eqb_spec nsectors 0) as [-> | _];
  destruct (Z.eqb_spec command 0) as [-> | _];
  destruct (Z.eqb_spec flag 0) as [-> | _];
  reflexivity.
Qed.

(** C5.  For every opcode, offset, length and mode flag of the C types of
    [send_cbw], and every tag [r] that [random()] returns, the frame is 31
    bytes: the signature "USBC" at byte 0, the tag big-endian at byte 4,
    the opcode big-endian at byte 12, the mode flag at byte 16, the offset
    big-endian over four bytes at byte 17 and the length big-endian over
    two bytes at byte 22; every other byte is zero, a zero-valued offset,
    length or mode flag leaves its bytes zero, every byte is below 256,
    and reading the fields back gives the values that were encoded. *)
Theorem cbw_frame_layout (command offset nsectors flag r : Z) :
  0 <= command < 2 ^ 32 -> 0 <= offset < 2 ^ 32 ->
  0 <= nsectors < 2 ^ 16 -> 0 <= flag < 2 ^ 8 -> 0 <= r < 2 ^ 32 ->
  let f := cbw_frame command offset nsectors flag r in
  List.length f = 31%nat /\
  Frame.signature f = USBC /\
  Frame.tag f = r /\
  Frame.opcode f = command /\
  Frame.modeFlag f = flag /\
  Frame.offset f = offset /\
  Frame.length f = nsectors /\
  Buf.read f 8 4 = [0; 0; 0; 0] /\ Buf.get f 21 = 0 /\
  Buf.read f 24 7 = [0; 0; 0; 0; 0; 0; 0] /\
  (offset = 0 -> Buf.read f 17 4 = [0; 0; 0; 0]) /\
  (nsectors = 0 -> Buf.read f 22 2 = [0; 0]) /\
  (flag = 0 -> Buf.get f 16 = 0) /\
  Forall (fun b => 0 <= b < 256) f.
Proof.
  intros Hc Ho Hn Hf Hr f. subst f.
  rewrite cbw_frame_bytes by assumption.
  unfold Frame.signature, Frame.tag, Frame.opcode, Frame.modeFlag,
    Frame.offset, Frame.length, GETBE32, GETBE16, Buf.get, Buf.read.
  cbn [nth firstn skipn Nat.add List.length].
  rewrite !be32_join, be16_join by assumption.
  repeat match goal with |- _ /\ _ => split end;
    try reflexivity; try (intros ->; reflexivity).
  repeat (constructor; [first [apply land_ff_range | lia] |]).
  constructor.
Qed.

(** ** Buffers *)

Lemma write_length (b d : list Z) (i : nat) :
  (i + List.length d <= List.length b)%nat ->
  List.length (Buf.write b i d) = List.length b.
Proof.
  intros H. unfold Buf.write.
  rewrite !length_app, length_firstn, length_skipn. lia.
Qed.

Lemma write_whole (b d : list Z) :
  List.length d = List.length b -> Buf.write b 0 d = d.
Proof.
  intros H. unfold Buf.write. cbn [firstn app Nat.add].
  rewrite H, skipn_all. apply app_nil_r.
Qed.

(** A write into the middle part of a buffer replaces that part. *)
Lemma write_app (a m c d : list Z) :
  List.length m = List.length d ->
  Buf.write (a ++ m ++ c) (List.length a) d = a ++ d ++ c.
Proof.
  intros H. unfold Buf.write.
  rewrite firstn_app, firstn_all, Nat.sub_diag. cbn [firstn].
  rewrite app_nil_r. f_equal. f_equal.
  rewrite skipn_app, skipn_all2 by lia. cbn [app].
  replace (List.length a + List.length d - List.length a)%nat
    with (List.length m) by lia.
  rewrite skipn_app, skipn_all, Nat.sub_diag. reflexivity.
Qed.

Lemma read_app (a m c : list Z) :
  Buf.read (a ++ m ++ c) (List.length a) (List.length m) = m.
Proof.
  unfold Buf.read.
  rewrite skipn_app, skipn_all, Nat.sub_diag. cbn [skipn app].
  rewrite firstn_app, firstn_all, Nat.sub_diag. cbn [firstn].
  apply app_nil_r.
Qed.

Lemma get_app (a c : list Z) (k : nat) :
  Buf.get (a ++ c) (List.length a + k) = Buf.get c k.
Proof.
  unfold Buf.get. rewrite app_nth2 by lia. f_equal. lia.
Qed.

Lemma load_u32_app (a c : list Z) :
  load_u32 (a ++ c) (List.length a) = load_u32 c 0.
Proof.
  unfold load_u32.
  rewrite <- (Nat.add_0_r (List.length a)) at 1.
  rewrite !get_app. reflexivity.
Qed.

Lemma load_u32_le32 (v : Z) (c : list Z) :
  0 <= v < 2 ^ 32 -> load_u32 (le32_bytes v ++ c) 0 = v.
Proof. intros H. unfold load_u32, Buf.get. cbn [le32_bytes app nth Nat.add]. now apply le32_join. Qed.

Lemma get_range (b : list Z) (i : nat) :
  Forall (fun x => 0 <= x < 256) b -> 0 <= Buf.get b i < 256.
Proof.
  intros H. unfold Buf.get.
  destruct (Nat.lt_ge_cases i (List.length b)) as [Hi | Hi].
  - rewrite Forall_forall in H. apply H. now apply nth_In.
  - rewrite nth_overflow by assumption. lia.
Qed.

Lemma bytes_Forall (b : list Z) :
  Buf.bytes b = true -> Forall (fun x => 0 <= x < 256) b.
Proof.
  unfold Buf.bytes. rewrite forallb_forall, Forall_forall.
  intros H x Hx. specialize (H x Hx). lia.
Qed.

Lemma load_u32_range (b : list Z) (a : nat) :
  Forall (fun x => 0 <= x < 256) b -> 0 <= load_u32 b a < 2 ^ 32.
Proof.
  intros H. unfold load_u32.
  pose proof (get_range b a H). pose proof (get_range b (a + 1) H).
  pose proof (get_range b (a + 2) H). pose proof (get_range b (a + 3) H).
  change (2 ^ 8) with 256. change (2 ^ 16) with 65536.
  change (2 ^ 24) with 16777216. change (2 ^ 32) with 4294967296. lia.
Qed.

Lemma len_zeros (n : nat) : Buf.len (Buf.zeros n) = Z.of_nat n.
Proof. unfold Buf.len, Buf.zeros. now rewrite repeat_length. Qed.

(** A full block from the device replaces [buf]. *)
Lemma recv_full_block (b blk : list Z) :
  Buf.len b = RKFT_BLOCKSIZE -> Buf.len blk = RKFT_BLOCKSIZE ->
  Buf.write b 0 (firstn (Z.to_nat RKFT_BLOCKSIZE) blk) = blk.
Proof.
  unfold Buf.len. intros Hb Hblk.
  rewrite firstn_all2 by lia. apply write_whole. lia.
Qed.

(** ** Running the program symbolically *)

Ltac exec :=
  cbv beta iota zeta delta
      [bind ret halt emit get_buf get_ibuf set_buf set_ibuf info fatal goto_exit
       random send_cbw send_exec recv_csw teardown];
  cbn [w_buf w_ibuf w_stdin w_room w_dev w_rand w_trace fst snd hd tl].

Ltac flatten_trace := rewrite <- ?app_assoc; cbn [app].

(** Decide the comparisons of the action character. *)
Ltac dispatch :=
  repeat match goal with
         | |- context [Buf.ch ?a =? Buf.ch ?b] =>
             let v := eval vm_compute in (Buf.ch a =? Buf.ch b) in
             change (Buf.ch a =? Buf.ch b) with v
         end;
  cbn [orb andb negb]; cbv iota.

Section Dispatch.

Context {crc : RkCrc}.

Lemma bind_eq {A B : Type} (m : M A) (k : A -> M B) (w w' : world) (a : A) :
  m w = (Ok a, w') -> bind m k w = k a w'.
Proof. intros H. unfold bind. now rewrite H. Qed.

Lemma bind_stop {A B : Type} (m : M A) (k : A -> M B) (w w' : world) (s : stop) :
  m w = (Stop s, w') -> bind m k w = (Stop s, w').
Proof. intros H. unfold bind. now rewrite H. Qed.

Lemma recv_buf_fits (n : Z) (w : world) :
  Buf.len (firstn (Z.to_nat n) (hd [] (w_dev w))) <= Buf.len (w_buf w) ->
  recv_buf n w =
  (Ok tt, mkWorld (Buf.write (w_buf w) 0 (firstn (Z.to_nat n) (hd [] (w_dev w))))
                  (w_ibuf w) (w_stdin w) (w_room w) (tl (w_dev w)) (w_rand w)
                  (w_trace w ++ [EvRecvBuf n])).
Proof.
  intros Hfit. unfold recv_buf. exec.
  apply Z.leb_le in Hfit. now rewrite Hfit.
Qed.

Lemma main_body_probed (rq : request) (w : world) :
  (rq_action rq =? Buf.ch "l") = false ->
  (rq_action rq =? Buf.ch "L") = false ->
  main_body rq w =
  bind match rq_partname rq with
       | Some partname => resolve_partition partname (rq_flag rq)
       | None => ret (rq_offset rq, rq_size rq)
       end
       (fun os => do_action (rq_action rq) (rq_flag rq) (fst os) (snd os))
       (probed w (rq_flag rq)).
Proof.
  intros Hl HL. unfold main_body. rewrite Hl, HL.
  unfold probed, cbw_events. exec. flatten_trace. reflexivity.
Qed.

Lemma main_parsed (args : list (list Z)) (rq : request) (w : world) :
  parse_args args = Some rq -> main args w = run (main_body rq) w.
Proof. intros H. unfold main. now rewrite H. Qed.

(** Case ['p'] from the command line. *)
Lemma main_p (w : world) :
  main [Buf.of_string "p"] w = run (read_parameters 0 0) (probed w 0).
Proof.
  rewrite (main_parsed _ (mkRequest (Buf.ch "p") None 0 1024 0)) by reflexivity.
  unfold run. rewrite main_body_probed by reflexivity.
  cbn [rq_partname rq_action rq_flag rq_offset rq_size bind ret fst snd].
  unfold do_action. dispatch. reflexivity.
Qed.

(** Case ['P'] from the command line. *)
Lemma main_P (w : world) :
  main [Buf.of_string "P"] w = run (write_parameters 0) (probed w 0).
Proof.
  rewrite (main_parsed _ (mkRequest (Buf.ch "P") None 0 1024 0)) by reflexivity.
  unfold run. rewrite main_body_probed by reflexivity.
  cbn [rq_partname rq_action rq_flag rq_offset rq_size bind ret fst snd].
  unfold do_action. dispatch. reflexivity.
Qed.

Lemma read_parameters_start (b ib : list Z) stdin room (blk : list Z) dev rand t :
  Buf.len b = RKFT_BLOCKSIZE -> Buf.len blk = RKFT_BLOCKSIZE ->
  let size := Int.s32 (load_u32 blk 4) in
  let w1 := mkWorld blk ib stdin room dev (tl rand)
                    (t ++ received_events (hd 0 rand) size) in
  read_parameters 0 0 (mkWorld b ib stdin room (blk :: dev) rand t) =
  if (size <? 0) || (size >? MAX_PARAM_LENGTH)
  then fatal FatalBadParamLength w1
  else if negb (Buf.inside blk (8 + size) 4) then (Stop Undefined, w1)
  else
    let crc_buf := load_u32 blk (Z.to_nat (8 + size)) in
    let crc := Int.u32 (rkcrc32 0 (Buf.read blk 8 (Z.to_nat size))) in
    if negb (crc_buf =? crc) then fatal (FatalBadCRC crc_buf crc) w1
    else bind (write_stdout 8 size)
              (fun n => if n <=? 0 then fatal FatalWriteError else ret tt) w1.
Proof.
  intros Hb Hblk size w1. unfold read_parameters. exec.
  rewrite recv_buf_fits
    by (cbn [w_buf w_dev hd]; unfold Buf.len in *; rewrite length_firstn; lia).
  exec. rewrite (recv_full_block b blk Hb Hblk).
  fold size. subst w1. unfold received_events, cbw_events.
  destruct ((size <? 0) || (size >? MAX_PARAM_LENGTH));
    [exec; flatten_trace; reflexivity |].
  destruct (negb (Buf.inside blk (8 + size) 4));
    [exec; flatten_trace; reflexivity |].
  cbv zeta.
  destruct (negb (_ =? _)); exec; flatten_trace; reflexivity.
Qed.

End Dispatch.

Section LengthCheck.

Context {crc : RkCrc}.

Lemma fatals_app (a b : list event) : fatals (a ++ b) = fatals a ++ fatals b.
Proof. apply flat_map_app. Qed.

Lemma fatals_received (r size : Z) : fatals (received_events r size) = [].
Proof. reflexivity. Qed.

Lemma fatals_cbw (c o n f r : Z) : fatals (cbw_events c o n f r) = [].
Proof. reflexivity. Qed.

(** After the length check has passed, case ['p'] never reports a bad
    parameter length. *)
Lemma after_length_check (blk ib : list Z) stdin room dev rand t size :
  fatals t = [] ->
  let w1 := mkWorld blk ib stdin room dev rand t in
  let r :=
    if negb (Buf.inside blk (8 + size) 4) then (Stop Undefined, w1)
    else
      let crc_buf := load_u32 blk (Z.to_nat (8 + size)) in
      let crc := Int.u32 (rkcrc32 0 (Buf.read blk 8 (Z.to_nat size))) in
      if negb (crc_buf =? crc) then fatal (FatalBadCRC crc_buf crc) w1
      else bind (write_stdout 8 size)
                (fun n => if n <=? 0 then fatal FatalWriteError else ret tt) w1 in
  ~ In FatalBadParamLength (fatals (w_trace (snd (run (fun _ => r) w1)))).
Proof.
  intros Ht w1 r. subst r. unfold run.
  destruct (negb (Buf.inside blk (8 + size) 4)).
  { subst w1. exec. rewrite Ht. intros []. }
  cbv zeta.
  destruct (negb (_ =? _)).
  { subst w1. exec. rewrite fatals_app, Ht. cbn. intuition discriminate. }
  unfold write_stdout. subst w1. exec.
  repeat match goal with
         | |- context [match w_room ?w with Some _ => _ | None => _ end] =>
             destruct (w_room w); exec
         | |- context [match ?r with Some _ => _ | None => _ end] =>
             destruct r; exec
         | |- context [if ?c then _ else _] => destruct c; exec
         end;
    rewrite ?fatals_app, ?Ht; cbn [fatals flat_map app In];
    intuition discriminate.
Qed.

(** C2, as the code has it.  [MAX_PARAM_LENGTH] is the macro
    [128 * 512 - 12] = 65524.  That is not the block on the wire less
    12 bytes: the block that decode receives is [RKFT_BLOCKSIZE] =
    16384 bytes, and 16384 - 12 is less than [MAX_PARAM_LENGTH].
    Reading the parameters ends in the fatal "Bad parameter length"
    exactly when the length field of the received block exceeds
    [MAX_PARAM_LENGTH]; the process then exits with code 1 right after
    reporting the size, whatever the checksum function and the trailer
    are: the check comes before the CRC.  A length of
    [MAX_PARAM_LENGTH] passes the check and [MAX_PARAM_LENGTH + 1]
    fails it. *)
Theorem parameter_length_check
    (stdin : list read_result) (room : option Z) (dev : list (list Z))
    (rand : list Z) (blk : list Z) :
  Buf.len blk = RKFT_BLOCKSIZE ->
  Buf.bytes blk = true ->
  let length := load_u32 blk 4 in
  let r := main [Buf.of_string "p"]
                (initial_world stdin room (blk :: dev) rand) in
  MAX_PARAM_LENGTH = 128 * 512 - 12 /\
  RKFT_BLOCKSIZE - 12 < MAX_PARAM_LENGTH /\
  (In FatalBadParamLength (fatals (w_trace (snd r)))
   <-> MAX_PARAM_LENGTH < length) /\
  (MAX_PARAM_LENGTH < length ->
   fst r = Exited 1 /\
   w_trace (snd r) =
     cbw_events RKFT_CMD_TESTUNITREADY 0 0 0 (hd 0 rand)
     ++ [EvRecvCsw; EvUsleep (20 * 1000)]
     ++ received_events (hd 0 (tl rand)) (Int.s32 length)
     ++ [EvFatal FatalBadParamLength]) /\
  (length = MAX_PARAM_LENGTH ->
   ~ In FatalBadParamLength (fatals (w_trace (snd r)))) /\
  (length = MAX_PARAM_LENGTH + 1 ->
   In FatalBadParamLength (fatals (w_trace (snd r)))).
Proof.
  intros Hlen Hbytes length r.
  assert (Hrange : 0 <= length < 2 ^ 32)
    by (apply load_u32_range, bytes_Forall; assumption).
  assert (Hmain :
    (MAX_PARAM_LENGTH < length ->
     fst r = Exited 1 /\
     w_trace (snd r) =
       cbw_events RKFT_CMD_TESTUNITREADY 0 0 0 (hd 0 rand)
       ++ [EvRecvCsw; EvUsleep (20 * 1000)]
       ++ received_events (hd 0 (tl rand)) (Int.s32 length)
       ++ [EvFatal FatalBadParamLength]) /\
    (length <= MAX_PARAM_LENGTH ->
     ~ In FatalBadParamLength (fatals (w_trace (snd r))))).
  { subst r. rewrite main_p. unfold run.
    unfold probed, initial_world. cbn [w_buf w_ibuf w_stdin w_room w_dev w_rand w_trace app].
    rewrite read_parameters_start;
      [| rewrite len_zeros; reflexivity | assumption].
    fold length. cbv zeta.
    assert (Hs : (Int.s32 length <? 0) || (Int.s32 length >? MAX_PARAM_LENGTH)
                 = negb (length <=? MAX_PARAM_LENGTH)).
    { unfold Int.s32, MAX_PARAM_LENGTH in *. rewrite Z.mod_small by assumption.
      change (2 ^ 31) with 2147483648. change (2 ^ 32) with 4294967296 in *.
      destruct (Z.ltb_spec length 2147483648);
        destruct (Z.leb_spec length (128 * 512 - 12));
        repeat match goal with
               | |- context [?a <? ?b] => destruct (Z.ltb_spec a b)
               | |- context [?a >? ?b] => rewrite (Z.gtb_ltb a b)
               end; cbn; try reflexivity; lia. }
    rewrite Hs. split.
    - intros Hgt. destruct (Z.leb_spec length MAX_PARAM_LENGTH); [lia |].
      cbn [negb]. exec. flatten_trace. split; reflexivity.
    - intros Hle. destruct (Z.leb_spec length MAX_PARAM_LENGTH); [| lia].
      cbn [negb].
      match goal with
      | |- context [if negb (Buf.inside ?b ?i 4) then (Stop Undefined, ?w) else _] =>
          pose proof (after_length_check b (w_ibuf w) (w_stdin w) (w_room w)
                        (w_dev w) (w_rand w) (w_trace w)
                        (Int.s32 length) eq_refl) as Hafter
      end.
      cbv zeta in Hafter. unfold run in Hafter. exact Hafter. }
  destruct Hmain as [Hgt Hle].
  split; [reflexivity |]. split; [reflexivity |].
  assert (Hiff : In FatalBadParamLength (fatals (w_trace (snd r)))
                 <-> MAX_PARAM_LENGTH < length).
  { split.
    - intros Hin. destruct (Z.lt_ge_cases MAX_PARAM_LENGTH length); [assumption |].
      exfalso. apply Hle; [lia | assumption].
    - intros H. destruct (Hgt H) as [_ ->].
      rewrite !fatals_app. apply in_or_app. right. apply in_or_app. right.
      apply in_or_app. right. left. reflexivity. }
  split; [exact Hiff |]. split; [exact Hgt |].
  split.
  - intros ->. apply Hle. lia.
  - intros Heq. apply Hiff. lia.
Qed.

End LengthCheck.

Section TrailerBounds.

Context {crc : RkCrc}.

Lemma write_stdout_unlimited (at_ count : Z) (w : world) :
  Buf.inside (w_buf w) at_ count = true -> w_room w = None ->
  write_stdout at_ count w =
  (Ok count, mkWorld (w_buf w) (w_ibuf w) (w_stdin w) None (w_dev w)
                     (w_rand w)
                     (w_trace w
                      ++ [EvWrite (Buf.read (w_buf w) (Z.to_nat at_)
                                            (Z.to_nat count))])).
Proof.
  intros Hin Hroom. unfold write_stdout. exec.
  rewrite Hin. cbn [negb]. now rewrite Hroom.
Qed.

Lemma s32_of_length (v : Z) : 0 <= v <= MAX_PARAM_LENGTH -> Int.s32 v = v.
Proof. intros H. apply s32_small. unfold MAX_PARAM_LENGTH in H. lia. Qed.

Lemma length_check_passes (v : Z) :
  0 <= v <= MAX_PARAM_LENGTH ->
  (Int.s32 v <? 0) || (Int.s32 v >? MAX_PARAM_LENGTH) = false.
Proof.
  intros H. rewrite s32_of_length by assumption.
  apply orb_false_iff. split; [apply Z.ltb_ge; lia |].
  rewrite Z.gtb_ltb. apply Z.ltb_ge. lia.
Qed.

Lemma inside_trailer (blk : list Z) (size : Z) :
  Buf.len blk = RKFT_BLOCKSIZE -> 0 <= size ->
  (Buf.inside blk (8 + size) 4 = true <-> size <= RKFT_BLOCKSIZE - 12).
Proof.
  intros Hlen Hsize. unfold Buf.inside. rewrite Hlen, !andb_true_iff.
  rewrite !Z.leb_le. lia.
Qed.

(** C10.  Case ['p'] on a block whose length field passes the check
    against [MAX_PARAM_LENGTH] = 65524.  After the size has been
    reported and the check has passed, the four bytes of the CRC
    trailer are read at index 8 + length of the 16384-byte buffer.  For
    a length of at most 16372 they lie inside the buffer: the run goes
    on to compare the number read there with the CRC of the length
    bytes from index 8, and ends in the fatal "bad CRC" when they
    differ, or hands those bytes to [write] when they agree.  For every
    accepted length above 16372 the read falls outside the buffer: the
    run makes that access right after the report of the size.  So the
    run reaches an access outside [buf] exactly for the accepted
    lengths from 16373 to 65524. *)
Theorem crc_trailer_outside_buffer
    (stdin : list read_result) (room : option Z) (dev : list (list Z))
    (rand : list Z) (blk : list Z) :
  Buf.len blk = RKFT_BLOCKSIZE ->
  Buf.bytes blk = true ->
  let length := load_u32 blk 4 in
  let r := main [Buf.of_string "p"]
                (initial_world stdin room (blk :: dev) rand) in
  let checked :=
    cbw_events RKFT_CMD_TESTUNITREADY 0 0 0 (hd 0 rand)
    ++ [EvRecvCsw; EvUsleep (20 * 1000)]
    ++ received_events (hd 0 (tl rand)) length in
  let stored := load_u32 blk (Z.to_nat (8 + length)) in
  let computed := Int.u32 (rkcrc32 0 (Buf.read blk 8 (Z.to_nat length))) in
  length <= MAX_PARAM_LENGTH ->
  RKFT_BLOCKSIZE = 16384 /\ MAX_PARAM_LENGTH = 65524 /\
  (Buf.inside blk (8 + length) 4 = true <-> length <= 16372) /\
  (fst r = Crashed Undefined <-> 16372 < length) /\
  (16372 < length -> undefined_after checked r) /\
  (length <= 16372 -> stored <> computed ->
   fst r = Exited 1 /\
   w_trace (snd r) = checked ++ [EvFatal (FatalBadCRC stored computed)]) /\
  (0 < length <= 16372 -> stored = computed -> room = None ->
   fst r = Returned 0 /\
   written (w_trace (snd r)) = [Buf.read blk 8 (Z.to_nat length)] /\
   fatals (w_trace (snd r)) = []).
Proof.
  intros Hlen Hbytes length r checked stored computed Hle.
  assert (Hrange : 0 <= length < 2 ^ 32)
    by (apply load_u32_range, bytes_Forall; assumption).
  split; [reflexivity |]. split; [reflexivity |].
  assert (Hin : Buf.inside blk (8 + length) 4 = true <-> length <= 16372).
  { rewrite inside_trailer by (assumption || lia).
    change (RKFT_BLOCKSIZE - 12) with 16372. reflexivity. }
  split; [exact Hin |].
  assert (Hrun : r =
    run (fun w1 =>
           if negb (Buf.inside blk (8 + length) 4) then (Stop Undefined, w1)
           else if negb (stored =? computed)
                then fatal (FatalBadCRC stored computed) w1
                else bind (write_stdout 8 length)
                       (fun n => if n <=? 0 then fatal FatalWriteError
                                 else ret tt) w1)
        (mkWorld blk (Buf.zeros (Z.to_nat RKFT_IDB_BLOCKSIZE)) stdin room
                 dev (tl (tl rand)) checked)).
  { subst r. rewrite main_p. unfold run.
    unfold probed, initial_world.
    cbn [w_buf w_ibuf w_stdin w_room w_dev w_rand w_trace app].
    rewrite read_parameters_start;
      [| rewrite len_zeros; reflexivity | assumption].
    fold length. cbv zeta.
    rewrite length_check_passes by lia.
    rewrite s32_of_length by lia.
    fold stored computed. subst checked.
    rewrite <- !app_assoc. reflexivity. }
  assert (Hout : 16372 < length -> undefined_after checked r).
  { intros Hgt. rewrite Hrun.
    assert (E : Buf.inside blk (8 + length) 4 = false)
      by (apply not_true_is_false; intros E; apply Hin in E; lia).
    rewrite E. split; reflexivity. }
  assert (Hinside : length <= 16372 -> fst r <> Crashed Undefined).
  { intros Hfit. apply Hin in Hfit. rewrite Hrun, Hfit. cbn [negb]. unfold run.
    destruct (negb (stored =? computed)); [exec; discriminate |].
    unfold write_stdout. exec.
    destruct (negb (Buf.inside blk 8 length)) eqn:E8.
    { apply negb_true_iff in E8. exfalso. revert E8.
      apply not_false_iff_true. apply Hin in Hfit.
      unfold Buf.inside. rewrite Hlen.
      unfold RKFT_BLOCKSIZE. apply andb_true_iff. split; [| apply Z.leb_le; lia].
      apply andb_true_iff. split; apply Z.leb_le; lia. }
    destruct room as [k |]; exec;
      repeat match goal with
             | |- context [if ?c then _ else _] => destruct c; exec
             end; discriminate. }
  split.
  { split.
    - intros Hcrash. destruct (Z.lt_ge_cases 16372 length); [assumption |].
      exfalso. apply Hinside; [lia | exact Hcrash].
    - intros Hgt. apply Hout. exact Hgt. }
  split; [exact Hout |].
  split.
  { intros Hfit Hne. apply Hin in Hfit. rewrite Hrun, Hfit. cbn [negb].
    destruct (Z.eqb_spec stored computed); [contradiction |].
    cbn [negb]. unfold run. exec. split; reflexivity. }
  intros [Hpos Hfit] Heq ->.
  assert (Hgood : r =
    (Returned 0,
     snd (teardown
            (mkWorld blk (Buf.zeros (Z.to_nat RKFT_IDB_BLOCKSIZE)) stdin None
                     dev (tl (tl rand))
                     (checked ++ [EvWrite (Buf.read blk 8 (Z.to_nat length))]))))).
  { pose proof Hfit as Hfit'. apply Hin in Hfit. rewrite Hrun, Hfit. cbn [negb].
    rewrite Heq, Z.eqb_refl. cbn [negb]. unfold run.
    unfold bind at 1. rewrite write_stdout_unlimited; [| | reflexivity].
    2:{ cbn [w_buf]. unfold Buf.inside. rewrite Hlen. unfold RKFT_BLOCKSIZE.
        apply andb_true_iff. split; [| apply Z.leb_le; lia].
        apply andb_true_iff. split; apply Z.leb_le; lia. }
    destruct (Z.leb_spec length 0); [lia |]. reflexivity. }
  rewrite Hgood. exec. split; [reflexivity |].
  subst checked. unfold received_events, cbw_events.
  cbn [app written fatals flat_map]. split; reflexivity.
Qed.

End TrailerBounds.

(** ** The parameter blob *)

Section Blob.

Context {crc : RkCrc}.

Lemma zeros_app (n m : nat) : Buf.zeros (n + m) = Buf.zeros n ++ Buf.zeros m.
Proof. apply repeat_app. Qed.

Lemma write_split (b a m c d : list Z) (i : nat) :
  b = a ++ m ++ c -> List.length a = i -> List.length m = List.length d ->
  Buf.write b i d = a ++ d ++ c.
Proof. intros -> <- H. now apply write_app. Qed.

Lemma read_split (b a m c : list Z) (i n : nat) :
  b = a ++ m ++ c -> List.length a = i -> List.length m = n ->
  Buf.read b i n = m.
Proof. intros -> <- <-. apply read_app. Qed.

Lemma load_u32_split (b a c : list Z) (i : nat) (v : Z) :
  b = a ++ le32_bytes v ++ c -> List.length a = i -> 0 <= v < 2 ^ 32 ->
  load_u32 b i = v.
Proof. intros -> <- H. rewrite load_u32_app. now apply load_u32_le32. Qed.

Variable payload : list Z.
Hypothesis Hfit : Buf.len payload <= RKFT_BLOCKSIZE - 12.

Let n : nat := List.length payload.
Let rest : nat := (Z.to_nat RKFT_BLOCKSIZE - 12 - n)%nat.

Lemma payload_nat : (n + 12 <= Z.to_nat RKFT_BLOCKSIZE)%nat.
Proof. unfold Buf.len, RKFT_BLOCKSIZE in *. subst n. lia. Qed.

Lemma len_payload_range : 0 <= Buf.len payload < 2 ^ 32.
Proof. unfold Buf.len, RKFT_BLOCKSIZE in *. lia. Qed.

(** The zero buffer, cut where the blob has its fields. *)
Lemma zeros_layout :
  Buf.zeros (Z.to_nat RKFT_BLOCKSIZE) =
  Buf.zeros 4 ++ Buf.zeros 4 ++ Buf.zeros n ++ Buf.zeros 4 ++ Buf.zeros rest.
Proof.
  pose proof payload_nat. rewrite <- !zeros_app. f_equal.
  subst rest. lia.
Qed.

Lemma store_magic (rem : list Z) :
  Buf.write (Buf.zeros 4 ++ rem) 0 (Buf.of_string "PARM")
  = Buf.of_string "PARM" ++ rem.
Proof. reflexivity. Qed.

Lemma store_length (v : Z) (rem : list Z) :
  store_u32 (Buf.of_string "PARM" ++ Buf.zeros 4 ++ rem) 4 v
  = Buf.of_string "PARM" ++ le32_bytes v ++ rem.
Proof. reflexivity. Qed.

Lemma store_payload (rem : list Z) :
  Buf.write (Buf.of_string "PARM" ++ Buf.zeros 4 ++ Buf.zeros n ++ rem) 8 payload
  = Buf.of_string "PARM" ++ Buf.zeros 4 ++ payload ++ rem.
Proof.
  rewrite (write_split _ (Buf.of_string "PARM" ++ Buf.zeros 4) (Buf.zeros n)
             rem payload 8).
  - now rewrite <- app_assoc.
  - now rewrite <- app_assoc.
  - reflexivity.
  - unfold Buf.zeros. now rewrite repeat_length.
Qed.

Lemma store_trailer (c : Z) (rem : list Z) :
  PUT32LE (Buf.of_string "PARM" ++ le32_bytes (Buf.len payload) ++ payload
           ++ Buf.zeros 4 ++ rem)
          (Z.to_nat (8 + Buf.len payload)) c
  = Buf.of_string "PARM" ++ le32_bytes (Buf.len payload) ++ payload
    ++ le32_bytes c ++ rem.
Proof.
  unfold PUT32LE.
  rewrite (write_split _
             (Buf.of_string "PARM" ++ le32_bytes (Buf.len payload) ++ payload)
             (Buf.zeros 4) rem (le32_bytes c)).
  - now rewrite <- !app_assoc.
  - now rewrite <- !app_assoc.
  - rewrite !length_app. cbn [List.length Buf.of_string le32_bytes].
    unfold Buf.len. lia.
  - reflexivity.
Qed.

(** What [buf] holds when case ['P'] has stored magic, payload, length
    and trailer into the zero buffer. *)
Lemma encode_stores (c : Z) :
  let b1 := Buf.write (Buf.zeros (Z.to_nat RKFT_BLOCKSIZE)) 0 (Buf.of_string "PARM") in
  let b2 := Buf.write b1 8 payload in
  let b3 := store_u32 b2 4 (Buf.len payload) in
  Buf.len b3 = RKFT_BLOCKSIZE /\
  Buf.read b3 8 (Z.to_nat (Buf.len payload)) = payload /\
  PUT32LE b3 (Z.to_nat (8 + Buf.len payload)) c =
    Buf.of_string "PARM" ++ le32_bytes (Buf.len payload) ++ payload
    ++ le32_bytes c ++ Buf.zeros rest.
Proof.
  pose proof payload_nat as Hn. cbv zeta.
  rewrite zeros_layout, store_magic, store_payload, store_length, store_trailer.
  split; [| split; [| reflexivity]].
  - unfold Buf.len.
    rewrite !length_app. unfold Buf.zeros. rewrite !repeat_length.
    change (List.length (Buf.of_string "PARM")) with 4%nat.
    change (List.length (le32_bytes (Z.of_nat (List.length payload)))) with 4%nat.
    unfold rest, n, RKFT_BLOCKSIZE in *. lia.
  - apply (read_split _ (Buf.of_string "PARM" ++ le32_bytes (Buf.len payload))
             payload (Buf.zeros 4 ++ Buf.zeros rest)).
    + now rewrite <- app_assoc.
    + reflexivity.
    + unfold Buf.len. lia.
Qed.

(** The layout facts that decoding relies on, for a blob whose payload
    bytes were replaced by as many others. *)
Variable other : list Z.
Hypothesis Hsame : List.length other = List.length payload.

Lemma blob_len : Buf.len (param_blob_with payload other) = RKFT_BLOCKSIZE.
Proof.
  pose proof payload_nat as Hn. unfold param_blob_with, Buf.len.
  rewrite !length_app. unfold Buf.zeros. rewrite repeat_length.
  cbn [List.length Buf.of_string le32_bytes]. rewrite Hsame. fold n.
  unfold RKFT_BLOCKSIZE in *. lia.
Qed.

Lemma blob_length_field : load_u32 (param_blob_with payload other) 4 = Buf.len payload.
Proof.
  apply (load_u32_split _ (Buf.of_string "PARM")
           (other ++ le32_bytes (Int.u32 (rkcrc32 0 payload))
            ++ Buf.zeros (Z.to_nat RKFT_BLOCKSIZE - 12 - List.length payload))).
  - reflexivity.
  - reflexivity.
  - apply len_payload_range.
Qed.

Lemma blob_trailer :
  load_u32 (param_blob_with payload other) (Z.to_nat (8 + Buf.len payload))
  = Int.u32 (rkcrc32 0 payload).
Proof.
  apply (load_u32_split _
           (Buf.of_string "PARM" ++ le32_bytes (Buf.len payload) ++ other)
           (Buf.zeros (Z.to_nat RKFT_BLOCKSIZE - 12 - List.length payload))).
  - unfold param_blob_with. now rewrite <- !app_assoc.
  - rewrite !length_app. cbn [List.length Buf.of_string le32_bytes].
    unfold Buf.len. lia.
  - apply u32_range.
Qed.

Lemma blob_payload :
  Buf.read (param_blob_with payload other) 8 (Z.to_nat (Buf.len payload)) = other.
Proof.
  apply (read_split _ (Buf.of_string "PARM" ++ le32_bytes (Buf.len payload))
           other
           (le32_bytes (Int.u32 (rkcrc32 0 payload))
            ++ Buf.zeros (Z.to_nat RKFT_BLOCKSIZE - 12 - List.length payload))).
  - unfold param_blob_with. now rewrite <- !app_assoc.
  - reflexivity.
  - unfold Buf.len. lia.
Qed.

End Blob.

(** ** Projections of traces *)

Lemma frames_app (a b : list event) : frames (a ++ b) = frames a ++ frames b.
Proof. apply flat_map_app. Qed.

Lemma sent_app (a b : list event) : sent (a ++ b) = sent a ++ sent b.
Proof. apply flat_map_app. Qed.

Lemma written_app (a b : list event) : written (a ++ b) = written a ++ written b.
Proof. apply flat_map_app. Qed.

Lemma requested_app (a b : list event) :
  requested (a ++ b) = requested a ++ requested b.
Proof. apply flat_map_app. Qed.

Lemma controls_app (a b : list event) :
  controls (a ++ b) = controls a ++ controls b.
Proof. apply flat_map_app. Qed.

Lemma dumps_app (a b : list event) : dumps (a ++ b) = dumps a ++ dumps b.
Proof. apply flat_map_app. Qed.

(** The fields of a frame of [send_cbw] are the arguments of the call. *)
Lemma fields_cbw_frame (command offset nsectors flag r : Z) :
  0 <= command < 2 ^ 32 -> 0 <= offset < 2 ^ 32 ->
  0 <= nsectors < 2 ^ 16 -> 0 <= flag < 2 ^ 8 ->
  fields (cbw_frame command offset nsectors flag r)
  = (command, offset, nsectors, flag).
Proof.
  intros Hc Ho Hn Hf. rewrite cbw_frame_bytes by assumption.
  unfold fields, Frame.opcode, Frame.modeFlag, Frame.offset, Frame.length,
    GETBE32, GETBE16, Buf.get.
  cbn [nth Nat.add].
  now rewrite !be32_join, be16_join by assumption.
Qed.

(** What [send_cbw] prints of its frame: the first, third and fourth byte
    of the command and the mode flag. *)
Lemma dump_cbw_frame (command offset nsectors flag r : Z) :
  0 <= command < 2 ^ 32 -> 0 <= offset < 2 ^ 32 ->
  0 <= nsectors < 2 ^ 16 -> 0 <= flag < 2 ^ 8 ->
  dump_of (cbw_frame command offset nsectors flag r)
  = (Z.land (Z.shiftr command 24) 0xff, Z.land (Z.shiftr command 8) 0xff,
     Z.land command 0xff, flag).
Proof.
  intros Hc Ho Hn Hf. rewrite cbw_frame_bytes by assumption. reflexivity.
Qed.

Lemma dumps_cbw (command offset nsectors flag r : Z) :
  dumps (cbw_events command offset nsectors flag r)
  = [dump_of (cbw_frame command offset nsectors flag r)].
Proof. reflexivity. Qed.

(** The range conditions of frames with constant fields. *)
Ltac frame_ranges :=
  unfold RKFT_CMD_TESTUNITREADY, RKFT_CMD_READLBA, RKFT_CMD_WRITELBA,
    RKFT_CMD_READFLASHINFO, RKFT_CMD_READSDRAM, RKFT_CMD_WRITESDRAM,
    RKFT_CMD_READSECTOR, RKFT_CMD_WRITESECTOR, RKFT_OFF_INCR, RKFT_BLOCKSIZE in *;
  cbn; lia.

Lemma opcode_cbw_frame (command offset nsectors flag r : Z) :
  0 <= command < 2 ^ 32 -> 0 <= offset < 2 ^ 32 ->
  0 <= nsectors < 2 ^ 16 -> 0 <= flag < 2 ^ 8 ->
  Frame.opcode (cbw_frame command offset nsectors flag r) = command.
Proof.
  intros Hc Ho Hn Hf.
  pose proof (fields_cbw_frame command offset nsectors flag r Hc Ho Hn Hf) as H.
  unfold fields in H. congruence.
Qed.

(** ** Standard input and the bulk transfers *)

Lemma sys_read_file (count : Z) (d : list Z) :
  Buf.len d <= count -> sys_read count (file_stdin d) = (Buf.len d, d, []).
Proof.
  intros H. unfold sys_read, file_stdin.
  apply Z.leb_le in H. now rewrite H.
Qed.

Lemma read_stdin_buf_eq (at_ : nat) (count : Z) (w : world) (n : Z)
    (d : list Z) (s' : list read_result) :
  sys_read count (w_stdin w) = (n, d, s') ->
  read_stdin_buf at_ count w =
  (Ok n, mkWorld (Buf.write (w_buf w) at_ d) (w_ibuf w) s' (w_room w)
                 (w_dev w) (w_rand w) (w_trace w)).
Proof. intros H. unfold read_stdin_buf. now rewrite H. Qed.

Lemma send_buf_block (w : world) :
  Buf.len (w_buf w) = RKFT_BLOCKSIZE ->
  send_buf RKFT_BLOCKSIZE w =
  (Ok tt, mkWorld (w_buf w) (w_ibuf w) (w_stdin w) (w_room w) (w_dev w)
                  (w_rand w) (w_trace w ++ [EvSendBuf (w_buf w)])).
Proof.
  intros H. unfold send_buf. exec.
  assert (Hin : Buf.inside (w_buf w) 0 RKFT_BLOCKSIZE = true).
  { unfold Buf.inside. rewrite H. reflexivity. }
  rewrite Hin. exec. unfold Buf.read. cbn [skipn].
  rewrite firstn_all2; [reflexivity |].
  unfold Buf.len in H. rewrite <- H. lia.
Qed.

Section Encode.

Context {crc : RkCrc}.

Lemma write_parameters_loop_step (fuel : nat) (offset : Z) (w : world) :
  offset < 0x2000 -> Buf.len (w_buf w) = RKFT_BLOCKSIZE ->
  write_parameters_loop (S fuel) 0 offset w =
  write_parameters_loop fuel 0 (offset + 0x400)
    (mkWorld (w_buf w) (w_ibuf w) (w_stdin w) (w_room w) (w_dev w)
             (tl (w_rand w))
             (w_trace w ++ copy_events (w_buf w) offset (hd 0 (w_rand w)))).
Proof.
  intros Hlt Hlen. cbn [write_parameters_loop].
  apply Z.ltb_lt in Hlt. rewrite Hlt. exec.
  rewrite send_buf_block by (cbn [w_buf]; assumption).
  exec. unfold copy_events, cbw_events. flatten_trace. reflexivity.
Qed.

Lemma write_parameters_loop_done (fuel : nat) (offset : Z) (w : world) :
  0x2000 <= offset -> write_parameters_loop (S fuel) 0 offset w = (Ok tt, w).
Proof.
  intros Hge. cbn [write_parameters_loop].
  apply Z.ltb_ge in Hge. now rewrite Hge.
Qed.

Lemma hd_nth (l : list Z) : hd 0 l = nth 0 l 0.
Proof. now destruct l. Qed.

Lemma nth_tl (l : list Z) (k : nat) : nth k (tl l) 0 = nth (S k) l 0.
Proof. destruct l; [now destruct k | reflexivity]. Qed.

Lemma write_parameters_loop_run (w : world) :
  Buf.len (w_buf w) = RKFT_BLOCKSIZE ->
  write_parameters_loop 9 0 0 w =
  (Ok tt, mkWorld (w_buf w) (w_ibuf w) (w_stdin w) (w_room w) (w_dev w)
                  (Nat.iter 8 (@tl Z) (w_rand w))
                  (w_trace w ++ copies_events (w_buf w) (w_rand w))).
Proof.
  intros Hlen.
  do 8 (rewrite write_parameters_loop_step by (cbn [w_buf]; first [lia | assumption]);
        cbn [w_buf w_ibuf w_stdin w_room w_dev w_rand w_trace]).
  rewrite write_parameters_loop_done by lia.
  unfold copies_events. cbn [Nat.iter].
  rewrite !hd_nth, !nth_tl. rewrite <- !app_assoc. reflexivity.
Qed.

(** Case ['P'] on a payload that fits: the final world. *)
Lemma write_parameters_run (payload : list Z) (ib : list Z) (room : option Z)
    (dev : list (list Z)) (rand : list Z) (t : list event) :
  Buf.len payload <= RKFT_BLOCKSIZE - 12 ->
  write_parameters 0
    (mkWorld (Buf.zeros (Z.to_nat RKFT_BLOCKSIZE)) ib (file_stdin payload)
             room dev rand t) =
  (Ok tt, mkWorld (param_blob payload) ib [] room dev
                  (Nat.iter 8 (@tl Z) rand)
                  (t ++ copies_events (param_blob payload) rand ++ [EvInfo MsgDone])).
Proof.
  intros Hfit. unfold write_parameters. exec.
  erewrite read_stdin_buf_eq;
    [| cbn [w_stdin]; apply sys_read_file; unfold RKFT_BLOCKSIZE in *; lia].
  exec.
  assert (Hneg : (Buf.len payload <? 0) = false)
    by (apply Z.ltb_ge; unfold Buf.len; lia).
  rewrite Hneg. exec.
  destruct (encode_stores payload Hfit
              (Int.u32 (rkcrc32 0 payload))) as (Hlen & Hread & Hput).
  cbv zeta in Hlen, Hread, Hput.
  rewrite Hread.
  assert (Hin : Buf.inside
                  (store_u32
                     (Buf.write
                        (Buf.write (Buf.zeros (Z.to_nat RKFT_BLOCKSIZE)) 0
                                   (Buf.of_string "PARM")) 8 payload)
                     4 (Buf.len payload))
                  (8 + Buf.len payload) 4 = true).
  { apply inside_trailer; [assumption | unfold Buf.len; lia | assumption]. }
  rewrite Hin. cbn [negb]. exec. rewrite Hput.
  fold (param_blob payload).
  rewrite write_parameters_loop_run
    by (cbn [w_buf]; apply (blob_len payload Hfit payload eq_refl)).
  exec. flatten_trace. reflexivity.
Qed.

End Encode.

(** ** The bit-by-bit checksums detect a changed byte *)

Section BitCrcFacts.

Variables width poly : Z.
Hypothesis Hwidth : 8 <= width.
Hypothesis Hpoly : 0 <= poly < 2 ^ width.
Hypothesis Hodd : Z.odd poly = true.

Let top : Z := 2 ^ (width - 1).

Lemma pow_width : 2 ^ width = 2 * top.
Proof.
  subst top. rewrite <- Z.pow_succ_r by lia. f_equal. lia.
Qed.

Lemma top_pos : 0 < top.
Proof. subst top. apply Z.pow_pos_nonneg; lia. Qed.

Lemma lxor_range (a b : Z) :
  0 <= a < 2 ^ width -> 0 <= b < 2 ^ width -> 0 <= Z.lxor a b < 2 ^ width.
Proof.
  intros Ha Hb.
  assert (Hnn : 0 <= Z.lxor a b) by (apply Z.lxor_nonneg; lia).
  split; [assumption |].
  destruct (Z.eq_dec (Z.lxor a b) 0) as [-> | Hne].
  { apply Z.pow_pos_nonneg; lia. }
  apply Z.log2_lt_pow2; [lia |].
  eapply Z.le_lt_trans; [apply Z.log2_lxor; lia |].
  apply Z.max_lub_lt.
  - destruct (Z.eq_dec a 0) as [-> | ?]; [cbn; lia |].
    apply Z.log2_lt_pow2; lia.
  - destruct (Z.eq_dec b 0) as [-> | ?]; [cbn; lia |].
    apply Z.log2_lt_pow2; lia.
Qed.

Lemma lxor_cancel_r (a b k : Z) : Z.lxor a k = Z.lxor b k -> a = b.
Proof.
  intros H. apply (f_equal (fun v => Z.lxor v k)) in H.
  now rewrite !Z.lxor_assoc, Z.lxor_nilpotent, !Z.lxor_0_r in H.
Qed.

Lemma lxor_cancel_l (a b k : Z) : Z.lxor k a = Z.lxor k b -> a = b.
Proof. rewrite !(Z.lxor_comm k). apply lxor_cancel_r. Qed.

Lemma odd_lxor (a b : Z) : Z.odd (Z.lxor a b) = xorb (Z.odd a) (Z.odd b).
Proof. rewrite <- !Z.bit0_odd. apply Z.lxor_spec. Qed.

Lemma shift_range (c : Z) :
  0 <= c < 2 ^ width -> 0 <= BitCrc.shift width poly c < 2 ^ width.
Proof.
  intros Hc. unfold BitCrc.shift. fold top.
  pose proof pow_width. pose proof top_pos.
  destruct (Z.ltb_spec c top); [lia |].
  apply lxor_range; lia.
Qed.

Lemma shift_odd (c : Z) :
  Z.odd (BitCrc.shift width poly c) = negb (c <? top).
Proof.
  unfold BitCrc.shift. fold top. pose proof pow_width as Hw.
  destruct (Z.ltb_spec c top); cbn [negb].
  - rewrite Z.odd_mul. reflexivity.
  - rewrite odd_lxor, Hodd, Hw.
    replace (2 * c - 2 * top) with (2 * (c - top)) by lia.
    rewrite Z.odd_mul. reflexivity.
Qed.

Lemma shift_inj (c c' : Z) :
  BitCrc.shift width poly c = BitCrc.shift width poly c' -> c = c'.
Proof.
  intros H. pose proof (f_equal Z.odd H) as Ho.
  rewrite !shift_odd in Ho.
  unfold BitCrc.shift in H. fold top in H.
  destruct (Z.ltb_spec c top); destruct (Z.ltb_spec c' top);
    cbn in Ho; try discriminate.
  - lia.
  - apply lxor_cancel_r in H. lia.
Qed.

Lemma byte_top_range (b : Z) :
  0 <= b < 256 -> 0 <= b * 2 ^ (width - 8) < 2 ^ width.
Proof.
  intros Hb.
  assert (E : 2 ^ width = 256 * 2 ^ (width - 8)).
  { change 256 with (2 ^ 8). rewrite <- Z.pow_add_r by lia. f_equal. lia. }
  assert (0 < 2 ^ (width - 8)) by (apply Z.pow_pos_nonneg; lia).
  rewrite E. nia.
Qed.

Lemma step_range (c b : Z) :
  0 <= c < 2 ^ width -> 0 <= b < 256 ->
  0 <= BitCrc.step width poly c b < 2 ^ width.
Proof.
  intros Hc Hb. unfold BitCrc.step. cbv zeta.
  do 8 apply shift_range.
  apply lxor_range; [assumption | now apply byte_top_range].
Qed.

Lemma step_inj_state (c c' b : Z) :
  BitCrc.step width poly c b = BitCrc.step width poly c' b -> c = c'.
Proof.
  unfold BitCrc.step. cbv zeta. intros H.
  do 8 apply shift_inj in H. now apply lxor_cancel_r in H.
Qed.

Lemma step_inj_byte (c b b' : Z) :
  BitCrc.step width poly c b = BitCrc.step width poly c b' -> b = b'.
Proof.
  unfold BitCrc.step. cbv zeta. intros H.
  do 8 apply shift_inj in H. apply lxor_cancel_l in H.
  assert (0 < 2 ^ (width - 8)) by (apply Z.pow_pos_nonneg; lia).
  nia.
Qed.

Lemma crc_range (l : list Z) (c : Z) :
  0 <= c < 2 ^ width -> Buf.bytes l = true ->
  0 <= BitCrc.crc width poly c l < 2 ^ width.
Proof.
  revert c. induction l as [| b l IH]; intros c Hc Hl; [exact Hc |].
  unfold BitCrc.crc. cbn [fold_left]. apply IH.
  - apply step_range; [assumption |].
    apply bytes_Forall in Hl. now inversion Hl.
  - unfold Buf.bytes in *. cbn [forallb] in Hl.
    now apply andb_true_iff in Hl.
Qed.

Lemma crc_app (l l' : list Z) (c : Z) :
  BitCrc.crc width poly c (l ++ l')
  = BitCrc.crc width poly (BitCrc.crc width poly c l) l'.
Proof. apply fold_left_app. Qed.

Lemma crc_inj_state (l : list Z) (c c' : Z) :
  BitCrc.crc width poly c l = BitCrc.crc width poly c' l -> c = c'.
Proof.
  revert c c'. induction l as [| b l IH]; intros c c' H; [exact H |].
  unfold BitCrc.crc in H. cbn [fold_left] in H.
  apply IH in H. now apply step_inj_state in H.
Qed.

(** Two inputs that differ in exactly one byte have different
    checksums, from any start value. *)
Lemma crc_detects (pre post : list Z) (c b b' : Z) :
  b <> b' ->
  BitCrc.crc width poly c (pre ++ b :: post)
  <> BitCrc.crc width poly c (pre ++ b' :: post).
Proof.
  intros Hne H. rewrite !crc_app in H.
  unfold BitCrc.crc at 1 3 in H. cbn [fold_left] in H.
  apply crc_inj_state, step_inj_byte in H. contradiction.
Qed.

End BitCrcFacts.

Lemma bytes_app (a b : list Z) :
  Buf.bytes (a ++ b) = Buf.bytes a && Buf.bytes b.
Proof. apply forallb_app. Qed.

Lemma bit_crc_detects : detects_byte_flips bit_crc.
Proof.
  intros pre post b b' Hpre Hpost Hb Hb' Hne.
  cbn [rkcrc32 bit_crc].
  assert (Hbytes : forall x, 0 <= x < 256 -> Buf.bytes (pre ++ x :: post) = true).
  { intros x Hx. rewrite bytes_app. change (x :: post) with ([x] ++ post).
    rewrite bytes_app, Hpre, Hpost. unfold Buf.bytes. cbn [forallb andb]. lia. }
  rewrite !u32_small.
  - apply crc_detects; first [lia | reflexivity | assumption].
  - apply crc_range; first [lia | reflexivity | now apply Hbytes].
  - apply crc_range; first [lia | reflexivity | now apply Hbytes].
Qed.

(** ** Decoding a blob *)

Section Decode.

Context {crc : RkCrc}.


(** Case ['p'] on a block laid out as a blob for [payload], carrying
    the bytes [other] in the payload's place. *)
Lemma read_parameters_blob (payload other b ib : list Z) stdin dev rand t :
  Buf.len b = RKFT_BLOCKSIZE ->
  Buf.len payload <= RKFT_BLOCKSIZE - 12 ->
  List.length other = List.length payload ->
  let blob := param_blob_with payload other in
  let stored := Int.u32 (rkcrc32 0 payload) in
  let computed := Int.u32 (rkcrc32 0 other) in
  let t1 := t ++ received_events (hd 0 rand) (Buf.len payload) in
  read_parameters 0 0 (mkWorld b ib stdin None (blob :: dev) rand t) =
  if stored =? computed then
    if Buf.len payload <=? 0
    then (Stop Exit1,
          mkWorld blob ib stdin None dev (tl rand)
                  (t1 ++ [EvWrite other; EvFatal FatalWriteError]))
    else (Ok tt, mkWorld blob ib stdin None dev (tl rand)
                         (t1 ++ [EvWrite other]))
  else (Stop Exit1,
        mkWorld blob ib stdin None dev (tl rand)
                (t1 ++ [EvFatal (FatalBadCRC stored computed)])).
Proof.
  intros Hb Hfit Hsame blob stored computed t1.
  pose proof (blob_len payload Hfit other Hsame) as Hlen.
  pose proof (blob_length_field payload Hfit other) as Hfield.
  pose proof (blob_trailer payload other Hsame) as Htrailer.
  pose proof (blob_payload payload other Hsame) as Hpayload.
  fold blob in Hlen, Hfield, Htrailer, Hpayload.
  assert (Hn : 0 <= Buf.len payload <= MAX_PARAM_LENGTH).
  { unfold Buf.len, RKFT_BLOCKSIZE, MAX_PARAM_LENGTH in *. lia. }
  rewrite read_parameters_start by assumption.
  cbv zeta. rewrite Hfield, length_check_passes by assumption.
  rewrite s32_of_length by assumption.
  assert (Hin : Buf.inside blob (8 + Buf.len payload) 4 = true)
    by (apply inside_trailer; [assumption | lia | assumption]).
  rewrite Hin, Htrailer, Hpayload. cbn [negb].
  fold stored computed t1.
  destruct (stored =? computed); cbn [negb].
  - exec.
    rewrite write_stdout_unlimited;
      [| cbn [w_buf]; unfold Buf.inside; rewrite Hlen;
         unfold RKFT_BLOCKSIZE in *; lia | reflexivity].
    cbn [w_buf w_ibuf w_stdin w_room w_dev w_rand w_trace].
    change (Z.to_nat 8) with 8%nat. rewrite Hpayload.
    destruct (Buf.len payload <=? 0); exec; flatten_trace; reflexivity.
  - exec. reflexivity.
Qed.

End Decode.

(** ** C4: the parameter blob round trip *)

Section RoundTrip.

Context {crc : RkCrc}.

Lemma sent_copy (b : list Z) (o r : Z) : sent (copy_events b o r) = [b].
Proof. reflexivity. Qed.

Lemma frames_copy (b : list Z) (o r : Z) :
  frames (copy_events b o r) = [cbw_frame RKFT_CMD_WRITELBA o RKFT_OFF_INCR 0 r].
Proof. reflexivity. Qed.

Lemma written_received (r size : Z) : written (received_events r size) = [].
Proof. reflexivity. Qed.

Lemma dumps_received (r size : Z) :
  dumps (received_events r size) = [(0x80, 0x0a, 0x14, 0)].
Proof.
  unfold received_events. rewrite !dumps_app, dumps_cbw.
  rewrite dump_cbw_frame by frame_ranges. reflexivity.
Qed.

Lemma dumps_copy (b : list Z) (o r : Z) :
  0 <= o < 2 ^ 32 -> dumps (copy_events b o r) = [(0, 0x0a, 0x15, 0)].
Proof.
  intros Ho. unfold copy_events. rewrite !dumps_app, dumps_cbw.
  rewrite dump_cbw_frame by (assumption || frame_ranges). reflexivity.
Qed.

Lemma dumps_probe (r : Z) :
  dumps (cbw_events RKFT_CMD_TESTUNITREADY 0 0 0 r) = [(0x80, 0x06, 0, 0)].
Proof.
  rewrite dumps_cbw, dump_cbw_frame by frame_ranges. reflexivity.
Qed.

(** C4, as the code has it.  For every payload of N bytes with
    1 <= N <= 16372 (the 16384-byte block less 12): case ['P'] on a file
    holding the payload sends eight identical blocks, at sector offsets
    0, 0x400, ..., 0x1c00, each the blob (magic, length, payload, CRC32
    trailer, zeros); case ['p'] on that block finds the recomputed CRC32
    equal to the stored trailer, hands exactly the N payload bytes to
    [write] on standard output, in one call, and returns 0.  Standard
    output does not hold the payload alone: [send_cbw] prints the dump
    of each of the two frames of case ['p'] there, 117 bytes of text
    (and case ['P'] prints nine dumps).  If the checksum tells payloads
    apart that differ in one byte, then the block with any single
    payload byte changed makes case ['p'] end in the fatal "bad CRC"
    (exit code 1, no call of [write]), which is not the fatal of the
    length check. *)
Theorem parameter_round_trip (payload : list Z)
    (room : option Z) (dev dev' : list (list Z)) (rand rand' : list Z)
    (stdin' : list read_result) :
  1 <= Buf.len payload <= RKFT_BLOCKSIZE - 12 ->
  let blob := param_blob payload in
  let enc := main [Buf.of_string "P"]
               (initial_world (file_stdin payload) room dev rand) in
  let dec := main [Buf.of_string "p"]
               (initial_world stdin' None (blob :: dev') rand') in
  fst enc = Returned 0 /\
  sent (w_trace (snd enc)) = repeat blob 8 /\
  map fields (frames (w_trace (snd enc))) =
    (RKFT_CMD_TESTUNITREADY, 0, 0, 0)
    :: map (fun o => (RKFT_CMD_WRITELBA, o, RKFT_OFF_INCR, 0))
           [0; 0x400; 0x800; 0xc00; 0x1000; 0x1400; 0x1800; 0x1c00] /\
  load_u32 blob 4 = Buf.len payload /\
  Buf.read blob 8 (List.length payload) = payload /\
  load_u32 blob (8 + List.length payload) = Int.u32 (rkcrc32 0 payload) /\
  fst dec = Returned 0 /\
  written (w_trace (snd dec)) = [payload] /\
  fatals (w_trace (snd dec)) = [] /\
  dumps (w_trace (snd dec)) = [(0x80, 0x06, 0, 0); (0x80, 0x0a, 0x14, 0)] /\
  Buf.len (printed (w_trace (snd dec))) = 117 /\
  dumps (w_trace (snd enc)) = (0x80, 0x06, 0, 0) :: repeat (0, 0x0a, 0x15, 0) 8 /\
  (detects_byte_flips crc ->
   forall (pre post : list Z) (b b' : Z),
     payload = pre ++ b :: post -> Buf.bytes payload = true ->
     0 <= b' < 256 -> b' <> b ->
     let tampered := param_blob_with payload (pre ++ b' :: post) in
     let bad := main [Buf.of_string "p"]
                  (initial_world stdin' None (tampered :: dev') rand') in
     fst bad = Exited 1 /\
     written (w_trace (snd bad)) = [] /\
     fatals (w_trace (snd bad)) =
       [FatalBadCRC (Int.u32 (rkcrc32 0 payload))
                    (Int.u32 (rkcrc32 0 (pre ++ b' :: post)))] /\
     Int.u32 (rkcrc32 0 payload) <> Int.u32 (rkcrc32 0 (pre ++ b' :: post))).
Proof.
  intros [Hpos Hfit] blob enc dec.
  assert (Hzeros : Buf.len (Buf.zeros (Z.to_nat RKFT_BLOCKSIZE)) = RKFT_BLOCKSIZE)
    by (rewrite len_zeros; reflexivity).
  (* encoding *)
  assert (Henc : enc =
    (Returned 0,
     snd (teardown
            (mkWorld blob (Buf.zeros (Z.to_nat RKFT_IDB_BLOCKSIZE)) [] room dev
                     (Nat.iter 8 (@tl Z) (tl rand))
                     ((cbw_events RKFT_CMD_TESTUNITREADY 0 0 0 (hd 0 rand)
                       ++ [EvRecvCsw; EvUsleep (20 * 1000)])
                      ++ copies_events blob (tl rand) ++ [EvInfo MsgDone]))))).
  { subst enc. rewrite main_P. unfold run, probed, initial_world.
    cbn [w_buf w_ibuf w_stdin w_room w_dev w_rand w_trace app].
    rewrite write_parameters_run by assumption. reflexivity. }
  (* decoding *)
  assert (Hdec : forall other, List.length other = List.length payload ->
    main [Buf.of_string "p"]
         (initial_world stdin' None (param_blob_with payload other :: dev') rand')
    = run (fun w => read_parameters 0 0 w)
          (mkWorld (Buf.zeros (Z.to_nat RKFT_BLOCKSIZE))
                   (Buf.zeros (Z.to_nat RKFT_IDB_BLOCKSIZE)) stdin' None
                   (param_blob_with payload other :: dev') (tl rand')
                   (cbw_events RKFT_CMD_TESTUNITREADY 0 0 0 (hd 0 rand')
                    ++ [EvRecvCsw; EvUsleep (20 * 1000)]))).
  { intros other _. rewrite main_p. reflexivity. }
  split; [now rewrite Henc |].
  split.
  { rewrite Henc. exec. unfold copies_events.
    rewrite !sent_app, !sent_copy. reflexivity. }
  split.
  { rewrite Henc. exec. unfold copies_events.
    rewrite !frames_app, !frames_copy. cbn [frames cbw_events flat_map app map].
    rewrite !fields_cbw_frame by frame_ranges.
    reflexivity. }
  split; [apply (blob_length_field payload Hfit payload) |].
  split.
  { pose proof (blob_payload payload payload eq_refl) as H.
    unfold Buf.len in H. now rewrite Nat2Z.id in H. }
  split.
  { pose proof (blob_trailer payload payload eq_refl) as H.
    replace (Z.to_nat (8 + Buf.len payload)) with (8 + List.length payload)%nat
      in H by (unfold Buf.len; lia).
    exact H. }
  assert (Hgood : dec =
    (Returned 0,
     snd (teardown
            (mkWorld blob (Buf.zeros (Z.to_nat RKFT_IDB_BLOCKSIZE)) stdin' None
                     dev' (tl (tl rand'))
                     (((cbw_events RKFT_CMD_TESTUNITREADY 0 0 0 (hd 0 rand')
                        ++ [EvRecvCsw; EvUsleep (20 * 1000)])
                       ++ received_events (hd 0 (tl rand')) (Buf.len payload))
                      ++ [EvWrite payload]))))).
  { subst dec blob. unfold param_blob.
    fold (param_blob_with payload payload).
    rewrite (Hdec payload eq_refl). unfold run.
    rewrite read_parameters_blob by (assumption || reflexivity).
    cbv zeta. rewrite Z.eqb_refl.
    destruct (Z.leb_spec (Buf.len payload) 0); [lia | reflexivity]. }
  split; [now rewrite Hgood |].
  split.
  { rewrite Hgood. exec. rewrite !written_app, written_received. reflexivity. }
  split.
  { rewrite Hgood. exec. rewrite !fatals_app, fatals_received. reflexivity. }
  assert (Hdumps : dumps (w_trace (snd dec))
                   = [(0x80, 0x06, 0, 0); (0x80, 0x0a, 0x14, 0)]).
  { rewrite Hgood. exec.
    rewrite !dumps_app, dumps_received, dumps_probe. reflexivity. }
  split; [exact Hdumps |].
  split; [unfold printed; rewrite Hdumps; reflexivity |].
  split.
  { rewrite Henc. exec. unfold copies_events.
    rewrite !dumps_app, dumps_probe, !dumps_copy by (cbn; lia). reflexivity. }
  intros Hdet pre post b b' Hpay Hbytes Hb' Hne tampered bad.
  assert (Hlen' : List.length (pre ++ b' :: post) = List.length payload).
  { rewrite Hpay, !length_app. reflexivity. }
  assert (Hdiff : Int.u32 (rkcrc32 0 payload)
                  <> Int.u32 (rkcrc32 0 (pre ++ b' :: post))).
  { rewrite Hpay in Hbytes |- *.
    rewrite bytes_app in Hbytes. apply andb_true_iff in Hbytes.
    destruct Hbytes as [Hpre Hrest].
    change (b :: post) with ([b] ++ post) in Hrest.
    rewrite bytes_app in Hrest. apply andb_true_iff in Hrest.
    destruct Hrest as [Hb Hpost].
    apply Hdet; try assumption; [| congruence].
    unfold Buf.bytes in Hb. cbn [forallb] in Hb. lia. }
  assert (Hbad : bad =
    (Exited 1,
     mkWorld tampered (Buf.zeros (Z.to_nat RKFT_IDB_BLOCKSIZE)) stdin' None
             dev' (tl (tl rand'))
             (((cbw_events RKFT_CMD_TESTUNITREADY 0 0 0 (hd 0 rand')
                ++ [EvRecvCsw; EvUsleep (20 * 1000)])
               ++ received_events (hd 0 (tl rand')) (Buf.len payload))
              ++ [EvFatal (FatalBadCRC (Int.u32 (rkcrc32 0 payload))
                             (Int.u32 (rkcrc32 0 (pre ++ b' :: post))))]))).
  { subst bad tampered. rewrite (Hdec _ Hlen'). unfold run.
    rewrite read_parameters_blob by assumption.
    cbv zeta.
    destruct (Z.eqb_spec (Int.u32 (rkcrc32 0 payload))
                (Int.u32 (rkcrc32 0 (pre ++ b' :: post)))); [contradiction |].
    reflexivity. }
  split; [now rewrite Hbad |].
  split.
  { rewrite Hbad. cbn [snd w_trace].
    rewrite !written_app, written_received. reflexivity. }
  split; [| exact Hdiff].
  rewrite Hbad. cbn [snd w_trace].
  rewrite !fatals_app, fatals_received. reflexivity.
Qed.

End RoundTrip.

(** ** C strings in a buffer and slices of a text *)












(** ** Partition resolution: the code against the resolver on slices *)

Section Resolution.

Context {crc : RkCrc}.









End Resolution.

(** ** C1: partition resolution *)

Section ResolutionProperty.

Context {crc : RkCrc}.





End ResolutionProperty.

(** ** C7: a failed resolution sends no further command *)

Section FailedResolution.

Context {crc : RkCrc}.







End FailedResolution.

(** ** C3: the read loops *)

Lemma cbw_frame_truncates (command offset nsectors flag r : Z) :
  cbw_frame command offset nsectors flag r
  = cbw_frame (Int.u32 command) (Int.u32 offset) (Int.u16 nsectors)
              (Int.u8 flag) r.
Proof.
  unfold cbw_frame, Int.u32, Int.u16, Int.u8.
  now rewrite !Z.mod_mod by lia.
Qed.

(** The fields of any frame of [send_cbw]: the arguments, as the C
    parameter types keep them. *)
Lemma fields_cbw_frame_any (command offset nsectors flag r : Z) :
  fields (cbw_frame command offset nsectors flag r)
  = (Int.u32 command, Int.u32 offset, Int.u16 nsectors, Int.u8 flag).
Proof.
  rewrite cbw_frame_truncates. apply fields_cbw_frame.
  - apply u32_range.
  - apply u32_range.
  - apply Z.mod_pos_bound. lia.
  - apply Z.mod_pos_bound. lia.
Qed.

Section ReadLoops.

Context {crc : RkCrc}.

Lemma read_prefix_length (b : list Z) (n : Z) :
  0 <= n <= Buf.len b -> Buf.len (Buf.read b 0 (Z.to_nat n)) = n.
Proof.
  intros H. unfold Buf.read, Buf.len in *. cbn [skipn].
  rewrite length_firstn. lia.
Qed.

Lemma recv_keeps_length (b d : list Z) (n : Z) :
  0 <= n <= Buf.len b ->
  Buf.len (Buf.write b 0 (firstn (Z.to_nat n) d)) = Buf.len b.
Proof.
  intros H. unfold Buf.len in *. rewrite write_length; [reflexivity |].
  rewrite length_firstn. lia.
Qed.

(** One pass of the body of a read loop that asks for [count] bytes
    with the frame [(command, offset, nsectors)] and forwards them;
    [k] is the rest of the loop. *)
Lemma read_pass (command offset nsectors flag count : Z) (m : message)
    (w : world) :
  w_room w = None -> 0 < count <= Buf.len (w_buf w) ->
  exists w',
    (forall (A : Type) (k : Z -> M A),
       (info m ;;
        send_cbw command offset nsectors flag ;;
        recv_buf count ;;
        recv_csw ;;
        n <- write_stdout 0 count ;;
        k n)%prog w = k count w') /\
    w_room w' = None /\ Buf.len (w_buf w') = Buf.len (w_buf w) /\
    w_buf w' = Buf.write (w_buf w) 0 (firstn (Z.to_nat count) (hd [] (w_dev w))) /\
    w_dev w' = tl (w_dev w) /\
    exists evs, w_trace w' = w_trace w ++ evs /\
      frames evs = [cbw_frame command offset nsectors flag (hd 0 (w_rand w))] /\
      requested evs = [count] /\
      map Buf.len (written evs) = [count] /\
      fatals evs = [] /\ sent evs = [] /\
      written evs = forwarded (w_buf w) (w_dev w) [count] /\
      dumps evs = map dump_of (frames evs).
Proof.
  intros Hroom Hcount.
  exists (mkWorld (Buf.write (w_buf w) 0 (firstn (Z.to_nat count) (hd [] (w_dev w))))
                  (w_ibuf w) (w_stdin w) None (tl (w_dev w)) (tl (w_rand w))
                  (w_trace w
                   ++ [EvInfo m]
                   ++ cbw_events command offset nsectors flag (hd 0 (w_rand w))
                   ++ [EvRecvBuf count; EvRecvCsw;
                       EvWrite (Buf.read
                                  (Buf.write (w_buf w) 0
                                     (firstn (Z.to_nat count) (hd [] (w_dev w))))
                                  0 (Z.to_nat count))])).
  split.
  { intros A k. exec.
    rewrite recv_buf_fits
      by (cbn [w_buf w_dev]; unfold Buf.len in *; rewrite length_firstn; lia).
    exec.
    rewrite write_stdout_unlimited;
      [| cbn [w_buf]; unfold Buf.inside; rewrite recv_keeps_length by lia; lia
       | assumption].
    cbn [w_buf w_ibuf w_stdin w_room w_dev w_rand w_trace].
    unfold cbw_events. rewrite <- !app_assoc. reflexivity. }
  cbn [w_buf w_room w_trace w_dev].
  split; [reflexivity |]. split; [apply recv_keeps_length; lia |].
  split; [reflexivity |]. split; [reflexivity |].
  eexists. split; [reflexivity |].
  cbn [frames requested written fatals sent dumps flat_map app map cbw_events
       forwarded].
  rewrite read_prefix_length by (rewrite recv_keeps_length by lia; lia).
  repeat split; reflexivity.
Qed.

(** The RAM read loop issues the windows of the spec. *)
Lemma read_ram_loop_windows (incr flag : Z) :
  0 < incr <= RKFT_BLOCKSIZE ->
  forall (fuel : nat) (offset size : Z) (w : world),
    (Z.to_nat size < fuel)%nat ->
    - 2 ^ 31 <= offset -> offset + size < 2 ^ 31 -> size < 2 ^ 31 ->
    w_room w = None -> Buf.len (w_buf w) = RKFT_BLOCKSIZE ->
    exists w' evs,
      read_ram_loop incr fuel flag offset size w = (Ok tt, w') /\
      w_trace w' = w_trace w ++ evs /\
      map fields (frames evs) =
        map (fun p => (RKFT_CMD_READSDRAM,
                       Int.u32 (fst p - SDRAM_BASE_ADDRESS), snd p, Int.u8 flag))
            (windows fuel incr offset size) /\
      requested evs = map snd (windows fuel incr offset size) /\
      map Buf.len (written evs) = map snd (windows fuel incr offset size) /\
      fatals evs = [] /\ sent evs = [] /\
      written evs =
        forwarded (w_buf w) (w_dev w) (map snd (windows fuel incr offset size)) /\
      dumps evs = map dump_of (frames evs).
Proof.
  intros Hincr. induction fuel as [| fuel IH];
    intros offset size w Hfuel Hoff Hend Hsize Hroom Hlen; [lia |].
  cbn [read_ram_loop windows].
  destruct (Z.gtb_spec size 0) as [Hpos | Hnpos].
  2:{ exists w, []. rewrite app_nil_r. repeat split; reflexivity. }
  set (window := if size >? incr then incr else size).
  assert (Hwin : window = Z.min size incr).
  { subst window. destruct (Z.gtb_spec size incr); lia. }
  assert (Hw : 0 < window <= incr) by lia.
  destruct (read_pass RKFT_CMD_READSDRAM (offset - SDRAM_BASE_ADDRESS) window
              flag window (MsgReadingMem offset window) w Hroom)
    as (w1 & Hpass & Hroom1 & Hlen1 & Hb1 & Hd1 & evs1 & Ht1 & Hf1 & Hr1 & Hwr1
        & Hfa1 & Hs1 & Hc1 & Hdu1);
    [lia |].
  rewrite Hpass.
  destruct (Z.leb_spec window 0) as [? | _]; [lia |].
  rewrite !s32_small by lia.
  destruct (IH (offset + window) (size - window) w1)
    as (w' & evs & Hrun & Ht & Hf & Hr & Hwr & Hfa & Hs & Hc & Hdu);
    try lia; try assumption.
  exists w', (evs1 ++ evs). rewrite Hrun, Ht, Ht1, <- Hwin.
  rewrite !dumps_app, !frames_app, !map_app, Hdu1, Hdu.
  rewrite !requested_app, !written_app, !fatals_app, !sent_app,
    !map_app, Hc1, Hc, Hf1, Hr1, Hfa1, Hs1, Hf, Hr, Hfa, Hs.
  rewrite Hc1 in Hwr1. rewrite Hc in Hwr. rewrite Hwr1, Hwr.
  cbn [map app fst snd forwarded]. rewrite fields_cbw_frame_any.
  rewrite app_assoc, Hb1, Hd1.
  replace (Int.u32 RKFT_CMD_READSDRAM) with RKFT_CMD_READSDRAM by reflexivity.
  rewrite (u16_small window) by (unfold RKFT_BLOCKSIZE in *; lia).
  repeat split; reflexivity.
Qed.

(** The flash read loop always issues a full window of
    [RKFT_OFF_INCR] sectors. *)
Lemma read_flash_loop_windows (flag : Z) :
  forall (fuel : nat) (offset size : Z) (w : world),
    (Z.to_nat size < fuel)%nat ->
    - 2 ^ 31 <= offset -> offset + size + RKFT_OFF_INCR <= 2 ^ 31 ->
    size < 2 ^ 31 ->
    w_room w = None -> Buf.len (w_buf w) = RKFT_BLOCKSIZE ->
    exists w' evs,
      read_flash_loop fuel flag offset size w = (Ok tt, w') /\
      w_trace w' = w_trace w ++ evs /\
      map fields (frames evs) =
        map (fun p => (RKFT_CMD_READLBA, Int.u32 (fst p), snd p, Int.u8 flag))
            (full_windows fuel RKFT_OFF_INCR offset size) /\
      requested evs =
        map (fun p => snd p * 512) (full_windows fuel RKFT_OFF_INCR offset size) /\
      map Buf.len (written evs) =
        map (fun p => snd p * 512) (full_windows fuel RKFT_OFF_INCR offset size) /\
      fatals evs = [] /\ sent evs = [] /\
      written evs =
        forwarded (w_buf w) (w_dev w)
          (map (fun p => snd p * 512)
               (full_windows fuel RKFT_OFF_INCR offset size)) /\
      dumps evs = map dump_of (frames evs).
Proof.
  induction fuel as [| fuel IH];
    intros offset size w Hfuel Hoff Hend Hsize Hroom Hlen; [lia |].
  cbn [read_flash_loop full_windows].
  destruct (Z.gtb_spec size 0) as [Hpos | Hnpos].
  2:{ exists w, []. rewrite app_nil_r. repeat split; reflexivity. }
  destruct (read_pass RKFT_CMD_READLBA offset RKFT_OFF_INCR flag RKFT_BLOCKSIZE
              (MsgReadingFlash offset) w Hroom)
    as (w1 & Hpass & Hroom1 & Hlen1 & Hb1 & Hd1 & evs1 & Ht1 & Hf1 & Hr1 & Hwr1
        & Hfa1 & Hs1 & Hc1 & Hdu1);
    [rewrite Hlen; unfold RKFT_BLOCKSIZE; lia |].
  rewrite Hpass.
  change (RKFT_BLOCKSIZE <=? 0) with false. cbv iota.
  change RKFT_OFF_INCR with 32 in *.
  rewrite (s32_small (offset + 32)) by lia.
  destruct (Z.le_gt_cases size 32) as [Hlast | Hmore].
  - (* the last window: what is left of size is not positive *)
    assert (Hneg : Int.s32 (size - 32) <= 0)
      by (rewrite s32_small by lia; lia).
    destruct fuel as [| fuel']; [lia |].
    cbn [read_flash_loop full_windows].
    destruct (Z.gtb_spec (Int.s32 (size - 32)) 0) as [? | _]; [lia |].
    destruct (Z.gtb_spec (size - 32) 0) as [? | _]; [lia |].
    exists w1, evs1. rewrite Ht1, Hdu1, Hc1, Hf1, Hr1, Hfa1, Hs1.
    rewrite Hc1 in Hwr1. rewrite Hwr1.
    cbn [map fst snd forwarded]. rewrite fields_cbw_frame_any.
    repeat split; reflexivity.
  - rewrite (s32_small (size - 32)) by lia.
    destruct (IH (offset + 32) (size - 32) w1)
      as (w' & evs & Hrun & Ht & Hf & Hr & Hwr & Hfa & Hs & Hc & Hdu);
      try lia; try assumption.
    exists w', (evs1 ++ evs). rewrite Hrun, Ht, Ht1.
    rewrite !dumps_app, !frames_app, !map_app, Hdu1, Hdu.
    rewrite !requested_app, !written_app, !fatals_app, !sent_app,
      !map_app, Hc1, Hc, Hf1, Hr1, Hfa1, Hs1, Hf, Hr, Hfa, Hs.
    rewrite Hc1 in Hwr1. rewrite Hc in Hwr. rewrite Hwr1, Hwr.
    cbn [map app fst snd forwarded]. rewrite fields_cbw_frame_any, app_assoc.
    rewrite Hb1, Hd1.
    repeat split; reflexivity.
Qed.

(** When the device answers every request with exactly the bytes asked
    for, what the passes hand to [write] are its answers. *)
Lemma forwarded_exact (counts : list Z) :
  forall (b : list Z) (dev : list (list Z)),
    Forall (fun n => 0 <= n <= Buf.len b) counts ->
    map Buf.len (firstn (List.length counts) dev) = counts ->
    forwarded b dev counts = firstn (List.length counts) dev.
Proof.
  induction counts as [| n counts IH]; intros b dev Hn Hdev; [reflexivity |].
  destruct dev as [| d dev]; [discriminate Hdev |].
  cbn [List.length firstn map forwarded hd tl] in *.
  injection Hdev as Hd Hdev. inversion Hn as [| ? ? Hn1 Hn2]; subst.
  assert (Hcut : firstn (Z.to_nat (Buf.len d)) d = d)
    by (apply firstn_all2; unfold Buf.len; lia).
  rewrite Hcut.
  assert (Hread : Buf.read (Buf.write b 0 d) 0 (Z.to_nat (Buf.len d)) = d).
  { unfold Buf.read, Buf.write. cbn [skipn firstn app Nat.add].
    rewrite firstn_app.
    replace (Z.to_nat (Buf.len d) - List.length d)%nat with 0%nat
      by (unfold Buf.len; lia).
    rewrite firstn_all2 by (unfold Buf.len; lia).
    cbn [firstn]. apply app_nil_r. }
  rewrite Hread. f_equal. apply IH; [| exact Hdev].
  assert (Hb : Buf.len (Buf.write b 0 d) = Buf.len b).
  { unfold Buf.len in *. rewrite write_length; [reflexivity | lia]. }
  rewrite Hb. exact Hn2.
Qed.

End ReadLoops.

Section ReadLoopProperty.

Context {crc : RkCrc}.

Lemma full_windows_full (n : nat) (window offset total : Z) :
  Forall (fun p => snd p = window) (full_windows n window offset total).
Proof.
  revert offset total. induction n as [| n IH]; intros o s; cbn [full_windows].
  - constructor.
  - destruct (s >? 0); constructor; [reflexivity | apply IH].
Qed.

Lemma windows_bounded (n : nat) (window offset total : Z) :
  0 < window ->
  Forall (fun p => 0 <= snd p <= window) (windows n window offset total).
Proof.
  intros Hw. revert offset total.
  induction n as [| n IH]; intros o s; cbn [windows].
  - constructor.
  - destruct (Z.gtb_spec s 0); constructor; [cbn [snd]; lia | apply IH].
Qed.

(** C3, as the code has it.  With an output sink that takes everything:
    the RAM read loop (case ['m'], window limit [incr] =
    [RKFT_BLOCKSIZE]) issues, for every window limit, the windows
    [min(remaining, limit)] of the spec: each frame carries the offset
    less the RAM base and the window, exactly window bytes are asked
    from the device, and offset and count move by the window; for a
    count of 10 and a limit of 4 the windows are 4, 4, 2 at offsets 0,
    4, 8, ending at 10.  The flash read loop (case ['r']) always issues
    a full window of [RKFT_OFF_INCR] = 32 sectors: each frame asks for
    32 sectors and 32 * 512 bytes, and offset and count move by 32,
    whatever is left of the count.  In both loops a pass stores the
    answer of the device at the start of [buf] and hands the bytes
    asked for, from the start of [buf], to [write] on standard output:
    these are the answers of the device, unchanged and in order, when
    the device delivers the bytes asked for, and bytes that it did not
    deliver are what [buf] held.  Standard output also receives,
    through [printf], the dump of every frame: one dump per frame,
    showing bytes 12, 14, 15 and 16 of that frame. *)
Theorem read_loop_windows (flag offset size : Z) (w : world) :
  - 2 ^ 31 <= offset -> offset + size + RKFT_OFF_INCR <= 2 ^ 31 ->
  size < 2 ^ 31 ->
  w_room w = None -> Buf.len (w_buf w) = RKFT_BLOCKSIZE ->
  (forall incr, 0 < incr <= RKFT_BLOCKSIZE ->
     let ws := windows_of incr offset size in
     exists w' evs,
       read_ram_loop incr (S (Z.to_nat size)) flag offset size w = (Ok tt, w') /\
       w_trace w' = w_trace w ++ evs /\
       map fields (frames evs) =
         map (fun p => (RKFT_CMD_READSDRAM,
                        Int.u32 (fst p - SDRAM_BASE_ADDRESS), snd p, Int.u8 flag))
             ws /\
       requested evs = map snd ws /\
       map Buf.len (written evs) = map snd ws /\
       written evs = forwarded (w_buf w) (w_dev w) (map snd ws) /\
       (map Buf.len (firstn (List.length ws) (w_dev w)) = map snd ws ->
        written evs = firstn (List.length ws) (w_dev w)) /\
       dumps evs = map dump_of (frames evs) /\
       fatals evs = []) /\
  (let ws := full_windows_of RKFT_OFF_INCR offset size in
   exists w' evs,
     read_flash_loop (S (Z.to_nat size)) flag offset size w = (Ok tt, w') /\
     w_trace w' = w_trace w ++ evs /\
     map fields (frames evs) =
       map (fun p => (RKFT_CMD_READLBA, Int.u32 (fst p), snd p, Int.u8 flag)) ws /\
     requested evs = map (fun p => snd p * 512) ws /\
     map Buf.len (written evs) = map (fun p => snd p * 512) ws /\
     written evs =
       forwarded (w_buf w) (w_dev w) (map (fun p => snd p * 512) ws) /\
     (map Buf.len (firstn (List.length ws) (w_dev w))
        = map (fun p => snd p * 512) ws ->
      written evs = firstn (List.length ws) (w_dev w)) /\
     dumps evs = map dump_of (frames evs) /\
     Forall (fun p => snd p = RKFT_OFF_INCR) ws /\
     fatals evs = []) /\
  windows_of 4 0 10 = [(0, 4); (4, 4); (8, 2)] /\
  final_offset 0 (windows_of 4 0 10) = 10 /\
  full_windows_of RKFT_OFF_INCR 0 10 = [(0, 32)].
Proof.
  intros Hoff Hend Hsize Hroom Hlen.
  split; [| split].
  - intros incr Hincr ws.
    destruct (read_ram_loop_windows incr flag Hincr (S (Z.to_nat size))
                offset size w)
      as (w' & evs & H1 & H2 & H3 & H4 & H5 & H6 & _ & H8 & H9);
      try assumption; try lia; [unfold RKFT_OFF_INCR in Hend; cbn in Hend; lia |].
    fold (windows_of incr offset size) in H3, H4, H5, H8. fold ws in H3, H4, H5, H8.
    exists w', evs.
    split; [exact H1 |]. split; [exact H2 |]. split; [exact H3 |].
    split; [exact H4 |]. split; [exact H5 |]. split; [exact H8 |].
    split; [| split; assumption].
    intros Hexact. rewrite H8.
    rewrite <- (length_map snd ws). apply forwarded_exact.
    + rewrite Hlen. apply Forall_forall. intros n Hin.
      apply in_map_iff in Hin. destruct Hin as (p & <- & Hp).
      pose proof (windows_bounded (S (Z.to_nat size)) incr offset size
                    ltac:(lia)) as Hb.
      rewrite Forall_forall in Hb. specialize (Hb p Hp). lia.
    + rewrite length_map. exact Hexact.
  - intros ws.
    destruct (read_flash_loop_windows flag (S (Z.to_nat size)) offset size w)
      as (w' & evs & H1 & H2 & H3 & H4 & H5 & H6 & _ & H8 & H9);
      try assumption; try lia.
    fold (full_windows_of RKFT_OFF_INCR offset size) in H3, H4, H5, H8.
    fold ws in H3, H4, H5, H8.
    pose proof (full_windows_full (S (Z.to_nat size)) RKFT_OFF_INCR offset size)
      as Hfull.
    fold (full_windows_of RKFT_OFF_INCR offset size) in Hfull. fold ws in Hfull.
    exists w', evs.
    split; [exact H1 |]. split; [exact H2 |]. split; [exact H3 |].
    split; [exact H4 |]. split; [exact H5 |]. split; [exact H8 |].
    split; [| split; [exact H9 | split; assumption]].
    intros Hexact. rewrite H8.
    rewrite <- (length_map (fun p => snd p * 512) ws). apply forwarded_exact.
    + rewrite Hlen. apply Forall_forall. intros n Hin.
      apply in_map_iff in Hin. destruct Hin as (p & <- & Hp).
      rewrite Forall_forall in Hfull. rewrite (Hfull p Hp).
      unfold RKFT_OFF_INCR, RKFT_BLOCKSIZE. cbn. lia.
    + rewrite length_map. exact Hexact.
  - repeat split; reflexivity.
Qed.

End ReadLoopProperty.

(** ** C6: the write loop on an input that runs dry *)

Section WriteLoop.

Context {crc : RkCrc}.

Lemma sys_read_chunk (c : list Z) (s : list read_result) :
  window_chunk c = true ->
  sys_read RKFT_BLOCKSIZE (RdData c :: s) = (Buf.len c, c, s).
Proof.
  unfold window_chunk. intros H. apply andb_true_iff in H.
  destruct H as [_ H]. unfold sys_read. now rewrite H.
Qed.

Lemma overlay_length (b c : list Z) :
  Buf.len b = RKFT_BLOCKSIZE -> window_chunk c = true ->
  Buf.len (Buf.write b 0 c) = RKFT_BLOCKSIZE.
Proof.
  unfold window_chunk. intros Hb Hc. apply andb_true_iff in Hc.
  destruct Hc as [_ Hc]. apply Z.leb_le in Hc.
  unfold Buf.len in *. rewrite write_length; [assumption | lia].
Qed.

Lemma write_flash_loop_dry (flag : Z) (chunks : list (list Z)) :
  forall (fuel : nat) (offset size : Z) (w : world) (rest : list read_result),
    w_stdin w = map RdData chunks ++ rest ->
    forallb window_chunk chunks = true ->
    next_read rest <= 0 ->
    RKFT_OFF_INCR * Z.of_nat (List.length chunks) < size -> size < 2 ^ 31 ->
    (Z.to_nat size < fuel)%nat ->
    - 2 ^ 31 <= offset -> offset + size <= 2 ^ 31 ->
    Buf.len (w_buf w) = RKFT_BLOCKSIZE ->
    exists w' evs,
      write_flash_loop fuel flag offset size w = (Stop GotoExit, w') /\
      w_trace w' =
        w_trace w ++ evs
        ++ [EvInfo (MsgWritingFlash
                      (offset + RKFT_OFF_INCR * Z.of_nat (List.length chunks)));
            EvInfo MsgDone; EvInfo MsgPrematureEOF] /\
      map fields (frames evs) =
        map (fun o => (RKFT_CMD_WRITELBA, Int.u32 o, RKFT_OFF_INCR, Int.u8 flag))
            (window_offsets (List.length chunks) RKFT_OFF_INCR offset) /\
      sent evs = overlays (w_buf w) chunks /\
      fatals evs = [] /\ controls evs = [] /\ requested evs = [].
Proof.
  induction chunks as [| c chunks IH];
    intros fuel offset size w rest Hin Hchunks Hnext Hsize Hmax Hfuel Hoff Hend Hlen;
    change RKFT_OFF_INCR with 32 in *.
  - (* the read that finds nothing *)
    destruct fuel as [| fuel]; [lia |].
    cbn [List.length map app Z.of_nat] in *.
    cbn [write_flash_loop].
    destruct (Z.gtb_spec size 0) as [_ | ?]; [| lia].
    exec.
    unfold next_read in Hnext.
    destruct (sys_read RKFT_BLOCKSIZE rest) as [[n d] s'] eqn:Eread.
    cbn [fst] in Hnext.
    erewrite read_stdin_buf_eq by (cbn [w_stdin]; rewrite Hin; exact Eread).
    destruct (Z.leb_spec n 0) as [_ | ?]; [| lia].
    exec. eexists. exists []. split; [reflexivity |].
    cbn [w_trace app frames sent fatals controls requested flat_map map
         window_offsets overlays].
    rewrite Z.mul_0_r, Z.add_0_r, <- !app_assoc.
    repeat split; reflexivity.
  - (* one more window *)
    destruct fuel as [| fuel]; [lia |].
    cbn [forallb] in Hchunks. apply andb_true_iff in Hchunks.
    destruct Hchunks as [Hc Hchunks].
    cbn [List.length map app] in *.
    assert (Hpos : 0 < Buf.len c).
    { unfold window_chunk in Hc. apply andb_true_iff in Hc.
      destruct Hc as [Hc _]. now apply Z.ltb_lt in Hc. }
    cbn [write_flash_loop].
    destruct (Z.gtb_spec size 0) as [_ | ?]; [| lia].
    exec.
    erewrite read_stdin_buf_eq
      by (cbn [w_stdin]; rewrite Hin; apply sys_read_chunk; assumption).
    destruct (Z.leb_spec (Buf.len c) 0) as [? | _]; [lia |].
    exec.
    rewrite send_buf_block by (cbn [w_buf]; now apply overlay_length).
    exec. change RKFT_OFF_INCR with 32.
    rewrite !s32_small by lia.
    match goal with
    | |- context [write_flash_loop fuel flag _ _ ?w1] =>
        destruct (IH fuel (offset + 32) (size - 32) w1 rest)
          as (w' & evs & Hrun & Ht & Hf & Hs & Hfa & Hc' & Hr);
          try reflexivity; try assumption; try lia;
          [cbn [w_buf]; now apply overlay_length |]
    end.
    exists w'.
    exists ([EvInfo (MsgWritingFlash offset)]
            ++ cbw_events RKFT_CMD_WRITELBA offset 32 flag (hd 0 (w_rand w))
            ++ [EvSendBuf (Buf.write (w_buf w) 0 c); EvRecvCsw] ++ evs).
    rewrite Hrun, Ht. cbn [w_trace w_buf] in *.
    split; [reflexivity |]. split.
    { replace (offset + 32 * Z.of_nat (S (List.length chunks)))
        with (offset + 32 + 32 * Z.of_nat (List.length chunks)) by lia.
      unfold cbw_events. rewrite <- !app_assoc. reflexivity. }
    rewrite !frames_app, !sent_app, !fatals_app, !controls_app, !requested_app.
    cbn [frames sent fatals controls requested cbw_events flat_map app map
         window_offsets overlays].
    rewrite Hf, Hs, Hfa, Hc', Hr, fields_cbw_frame_any.
    repeat split; reflexivity.
Qed.

End WriteLoop.

Section WriteLoopProperty.

Context {crc : RkCrc}.

Lemma overlays_length (chunks : list (list Z)) (b : list Z) :
  Buf.len b = RKFT_BLOCKSIZE -> forallb window_chunk chunks = true ->
  Forall (fun x => Buf.len x = RKFT_BLOCKSIZE) (overlays b chunks).
Proof.
  revert b. induction chunks as [| c chunks IH]; intros b Hb Hcs;
    cbn [overlays]; [constructor |].
  cbn [forallb] in Hcs. apply andb_true_iff in Hcs. destruct Hcs as [Hc Hcs].
  pose proof (overlay_length b c Hb Hc) as Hlen.
  constructor; [assumption | now apply IH].
Qed.

(** Case ['w'] with explicit offset and size, after the probe. *)
Lemma main_body_write (offset size : Z) (w : world) :
  main_body (write_request offset size) w =
  write_flash 0 offset size (probed w 0).
Proof.
  rewrite main_body_probed by reflexivity.
  unfold write_request.
  cbn [rq_partname rq_action rq_flag rq_offset rq_size].
  unfold bind, ret. cbn [fst snd]. unfold do_action. dispatch. reflexivity.
Qed.

(** C6, as the code has it.  Standard input delivers the chunks, each
    non-empty and no longer than a block, and then nothing (the next
    [read] returns 0 or -1) while more windows are still to be written.
    The flash write loop sends one frame and one full block for every
    chunk, a chunk shorter than a block included (the rest of the block
    is what [buf] held before); for the window whose [read] returned
    nothing it sends no frame, it reports the premature end, the
    teardown runs and the process returns 0 with no fatal message. *)
Theorem write_loop_input_exhausted (offset size : Z)
    (chunks : list (list Z)) (rest : list read_result)
    (room : option Z) (dev : list (list Z)) (rand : list Z) :
  forallb window_chunk chunks = true ->
  next_read rest <= 0 ->
  RKFT_OFF_INCR * Z.of_nat (List.length chunks) < size -> size < 2 ^ 31 ->
  - 2 ^ 31 <= offset -> offset + size <= 2 ^ 31 ->
  let out := run (main_body (write_request offset size))
                 (initial_world (map RdData chunks ++ rest) room dev rand) in
  fst out = Returned 0 /\
  (exists pre, w_trace (snd out) = pre ++ premature_end) /\
  map fields (frames (w_trace (snd out))) =
    (RKFT_CMD_TESTUNITREADY, 0, 0, 0)
    :: map (fun o => (RKFT_CMD_WRITELBA, Int.u32 o, RKFT_OFF_INCR, 0))
           (window_offsets (List.length chunks) RKFT_OFF_INCR offset) /\
  sent (w_trace (snd out))
    = overlays (Buf.zeros (Z.to_nat RKFT_BLOCKSIZE)) chunks /\
  Forall (fun b => Buf.len b = RKFT_BLOCKSIZE) (sent (w_trace (snd out))) /\
  fatals (w_trace (snd out)) = [].
Proof.
  intros Hchunks Hnext Hsize Hmax Hoff Hend out.
  assert (Hzeros : Buf.len (Buf.zeros (Z.to_nat RKFT_BLOCKSIZE)) = RKFT_BLOCKSIZE)
    by (rewrite len_zeros; reflexivity).
  destruct (write_flash_loop_dry 0 chunks (S (Z.to_nat size)) offset size
              (probed (initial_world (map RdData chunks ++ rest) room dev rand) 0)
              rest)
    as (w' & evs & Hrun & Ht & Hf & Hs & Hfa & _ & _);
    try reflexivity; try assumption; try lia.
  assert (Hout : out = (Returned 0, snd (teardown w'))).
  { subst out. unfold run. rewrite main_body_write. unfold write_flash.
    unfold bind at 1. rewrite Hrun. reflexivity. }
  rewrite Hout. exec. rewrite Ht.
  unfold probed, initial_world.
  cbn [w_buf w_ibuf w_stdin w_room w_dev w_rand w_trace app].
  split; [reflexivity |].
  split.
  { exists ((cbw_events RKFT_CMD_TESTUNITREADY 0 0 0 (hd 0 rand)
             ++ [EvRecvCsw; EvUsleep (20 * 1000)])
            ++ evs
            ++ [EvInfo (MsgWritingFlash
                          (offset + RKFT_OFF_INCR * Z.of_nat (List.length chunks)))]).
    unfold premature_end. rewrite <- !app_assoc. cbn [app]. reflexivity. }
  rewrite !frames_app, !sent_app, !fatals_app.
  cbn [frames sent fatals cbw_events flat_map app].
  rewrite !app_nil_r. cbn [map app].
  rewrite Hf, Hs, Hfa.
  rewrite fields_cbw_frame by frame_ranges.
  split; [reflexivity |]. split; [reflexivity |].
  split; [| reflexivity].
  now apply overlays_length.
Qed.

End WriteLoopProperty.

(** ** C8: the boot-stage loaders *)

Section Loader.

Context {crc : RkCrc}.

Lemma control_targets_app (a b : list event) :
  control_targets (a ++ b) = control_targets a ++ control_targets b.
Proof. apply flat_map_app. Qed.

Lemma read_write_0 (b d : list Z) :
  (List.length d <= List.length b)%nat ->
  Buf.read (Buf.write b 0 d) 0 (List.length d) = d.
Proof.
  intros H. unfold Buf.read, Buf.write. cbn [firstn skipn app Nat.add].
  rewrite firstn_app, firstn_all, Nat.sub_diag. cbn [firstn]. apply app_nil_r.
Qed.

Lemma read_write_0_n (b d : list Z) (n : nat) :
  n = List.length d -> (List.length d <= List.length b)%nat ->
  Buf.read (Buf.write b 0 d) 0 n = d.
Proof. intros ->. apply read_write_0. Qed.

(** The last chunk with the two checksum bytes stored after it. *)
Lemma append_crc (b d : list Z) (hi lo : Z) :
  (List.length d + 2 <= List.length b)%nat ->
  let b1 := Buf.write b 0 d in
  let b2 := Buf.set b1 (List.length d) hi in
  let b3 := Buf.set b2 (List.length d + 1) lo in
  Buf.read b3 0 (List.length d + 2) = d ++ [hi; lo] /\
  List.length b3 = List.length b.
Proof.
  intros H. cbv zeta.
  assert (E1 : Buf.write b 0 d = d ++ skipn (List.length d) b) by reflexivity.
  destruct (skipn (List.length d) b) as [| x [| y rem]] eqn:Eskip;
    try (apply (f_equal (@List.length Z)) in Eskip;
         rewrite length_skipn in Eskip; cbn [List.length] in Eskip; lia).
  rewrite E1. unfold Buf.set.
  rewrite (write_split (d ++ x :: y :: rem) d [x] (y :: rem) [hi]);
    [| reflexivity | reflexivity | reflexivity].
  rewrite (write_split (d ++ [hi] ++ y :: rem) (d ++ [hi]) [y] rem [lo]);
    [| now rewrite <- app_assoc | rewrite length_app; reflexivity | reflexivity].
  split.
  - rewrite <- app_assoc. cbn [app].
    change (d ++ hi :: lo :: rem) with (d ++ [hi; lo] ++ rem).
    rewrite app_assoc. unfold Buf.read. cbn [skipn].
    replace (List.length d + 2)%nat with (List.length (d ++ [hi; lo]))
      by (rewrite length_app; reflexivity).
    rewrite firstn_app, firstn_all, Nat.sub_diag. cbn [firstn]. apply app_nil_r.
  - apply (f_equal (@List.length Z)) in Eskip.
    rewrite length_skipn in Eskip.
    rewrite !length_app in *. cbn [List.length] in *. lia.
Qed.

Lemma control_transfer_ok (request value index nr : Z) (w : world) :
  0 <= nr <= Buf.len (w_buf w) ->
  control_transfer request value index nr w =
  (Ok tt, mkWorld (w_buf w) (w_ibuf w) (w_stdin w) (w_room w) (w_dev w)
                  (w_rand w)
                  (w_trace w
                   ++ [EvControl request value index
                                 (Buf.read (w_buf w) 0 (Z.to_nat nr))])).
Proof.
  intros H. unfold control_transfer. exec.
  assert (Hin : Buf.inside (w_buf w) 0 nr = true)
    by (unfold Buf.inside; lia).
  now rewrite Hin.
Qed.

(** The loop on what is left of a file. *)
Lemma load_loop_file (index : Z) :
  forall (fuel : nat) (input : list Z) (crc16 : Z) (w : world),
    w_stdin w = file_stdin input \/ (input = [] /\ w_stdin w = []) ->
    (List.length input < fuel)%nat ->
    Buf.len (w_buf w) = RKFT_BLOCKSIZE ->
    exists (w' : world) (full : list (list Z)) (last : list Z),
      load_loop fuel index crc16 w = (Ok tt, w') /\
      input = List.concat full ++ last /\
      Forall (fun c => Buf.len c = 4096) full /\
      0 <= Buf.len last < 4096 /\
      let c := fold_left (fun c chunk => Int.u16 (rkcrc16 c chunk))
                         (full ++ [last]) crc16 in
      w_trace w' =
        w_trace w ++ map (EvControl 12 0 index) full
        ++ [EvControl 12 0 index
              (last ++ [Int.u8 (Z.shiftr c 8); Int.u8 (Z.land c 0xff)])].
Proof.
  induction fuel as [| fuel IH]; intros input crc16 w Hin Hfuel Hlen; [lia |].
  assert (Hb : List.length (w_buf w) = Z.to_nat RKFT_BLOCKSIZE)
    by (unfold Buf.len in Hlen; lia).
  cbn [load_loop]. unfold bind at 1.
  destruct (Z_lt_le_dec (Buf.len input) 4096) as [Hshort | Hlong].
  - (* the last chunk *)
    assert (Hread : exists s', sys_read 4096 (w_stdin w) = (Buf.len input, input, s')).
    { destruct Hin as [-> | [-> ->]].
      - exists []. apply sys_read_file. lia.
      - exists []. reflexivity. }
    destruct Hread as [s' Hread].
    rewrite (read_stdin_buf_eq _ _ _ _ _ _ Hread).
    destruct (Z.eqb_spec (Buf.len input) 4096) as [? | _]; [lia |].
    destruct (Z.eqb_spec (Buf.len input) (-1)) as [? | _];
      [unfold Buf.len in *; lia |].
    cbn [negb]. exec.
    replace (Z.to_nat (Buf.len input)) with (List.length input)
      by (unfold Buf.len; lia).
    replace (Z.to_nat (Buf.len input + 1)) with (List.length input + 1)%nat
      by (unfold Buf.len; lia).
    rewrite read_write_0 by (unfold Buf.len, RKFT_BLOCKSIZE in *; lia).
    set (c := Int.u16 (rkcrc16 crc16 input)).
    destruct (append_crc (w_buf w) input (Int.u8 (Z.shiftr c 8))
                (Int.u8 (Z.land c 0xff))) as [Hdata Hlen3];
      [unfold Buf.len, RKFT_BLOCKSIZE in *; lia |].
    cbv zeta in Hdata, Hlen3.
    rewrite control_transfer_ok
      by (cbn [w_buf]; unfold Buf.len in *; rewrite Hlen3;
          unfold RKFT_BLOCKSIZE in *; lia).
    cbn [w_buf w_trace].
    replace (Z.to_nat (Buf.len input + 2)) with (List.length input + 2)%nat
      by (unfold Buf.len; lia).
    rewrite Hdata.
    eexists. exists [], input.
    split; [reflexivity |]. split; [reflexivity |].
    split; [constructor |]. split; [unfold Buf.len in *; lia |].
    reflexivity.
  - (* a full chunk *)
    set (chunk := firstn 4096 input).
    set (rest := skipn 4096 input).
    assert (Hchunk : List.length chunk = 4096%nat)
      by (subst chunk; rewrite length_firstn; unfold Buf.len in *; lia).
    assert (Hread : exists s', sys_read 4096 (w_stdin w) = (4096, chunk, s')
              /\ (s' = file_stdin rest \/ (rest = [] /\ s' = []))).
    { destruct Hin as [-> | [-> _]]; [| cbn in Hlong; lia].
      unfold sys_read, file_stdin.
      destruct (Z.leb_spec (Buf.len input) 4096) as [Hle | Hgt].
      - assert (Heq : Buf.len input = 4096) by lia.
        exists []. split.
        + rewrite Heq. subst chunk. rewrite firstn_all2; [reflexivity |].
          unfold Buf.len in *. lia.
        + right. split; [| reflexivity]. subst rest. apply skipn_all2.
          unfold Buf.len in *. lia.
      - eexists. split; [reflexivity |]. left. reflexivity. }
    destruct Hread as (s' & Hread & Hs').
    rewrite (read_stdin_buf_eq _ _ _ _ _ _ Hread).
    change (4096 =? 4096) with true. cbv iota. exec.
    change (Z.to_nat 4096) with 4096%nat.
    rewrite (read_write_0_n _ chunk 4096)
      by (first [symmetry; exact Hchunk | unfold RKFT_BLOCKSIZE in *; lia]).
    assert (Hlen1 : Buf.len (Buf.write (w_buf w) 0 chunk) = RKFT_BLOCKSIZE).
    { unfold Buf.len in *. rewrite write_length; [assumption |].
      unfold RKFT_BLOCKSIZE in *. lia. }
    rewrite control_transfer_ok
      by (cbn [w_buf]; rewrite Hlen1; unfold RKFT_BLOCKSIZE; lia).
    cbn [w_buf w_trace].
    change (Z.to_nat 4096) with 4096%nat.
    rewrite (read_write_0_n _ chunk 4096)
      by (first [symmetry; exact Hchunk | unfold RKFT_BLOCKSIZE in *; lia]).
    match goal with
    | |- context [load_loop fuel index ?c1 ?w1] =>
        destruct (IH rest c1 w1) as (w' & full & last & Hrun & Hcat & Hfull & Hlast & Ht)
    end.
    + exact Hs'.
    + subst rest. rewrite length_skipn. unfold Buf.len in *. lia.
    + exact Hlen1.
    + cbv zeta in Ht. cbn [w_trace] in Ht.
      exists w', (chunk :: full), last.
      split; [exact Hrun |].
      split.
      { cbn [List.concat]. rewrite <- app_assoc, <- Hcat. subst chunk rest.
        symmetry. apply firstn_skipn. }
      split; [constructor; [unfold Buf.len; lia | assumption] |].
      split; [assumption |].
      cbv zeta. cbn [app fold_left map]. rewrite Ht, <- !app_assoc.
      reflexivity.
Qed.

End Loader.

Section LoaderProperty.

Context {crc : RkCrc}.

Lemma u16_bytes (v : Z) :
  let c := Int.u16 v in
  Int.u8 (Z.shiftr c 8) = Z.shiftr c 8 /\ Int.u8 (Z.land c 0xff) = Z.land c 0xff
  /\ 0 <= Z.shiftr c 8 < 256 /\ 0 <= Z.land c 0xff < 256 /\ 0 <= c < 2 ^ 16.
Proof.
  cbv zeta. assert (H : 0 <= Int.u16 v < 2 ^ 16) by (apply Z.mod_pos_bound; lia).
  assert (Hhi : 0 <= Z.shiftr (Int.u16 v) 8 < 256).
  { rewrite Z.shiftr_div_pow2 by lia. change (2 ^ 8) with 256.
    change (2 ^ 16) with 65536 in H. split.
    - apply Z.div_pos; lia.
    - apply Z.div_lt_upper_bound; lia. }
  pose proof (land_ff_range (Int.u16 v)) as Hlo.
  repeat split; try lia.
  - apply u8_small. change (2 ^ 8) with 256. lia.
  - apply u8_small. change (2 ^ 8) with 256. lia.
Qed.

Lemma fold_crc16_last (chunks : list (list Z)) (last : list Z) (c0 : Z) :
  exists v, fold_left (fun c chunk => Int.u16 (rkcrc16 c chunk))
                      (chunks ++ [last]) c0 = Int.u16 v.
Proof. rewrite fold_left_app. cbn [fold_left]. eexists. reflexivity. Qed.

Lemma concat_controls (full : list (list Z)) (tail : list Z) :
  List.concat (full ++ [tail]) = List.concat full ++ tail.
Proof. rewrite concat_app. cbn [List.concat]. now rewrite app_nil_r. Qed.

Lemma controls_map (index : Z) (full : list (list Z)) :
  controls (map (EvControl 12 0 index) full) = full /\
  control_targets (map (EvControl 12 0 index) full)
    = repeat (12, 0, index) (List.length full) /\
  frames (map (EvControl 12 0 index) full) = [] /\
  sent (map (EvControl 12 0 index) full) = [] /\
  requested (map (EvControl 12 0 index) full) = [].
Proof.
  induction full as [| c full (IH1 & IH2 & IH3 & IH4 & IH5)];
    [repeat split; reflexivity |].
  change (map (EvControl 12 0 index) (c :: full))
    with ([EvControl 12 0 index c] ++ map (EvControl 12 0 index) full).
  rewrite controls_app, control_targets_app, frames_app, sent_app,
    requested_app, IH1, IH2, IH3, IH4, IH5.
  repeat split; reflexivity.
Qed.

(** One loader from the command line, on a file. *)
Lemma loader_run (name : string) (m : message) (index : Z)
    (input : list Z) (room : option Z) (dev : list (list Z)) (rand : list Z) :
  (name = "l"%string /\ m = MsgLoadDDR /\ index = 1137) \/
  (name = "L"%string /\ m = MsgLoadUSB /\ index = 1138) ->
  let out := main [Buf.of_string name]
                  (initial_world (file_stdin input) room dev rand) in
  exists (full : list (list Z)) (last : list Z),
    input = List.concat full ++ last /\
    Forall (fun c => Buf.len c = 4096) full /\
    0 <= Buf.len last < 4096 /\
    let c := running_crc16 (full ++ [last]) in
    let hi := Z.shiftr c 8 in
    let lo := Z.land c 0xff in
    0 <= c < 2 ^ 16 /\ c = hi * 256 + lo /\
    fst out = Returned 0 /\
    controls (w_trace (snd out)) = full ++ [last ++ [hi; lo]] /\
    List.concat (controls (w_trace (snd out))) = input ++ [hi; lo] /\
    control_targets (w_trace (snd out))
      = repeat (12, 0, index) (S (List.length full)) /\
    frames (w_trace (snd out)) = [] /\
    sent (w_trace (snd out)) = [] /\
    requested (w_trace (snd out)) = [].
Proof.
  intros Hwhich out.
  assert (Hzeros : Buf.len (Buf.zeros (Z.to_nat RKFT_BLOCKSIZE)) = RKFT_BLOCKSIZE)
    by (rewrite len_zeros; reflexivity).
  destruct (load_loop_file index (stdin_fuel (file_stdin input)) input 0xffff
              (mkWorld (Buf.zeros (Z.to_nat RKFT_BLOCKSIZE))
                       (Buf.zeros (Z.to_nat RKFT_IDB_BLOCKSIZE))
                       (file_stdin input) room dev rand [EvInfo m]))
    as (w' & full & last & Hrun & Hcat & Hfull & Hlast & Ht);
    [left; reflexivity | cbn [stdin_fuel file_stdin]; lia | exact Hzeros |].
  cbv zeta in Ht. cbn [w_trace] in Ht.
  fold (running_crc16 (full ++ [last])) in Ht.
  assert (Hload : load_loader m index
                    (initial_world (file_stdin input) room dev rand)
                  = (Stop GotoExit, w')).
  { unfold load_loader, initial_world. exec. cbn [app]. rewrite Hrun.
    reflexivity. }
  assert (Hout : out = (Returned 0, snd (teardown w'))).
  { subst out.
    destruct Hwhich as [(-> & -> & ->) | (-> & -> & ->)].
    - rewrite (main_parsed _ (mkRequest (Buf.ch "l") None 0 0 0)) by reflexivity.
      unfold run, main_body. cbn [rq_action rq_flag].
      dispatch. rewrite (bind_stop _ _ _ _ _ Hload). reflexivity.
    - rewrite (main_parsed _ (mkRequest (Buf.ch "L") None 0 0 0)) by reflexivity.
      unfold run, main_body. cbn [rq_action rq_flag].
      dispatch. rewrite (bind_stop _ _ _ _ _ Hload). reflexivity. }
  exists full, last.
  destruct (fold_crc16_last full last 0xffff) as [v Hv].
  fold (running_crc16 (full ++ [last])) in Hv.
  destruct (u16_bytes v) as (Hhi & Hlo & Hhir & Hlor & Hc).
  cbv zeta in Hhi, Hlo, Hhir, Hlor, Hc. rewrite <- Hv in *.
  rewrite Hhi, Hlo in Ht.
  destruct (controls_map index full) as (C1 & C2 & C3 & C4 & C5).
  split; [exact Hcat |]. split; [exact Hfull |]. split; [exact Hlast |].
  cbv zeta. split; [exact Hc |].
  split.
  { rewrite Z.shiftr_div_pow2, land_ff by lia. change (2 ^ 8) with 256.
    pose proof (Z.div_mod (running_crc16 (full ++ [last])) 256). lia. }
  rewrite Hout. exec. rewrite Ht.
  rewrite !controls_app, !control_targets_app, !frames_app, !sent_app,
    !requested_app, C1, C2, C3, C4, C5.
  cbn [controls control_targets frames sent requested flat_map app].
  rewrite !app_nil_r.
  split; [reflexivity |]. split; [reflexivity |].
  split; [rewrite concat_controls, app_assoc, <- Hcat; reflexivity |].
  split; [| repeat split; reflexivity].
  change (S (List.length full)) with (1 + List.length full)%nat.
  rewrite Nat.add_comm, repeat_app. reflexivity.
Qed.

(** C8, as the code has it.  The loops of the loaders end at the first
    [read] that returns fewer than 4096 bytes, so what the spec says of
    them holds when every [read] but the last returns 4096 bytes, as on
    a file.  Both loaders (['l'] with index 1137, ['L'] with index 1138),
    on standard input redirected from a file: the input goes out in
    vendor control transfers (request 12, value 0) and in no command
    frame and no bulk transfer; every chunk but the last is exactly 4096
    bytes of input; the last chunk is the remaining fewer than 4096
    bytes followed by the two bytes of the running 16-bit checksum,
    high byte first, where the checksum runs from [0xffff] over every
    chunk of input in turn; so the bytes sent are the input followed by
    the two checksum bytes, and the process returns 0. *)
Theorem loader_streams_input (input : list Z) (room : option Z)
    (dev : list (list Z)) (rand : list Z) :
  forall (name : string) (index : Z),
    In (name, index) [("l"%string, 1137); ("L"%string, 1138)] ->
    let out := main [Buf.of_string name]
                    (initial_world (file_stdin input) room dev rand) in
    exists (full : list (list Z)) (last : list Z),
      input = List.concat full ++ last /\
      Forall (fun c => Buf.len c = 4096) full /\
      0 <= Buf.len last < 4096 /\
      let c := running_crc16 (full ++ [last]) in
      let hi := Z.shiftr c 8 in
      let lo := Z.land c 0xff in
      0 <= c < 2 ^ 16 /\ c = hi * 256 + lo /\
      fst out = Returned 0 /\
      controls (w_trace (snd out)) = full ++ [last ++ [hi; lo]] /\
      List.concat (controls (w_trace (snd out))) = input ++ [hi; lo] /\
      control_targets (w_trace (snd out))
        = repeat (12, 0, index) (S (List.length full)) /\
      frames (w_trace (snd out)) = [] /\
      sent (w_trace (snd out)) = [] /\
      requested (w_trace (snd out)) = [].
Proof.
  intros name index Hin.
  cbn [In] in Hin.
  destruct Hin as [H | [H | []]]; injection H as <- <-.
  - apply (loader_run "l" MsgLoadDDR 1137). left. repeat split.
  - apply (loader_run "L" MsgLoadUSB 1138). right. repeat split.
Qed.

End LoaderProperty.

(** ** C9: the ID block that is written *)

Section IdBlock.

Context {crc : RkCrc}.


Lemma read_as_skipn (b : list Z) (i n : nat) :
  (i + n = List.length b)%nat -> Buf.read b i n = skipn i b.
Proof.
  intros H. unfold Buf.read. apply firstn_all2. rewrite length_skipn. lia.
Qed.






End IdBlock.

(** ** The properties at concrete inputs *)

(** Closed comparisons of numbers, decided by evaluation. *)
Ltac by_computation :=
  vm_compute;
  repeat match goal with |- _ /\ _ => split end;
  first [reflexivity | let H := fresh in intros H; discriminate H].

Lemma cbw_frame_layout_witness :
  Frame.opcode (cbw_frame RKFT_CMD_READLBA 0x2000 32 0 7) = RKFT_CMD_READLBA /\
  Frame.offset (cbw_frame RKFT_CMD_READLBA 0x2000 32 0 7) = 0x2000 /\
  Frame.length (cbw_frame RKFT_CMD_READLBA 0x2000 32 0 7) = 32.
Proof.
  pose proof (cbw_frame_layout RKFT_CMD_READLBA 0x2000 32 0 7) as H.
  cbv zeta in H.
  destruct H as (_ & _ & _ & Hop & _ & Hoff & Hlen & _);
    try (unfold RKFT_CMD_READLBA; lia).
  exact (conj Hop (conj Hoff Hlen)).
Defined.



Lemma parameter_length_check_witness :
  In FatalBadParamLength
     (fatals (w_trace (snd (@main bit_crc [Buf.of_string "p"]
                              (initial_world [] None
                                 [param_block (MAX_PARAM_LENGTH + 1) EmptyString] []))))).
Proof.
  destruct (@parameter_length_check bit_crc [] None [] []
              (param_block (MAX_PARAM_LENGTH + 1) EmptyString))
    as (_ & _ & _ & _ & _ & H).
  - vm_compute. reflexivity.
  - vm_compute. reflexivity.
  - apply H. vm_compute. reflexivity.
Defined.

(** [MAX_PARAM_LENGTH] is not the transferred block less 12 bytes: a
    length field of 16373, one more than [RKFT_BLOCKSIZE - 12], is
    reported and passes the length check of case ['p']. *)
Lemma length_limit_exceeds_the_block :
  let length := RKFT_BLOCKSIZE - 12 + 1 in
  let r := @main bit_crc [Buf.of_string "p"]
             (initial_world [] None [param_block length EmptyString] []) in
  MAX_PARAM_LENGTH <> RKFT_BLOCKSIZE - 12 /\
  length <= MAX_PARAM_LENGTH /\
  In (EvInfo (MsgSize length)) (w_trace (snd r)) /\
  ~ In FatalBadParamLength (fatals (w_trace (snd r))).
Proof.
  cbv zeta. split; [discriminate |]. split; [discriminate |].
  split; vm_compute; [tauto | intros []].
Qed.

Lemma read_loop_windows_witness :
  let w := initial_world [] None [[1; 2; 3; 4]; [5; 6; 7; 8]; [9; 10]] [] in
  exists w' evs,
    @read_ram_loop 4 (S (Z.to_nat 10)) 0 0 10 w = (Ok tt, w') /\
    w_trace w' = evs /\
    requested evs = [4; 4; 2] /\
    written evs = [[1; 2; 3; 4]; [5; 6; 7; 8]; [9; 10]] /\
    dumps evs = map dump_of (frames evs).
Proof.
  cbv zeta.
  destruct (@read_loop_windows 0 0 10
              (initial_world [] None [[1; 2; 3; 4]; [5; 6; 7; 8]; [9; 10]] []))
    as [Hram _].
  - lia.
  - unfold RKFT_OFF_INCR. cbn. lia.
  - lia.
  - reflexivity.
  - vm_compute. reflexivity.
  - destruct (Hram 4)
      as (w' & evs & Hrun & Ht & _ & Hreq & _ & _ & Hexact & Hdu & _).
    + unfold RKFT_BLOCKSIZE. lia.
    + exists w', evs.
      split; [exact Hrun |]. split; [exact Ht |]. split; [exact Hreq |].
      split; [| exact Hdu].
      rewrite Hexact; vm_compute; reflexivity.
Defined.

(** The flash read loop on a count of 10: one window of 32 sectors and
    16384 bytes, where the rule of the spec has one window of 10. *)
Lemma flash_read_window_is_not_min :
  let out := @main bit_crc
               [Buf.of_string "r"; Buf.of_string "0"; Buf.of_string "10"]
               (initial_world [] None [] []) in
  map fields (frames (w_trace (snd out)))
    = [(RKFT_CMD_TESTUNITREADY, 0, 0, 0); (RKFT_CMD_READLBA, 0, 32, 0)] /\
  requested (w_trace (snd out)) = [16384] /\
  map Buf.len (written (w_trace (snd out))) = [16384] /\
  windows_of RKFT_OFF_INCR 0 10 = [(0, 10)].
Proof. cbv zeta. repeat apply conj; vm_compute; reflexivity. Qed.

Lemma parameter_round_trip_witness :
  let payload := Buf.of_string "CMDLINE:console=ttyS0" in
  written (w_trace (snd (@main bit_crc [Buf.of_string "p"]
                           (initial_world [] None
                              [@param_blob bit_crc payload] []))))
  = [payload] /\
  fst (@main bit_crc [Buf.of_string "p"]
         (initial_world [] None
            [@param_blob_with bit_crc payload
               (Buf.of_string "CMDLINE:console=ttyS1")] []))
  = Exited 1.
Proof.
  cbv zeta.
  destruct (@parameter_round_trip bit_crc
              (Buf.of_string "CMDLINE:console=ttyS0") None [] [] [] [] [])
    as (_ & _ & _ & _ & _ & _ & _ & Hw & _ & _ & _ & _ & Hflip).
  - by_computation.
  - split; [exact Hw |].
    cbv zeta in Hflip.
    destruct (Hflip bit_crc_detects (Buf.of_string "CMDLINE:console=ttyS")
                [] (Buf.ch "0") (Buf.ch "1")) as (Hexit & _).
    + reflexivity.
    + vm_compute. reflexivity.
    + by_computation.
    + by_computation.
    + exact Hexit.
Defined.

(** What case ['p'] puts on standard output is not the payload alone:
    the text that [send_cbw] prints for its two frames goes there too.
    And the empty payload does not come back: [write] of no bytes
    returns 0, which case ['p'] takes for a failure.  The bound of
    16372 is where the blob ends with the buffer: a payload of 16373
    bytes is within [MAX_PARAM_LENGTH], but its trailer at index
    8 + 16373 does not lie inside [buf]. *)
Lemma decode_output_is_not_the_payload :
  let payload := Buf.of_string "CMDLINE:console=ttyS0" in
  let dec := @main bit_crc [Buf.of_string "p"]
               (initial_world [] None [@param_blob bit_crc payload] []) in
  let none := @main bit_crc [Buf.of_string "p"]
                (initial_world [] None [@param_blob bit_crc []] []) in
  fst dec = Returned 0 /\
  written (w_trace (snd dec)) = [payload] /\
  printed (w_trace (snd dec)) =
    dump_text (0x80, 0x06, 0, 0) ++ dump_text (0x80, 0x0a, 0x14, 0) /\
  Buf.len (printed (w_trace (snd dec))) = 117 /\
  fst none = Exited 1 /\ fatals (w_trace (snd none)) = [FatalWriteError] /\
  16373 <= MAX_PARAM_LENGTH /\
  Buf.inside (w_buf (initial_world [] None [] [])) (8 + 16373) 4 = false.
Proof.
  cbv zeta. repeat apply conj; vm_compute; try reflexivity. discriminate.
Qed.

Lemma write_loop_input_exhausted_witness :
  fst (run (@main_body bit_crc (write_request 0 128))
         (initial_world (map RdData [[1]; [2]; [3]] ++ []) None [] []))
  = Returned 0.
Proof.
  destruct (@write_loop_input_exhausted bit_crc 0 128 [[1]; [2]; [3]] [] None [] [])
    as (H & _).
  - vm_compute. reflexivity.
  - by_computation.
  - unfold RKFT_OFF_INCR. cbn. lia.
  - lia.
  - lia.
  - lia.
  - exact H.
Defined.

(** An input of 100 bytes is less than a window, yet the frame and a
    full block are sent for it before the premature end is reported. *)
Lemma short_read_is_still_written :
  let out := @main bit_crc
               [Buf.of_string "w"; Buf.of_string "0"; Buf.of_string "64"]
               (initial_world (file_stdin (repeat 7 100)) None [] []) in
  let t := w_trace (snd out) in
  fst out = Returned 0 /\
  map fields (frames t)
    = [(RKFT_CMD_TESTUNITREADY, 0, 0, 0);
       (RKFT_CMD_WRITELBA, 0, RKFT_OFF_INCR, 0)] /\
  map Buf.len (sent t) = [RKFT_BLOCKSIZE] /\
  map (fun b => Buf.read b 0 100) (sent t) = [repeat 7 100] /\
  skipn (List.length t - 5) t = premature_end.
Proof. cbv zeta. repeat apply conj; vm_compute; reflexivity. Qed.


Lemma loader_streams_input_witness :
  fst (@main bit_crc [Buf.of_string "l"]
         (initial_world (file_stdin [1; 2; 3]) None [] []))
  = Returned 0.
Proof.
  destruct (@loader_streams_input bit_crc [1; 2; 3] None [] [] "l"%string 1137)
    as (full & last & _ & _ & _ & H).
  - left. reflexivity.
  - cbv zeta in H. destruct H as (_ & _ & H & _). exact H.
Defined.

(** Input that arrives in pieces, as on a pipe: the first [read]
    returns 3 bytes, so the upload ends with them and the checksum, and
    the 2 bytes that follow are never read.  And after a chunk of 4096
    bytes a failing [read] ends the upload with no checksum. *)
Lemma loader_stops_at_the_first_short_read :
  let piped := @main bit_crc [Buf.of_string "l"]
                 (initial_world [RdData [1; 2; 3]; RdData [4; 5]] None [] []) in
  let failed := @main bit_crc [Buf.of_string "L"]
                  (initial_world [RdData (repeat 7 4096); RdErr] None [] []) in
  fst piped = Returned 0 /\
  (exists hi lo, controls (w_trace (snd piped)) = [[1; 2; 3; hi; lo]]) /\
  w_stdin (snd piped) = [RdData [4; 5]] /\
  fst failed = Returned 0 /\
  controls (w_trace (snd failed)) = [repeat 7 4096] /\
  fatals (w_trace (snd failed)) = [].
Proof.
  cbv zeta. split; [vm_compute; reflexivity |].
  split; [do 2 eexists; vm_compute; reflexivity |].
  repeat apply conj; vm_compute; reflexivity.
Qed.


Lemma crc_trailer_outside_buffer_witness :
  let r := @main bit_crc [Buf.of_string "p"]
             (initial_world [] None [param_block 16373 EmptyString] []) in
  fst r = Crashed Undefined /\
  In (EvInfo (MsgSize 16373)) (w_trace (snd r)).
Proof.
  destruct (@crc_trailer_outside_buffer bit_crc [] None [] []
              (param_block 16373 EmptyString))
    as (_ & _ & _ & _ & H & _).
  - vm_compute. reflexivity.
  - vm_compute. reflexivity.
  - by_computation.
  - destruct H as [H1 H2]; [vm_compute; reflexivity |].
    cbv zeta. split; [exact H1 |]. rewrite H2. vm_compute. tauto.
Defined.
(* ================================================================== *)
(** * Part III: properties of every run *)
(* ================================================================== *)

(** ** Exchanges: a command, at most one data transfer, a status *)

Lemma phases_app (p : phase) (a b : list event) :
  phases p (a ++ b) =
  match phases p a with Some q => phases q b | None => None end.
Proof.
  revert p. induction a as [| e a IH]; intros p; cbn [app phases].
  - reflexivity.
  - destruct (phase_step p e); [apply IH | reflexivity].
Qed.

Lemma phases_teardown (p q : phase) (evs : list event) :
  phases p evs = Some q ->
  filter is_teardown evs = [] /\ filter is_fatal evs = [].
Proof.
  revert p. induction evs as [| e evs IH]; intros p H; [split; reflexivity |].
  cbn [phases] in H.
  destruct (phase_step p e) as [p' |] eqn:E; [| discriminate].
  destruct (IH _ H) as [Ht Hf].
  destruct e, p; cbn [phase_step] in E; try discriminate;
    cbn [filter is_teardown is_fatal]; split; assumption.
Qed.

Section Obeys.

Context {crc : RkCrc}.

Lemma obeys_ret {A : Type} (p : phase) (a : A) : obeys p (ret a) p.
Proof. intros w. exists []. cbn. rewrite app_nil_r. split; reflexivity. Qed.

Lemma obeys_bind {A B : Type} (p q r : phase) (m : M A) (k : A -> M B) :
  obeys p m q -> (forall a, obeys q (k a) r) -> obeys p (bind m k) r.
Proof.
  intros Hm Hk w. unfold bind.
  destruct (Hm w) as (e1 & Ht1 & He1).
  destruct (m w) as [[a | s] w1]; cbn [fst snd] in *.
  - destruct (Hk a w1) as (e2 & Ht2 & He2).
    exists (e1 ++ e2). rewrite Ht2, Ht1, app_assoc. split; [reflexivity |].
    destruct (fst (k a w1)) as [b | []]; cbn [ends] in *;
      rewrite ?phases_app, ?He1; try assumption.
    destruct He2 as (pre & f & -> & Hpre).
    exists (e1 ++ pre), f. rewrite app_assoc, phases_app, He1. now split.
  - exists e1. split; [assumption |]. destruct s; cbn [ends] in *; assumption.
Qed.

Lemma obeys_emit (p q : phase) (e : event) :
  phase_step p e = Some q -> obeys p (emit e) q.
Proof.
  intros H w. exists [e]. cbn. split; [reflexivity |]. now rewrite H.
Qed.

Lemma obeys_silent {A : Type} (p : phase) (m : M A) :
  (forall w, exists a, fst (m w) = Ok a /\ w_trace (snd (m w)) = w_trace w) ->
  obeys p m p.
Proof.
  intros H w. destruct (H w) as (a & Hr & Ht). exists [].
  rewrite Ht, Hr, app_nil_r. split; reflexivity.
Qed.

Lemma obeys_undefined {A : Type} (p q : phase) : obeys p (@halt A Undefined) q.
Proof. intros w. exists []. cbn. rewrite app_nil_r. split; [reflexivity | exact I]. Qed.

Lemma obeys_goto_exit {A : Type} (q : phase) : obeys Idle (@goto_exit A) q.
Proof. intros w. exists []. cbn. rewrite app_nil_r. split; reflexivity. Qed.

Lemma obeys_fatal {A : Type} (q : phase) (m : fatal_message) :
  obeys Idle (@fatal A m) q.
Proof.
  intros w. exists [EvFatal m]. cbn. split; [reflexivity |].
  exists [], m. split; reflexivity.
Qed.

Lemma obeys_info (m : message) : obeys Idle (info m) Idle.
Proof. now apply obeys_emit. Qed.

Lemma obeys_get_buf (p : phase) : obeys p get_buf p.
Proof. apply obeys_silent. intros w. now exists (w_buf w). Qed.

Lemma obeys_get_ibuf (p : phase) : obeys p get_ibuf p.
Proof. apply obeys_silent. intros w. now exists (w_ibuf w). Qed.

Lemma obeys_set_buf (p : phase) (b : list Z) : obeys p (set_buf b) p.
Proof. apply obeys_silent. intros w. now exists tt. Qed.

Lemma obeys_set_ibuf (p : phase) (b : list Z) : obeys p (set_ibuf b) p.
Proof. apply obeys_silent. intros w. now exists tt. Qed.

Lemma obeys_read_stdin_buf (p : phase) (i : nat) (n : Z) :
  obeys p (read_stdin_buf i n) p.
Proof.
  apply obeys_silent. intros w. unfold read_stdin_buf.
  destruct (sys_read n (w_stdin w)) as [[k d] s']. now exists k.
Qed.

Lemma obeys_read_stdin_ibuf (p : phase) (n : Z) :
  obeys p (read_stdin_ibuf n) p.
Proof.
  apply obeys_silent. intros w. unfold read_stdin_ibuf.
  destruct (sys_read n (w_stdin w)) as [[k d] s']. now exists k.
Qed.

Lemma obeys_send_cbw (c o n f : Z) : obeys Idle (send_cbw c o n f) Commanded.
Proof.
  intros w. eexists [_; _]. unfold send_cbw. exec.
  rewrite <- app_assoc. split; reflexivity.
Qed.

Lemma obeys_send_exec (k p : Z) : obeys Idle (send_exec k p) Commanded.
Proof. intros w. eexists [_]. unfold send_exec. exec. split; reflexivity. Qed.

Lemma obeys_send_buf (n : Z) : obeys Commanded (send_buf n) Transferred.
Proof.
  intros w. unfold send_buf. exec.
  destruct (Buf.inside (w_buf w) 0 n); exec.
  - eexists [_]. split; reflexivity.
  - exists []. rewrite app_nil_r. split; [reflexivity | exact I].
Qed.

Lemma obeys_recv_buf (n : Z) : obeys Commanded (recv_buf n) Transferred.
Proof.
  intros w. unfold recv_buf. exec.
  exists [EvRecvBuf n].
  destruct (_ <=? _); cbn [fst snd w_trace];
    (split; [reflexivity | first [reflexivity | exact I]]).
Qed.

Lemma obeys_recv_csw_after_command : obeys Commanded recv_csw Idle.
Proof. now apply obeys_emit. Qed.

Lemma obeys_recv_csw : obeys Transferred recv_csw Idle.
Proof. now apply obeys_emit. Qed.

Lemma obeys_control_transfer (rq v i n : Z) :
  obeys Idle (control_transfer rq v i n) Idle.
Proof.
  intros w. unfold control_transfer. exec.
  destruct (Buf.inside (w_buf w) 0 n); exec.
  - eexists [_]. split; reflexivity.
  - exists []. rewrite app_nil_r. split; [reflexivity | exact I].
Qed.

Lemma obeys_write_stdout (i n : Z) : obeys Idle (write_stdout i n) Idle.
Proof.
  intros w. unfold write_stdout. exec.
  destruct (negb (Buf.inside (w_buf w) i n)); exec.
  - exists []. rewrite app_nil_r. split; [reflexivity | exact I].
  - destruct (w_room w) as [room |]; exec.
    + destruct ((0 <? n) && (room <=? 0)); cbn [fst snd w_trace].
      * exists []. rewrite app_nil_r. split; reflexivity.
      * eexists [_]. split; reflexivity.
    + eexists [_]. split; reflexivity.
Qed.

End Obeys.
Lemma s32_le (x : Z) : - 2 ^ 31 <= x -> Int.s32 x <= x.
Proof.
  intros H. unfold Int.s32.
  destruct (Z.ltb_spec (x mod 2 ^ 32) (2 ^ 31)) as [Hlt | Hge].
  - destruct (Z.lt_ge_cases x (2 ^ 32)) as [Hx | Hx].
    + destruct (Z.lt_ge_cases x 0) as [Hneg | Hpos].
      * replace x with (x + 2 ^ 32 + (-1) * 2 ^ 32) in Hlt by lia.
        rewrite Z.mod_add, Z.mod_small in Hlt by lia. lia.
      * rewrite Z.mod_small by lia. lia.
    + pose proof (Z.mod_pos_bound x (2 ^ 32) ltac:(lia)). lia.
  - destruct (Z.lt_ge_cases x (2 ^ 32)) as [Hx | Hx].
    + destruct (Z.lt_ge_cases x 0) as [Hneg | Hpos].
      * replace x with (x + 2 ^ 32 + (-1) * 2 ^ 32) by lia.
        rewrite Z.mod_add, Z.mod_small by lia. lia.
      * rewrite Z.mod_small by lia. lia.
    + pose proof (Z.mod_pos_bound x (2 ^ 32) ltac:(lia)). lia.
Qed.

(** The count of a loop gets smaller with every window, so the fuel of
    the embedding lasts. *)
Lemma fuel_lasts (size d : Z) (fuel : nat) :
  0 < size -> 0 < d <= 2 ^ 31 -> (Z.to_nat size < S fuel)%nat ->
  (Z.to_nat (Int.s32 (size - d)) < fuel)%nat.
Proof.
  intros Hs Hd Hf.
  pose proof (s32_le (size - d) ltac:(lia)). lia.
Qed.

Lemma sys_read_le (count : Z) (s : list read_result) :
  0 <= count -> fst (fst (sys_read count s)) <= count.
Proof.
  intros H. unfold sys_read.
  destruct s as [| [| d] s']; cbn [fst]; try lia.
  destruct (Z.leb_spec (Buf.len d) count); cbn [fst]; lia.
Qed.

Lemma stdin_fuel_pos (s : list read_result) : (1 <= stdin_fuel s)%nat.
Proof. destruct s as [| [| d] s']; cbn [stdin_fuel]; lia. Qed.

(** A [read] that returned a full count has taken input away. *)
Lemma sys_read_consumes (count : Z) (s : list read_result) :
  0 < count -> fst (fst (sys_read count s)) = count ->
  (stdin_fuel (snd (sys_read count s)) < stdin_fuel s)%nat.
Proof.
  intros Hc. unfold sys_read.
  destruct s as [| [| d] s']; cbn [fst snd stdin_fuel]; try lia.
  destruct (Z.leb_spec (Buf.len d) count) as [Hle | Hgt];
    cbn [fst snd stdin_fuel]; [lia |].
  intros _. rewrite length_skipn. unfold Buf.len in Hgt. lia.
Qed.

Ltac obey_step :=
  lazymatch goal with
  | |- obeys _ (ret _) _ => apply obeys_ret
  | |- obeys _ (info _) _ => apply obeys_info
  | |- obeys _ (fatal _) _ => apply obeys_fatal
  | |- obeys _ goto_exit _ => apply obeys_goto_exit
  | |- obeys _ (halt Undefined) _ => apply obeys_undefined
  | |- obeys _ get_buf _ => apply obeys_get_buf
  | |- obeys _ get_ibuf _ => apply obeys_get_ibuf
  | |- obeys _ (set_buf _) _ => apply obeys_set_buf
  | |- obeys _ (set_ibuf _) _ => apply obeys_set_ibuf
  | |- obeys _ (read_stdin_buf _ _) _ => apply obeys_read_stdin_buf
  | |- obeys _ (read_stdin_ibuf _) _ => apply obeys_read_stdin_ibuf
  | |- obeys _ (send_cbw _ _ _ _) _ => apply obeys_send_cbw
  | |- obeys _ (send_exec _ _) _ => apply obeys_send_exec
  | |- obeys _ (send_buf _) _ => apply obeys_send_buf
  | |- obeys _ (recv_buf _) _ => apply obeys_recv_buf
  | |- obeys Commanded recv_csw _ => apply obeys_recv_csw_after_command
  | |- obeys Transferred recv_csw _ => apply obeys_recv_csw
  | |- obeys _ (control_transfer _ _ _ _) _ => apply obeys_control_transfer
  | |- obeys _ (write_stdout _ _) _ => apply obeys_write_stdout
  | |- obeys _ (emit _) _ => apply obeys_emit; reflexivity
  | |- obeys _ (bind _ _) _ => eapply obeys_bind; [| intros ?]
  | |- obeys _ (if ?c then _ else _) _ => destruct c eqn:?
  | |- obeys _ (match ?c with Some _ => _ | None => _ end) _ =>
      destruct c eqn:?
  end.

Ltac obey := cbv zeta; repeat obey_step.

Section ObeysProgram.

Context {crc : RkCrc}.

(** A result of the first computation that the second may rely on. *)
Lemma obeys_bind_with {A B : Type} (R : A -> Prop) (p q r : phase)
    (m : M A) (k : A -> M B) :
  obeys p m q -> (forall w a, fst (m w) = Ok a -> R a) ->
  (forall a, R a -> obeys q (k a) r) -> obeys p (bind m k) r.
Proof.
  intros Hm HR Hk w. unfold bind.
  destruct (Hm w) as (e1 & Ht1 & He1). pose proof (HR w) as HRw.
  destruct (m w) as [[a | s] w1]; cbn [fst snd] in *.
  - destruct (Hk a (HRw a eq_refl) w1) as (e2 & Ht2 & He2).
    exists (e1 ++ e2). rewrite Ht2, Ht1, app_assoc. split; [reflexivity |].
    destruct (fst (k a w1)) as [b | []]; cbn [ends] in *;
      rewrite ?phases_app, ?He1; try assumption.
    destruct He2 as (pre & f & -> & Hpre).
    exists (e1 ++ pre), f. rewrite app_assoc, phases_app, He1. now split.
  - exists e1. split; [assumption |]. destruct s; cbn [ends] in *; assumption.
Qed.

Lemma read_stdin_buf_le (i : nat) (count : Z) (w : world) (n : Z) :
  0 <= count -> fst (read_stdin_buf i count w) = Ok n -> n <= count.
Proof.
  intros Hc. unfold read_stdin_buf.
  pose proof (sys_read_le count (w_stdin w) Hc) as H.
  destruct (sys_read count (w_stdin w)) as [[k d] s']. cbn [fst] in *.
  intros E. injection E as <-. exact H.
Qed.

Lemma obeys_resolve_partition (partname : list Z) (flag : Z) :
  obeys Idle (resolve_partition partname flag) Idle.
Proof. unfold resolve_partition. obey. Qed.

Lemma obeys_reboot_device (flag : Z) : obeys Idle (reboot_device flag) Idle.
Proof. unfold reboot_device. obey. Qed.

Lemma obeys_read_flash_loop (fuel : nat) (flag offset size : Z) :
  (Z.to_nat size < fuel)%nat ->
  obeys Idle (read_flash_loop fuel flag offset size) Idle.
Proof.
  revert offset size. induction fuel as [| fuel IH]; intros offset size Hf; [lia |].
  cbn [read_flash_loop].
  destruct (Z.gtb_spec size 0) as [Hs | Hs]; [| apply obeys_ret].
  obey. apply IH. apply fuel_lasts; [lia | unfold RKFT_OFF_INCR; cbn; lia | lia].
Qed.

Lemma obeys_read_flash (flag offset size : Z) :
  obeys Idle (read_flash flag offset size) Idle.
Proof.
  unfold read_flash. eapply obeys_bind; [apply obeys_read_flash_loop; lia |].
  intros _. apply obeys_info.
Qed.

Lemma obeys_write_flash_loop (fuel : nat) (flag offset size : Z) :
  (Z.to_nat size < fuel)%nat ->
  obeys Idle (write_flash_loop fuel flag offset size) Idle.
Proof.
  revert offset size. induction fuel as [| fuel IH]; intros offset size Hf; [lia |].
  cbn [write_flash_loop].
  destruct (Z.gtb_spec size 0) as [Hs | Hs]; [| apply obeys_ret].
  obey. apply IH. apply fuel_lasts; [lia | unfold RKFT_OFF_INCR; cbn; lia | lia].
Qed.

Lemma obeys_write_flash (flag offset size : Z) :
  obeys Idle (write_flash flag offset size) Idle.
Proof.
  unfold write_flash. eapply obeys_bind; [apply obeys_write_flash_loop; lia |].
  intros _. apply obeys_info.
Qed.

Lemma obeys_read_parameters (flag offset : Z) :
  obeys Idle (read_parameters flag offset) Idle.
Proof. unfold read_parameters. obey. Qed.

Lemma obeys_write_parameters_loop (fuel : nat) (flag offset : Z) :
  (Z.to_nat (0x2000 + 0x3ff - offset) / 0x400 < fuel)%nat ->
  obeys Idle (write_parameters_loop fuel flag offset) Idle.
Proof.
  revert offset. induction fuel as [| fuel IH]; intros offset Hf; [lia |].
  cbn [write_parameters_loop].
  destruct (Z.ltb_spec offset 0x2000) as [Hs | Hs]; [| apply obeys_ret].
  obey. apply IH.
  replace (Z.to_nat (0x2000 + 0x3ff - offset))
    with (Z.to_nat (0x2000 + 0x3ff - (offset + 0x400)) + 1 * 0x400)%nat in Hf by lia.
  rewrite Nat.div_add in Hf by lia. lia.
Qed.

Lemma obeys_write_parameters (flag : Z) :
  obeys Idle (write_parameters flag) Idle.
Proof.
  unfold write_parameters. obey.
  apply obeys_write_parameters_loop. vm_compute. lia.
Qed.

Lemma obeys_read_ram_loop (incr : Z) (fuel : nat) (flag offset size : Z) :
  0 < incr <= 2 ^ 31 -> (Z.to_nat size < fuel)%nat ->
  obeys Idle (read_ram_loop incr fuel flag offset size) Idle.
Proof.
  intros Hi. revert offset size.
  induction fuel as [| fuel IH]; intros offset size Hf; [lia |].
  cbn [read_ram_loop].
  destruct (Z.gtb_spec size 0) as [Hs | Hs]; [| apply obeys_ret].
  cbv zeta. destruct (Z.gtb_spec size incr);
    obey; apply IH; apply fuel_lasts; lia.
Qed.

Lemma obeys_read_ram (flag offset size : Z) :
  obeys Idle (read_ram flag offset size) Idle.
Proof.
  unfold read_ram. eapply obeys_bind;
    [apply obeys_read_ram_loop; [unfold RKFT_BLOCKSIZE |]; lia |].
  intros _. apply obeys_info.
Qed.

Lemma obeys_write_ram_loop (fuel : nat) (flag offset size : Z) :
  (Z.to_nat size < fuel)%nat ->
  obeys Idle (write_ram_loop fuel flag offset size) Idle.
Proof.
  revert offset size. induction fuel as [| fuel IH]; intros offset size Hf; [lia |].
  cbn [write_ram_loop].
  destruct (Z.gtb_spec size 0) as [Hs | Hs]; [| apply obeys_ret].
  apply (obeys_bind_with (fun n => n <= RKFT_BLOCKSIZE) _ Idle).
  - apply obeys_read_stdin_buf.
  - intros w n. apply read_stdin_buf_le. unfold RKFT_BLOCKSIZE. lia.
  - intros n Hn. destruct (Z.leb_spec n 0) as [Hz | Hz]; obey.
    apply IH. apply fuel_lasts; [lia | unfold RKFT_BLOCKSIZE in Hn; lia | lia].
Qed.

Lemma obeys_write_ram (flag offset size : Z) :
  obeys Idle (write_ram flag offset size) Idle.
Proof.
  unfold write_ram. eapply obeys_bind; [apply obeys_write_ram_loop; lia |].
  intros _. apply obeys_info.
Qed.

Lemma obeys_exec_ram (offset size : Z) : obeys Idle (exec_ram offset size) Idle.
Proof. unfold exec_ram. obey. Qed.

Lemma obeys_read_idb_loop (fuel : nat) (flag offset size : Z) :
  (Z.to_nat size < fuel)%nat ->
  obeys Idle (read_idb_loop fuel flag offset size) Idle.
Proof.
  revert offset size. induction fuel as [| fuel IH]; intros offset size Hf; [lia |].
  cbn [read_idb_loop].
  destruct (Z.gtb_spec size 0) as [Hs | Hs]; [| apply obeys_ret].
  cbv zeta. destruct (Z.gtb_spec size RKFT_IDB_INCR);
    obey; apply IH; apply fuel_lasts; unfold RKFT_IDB_INCR in *; lia.
Qed.

Lemma obeys_read_idb (flag offset size : Z) :
  obeys Idle (read_idb flag offset size) Idle.
Proof.
  unfold read_idb. eapply obeys_bind; [apply obeys_read_idb_loop; lia |].
  intros _. apply obeys_info.
Qed.

Lemma obeys_write_idb_block (flag offset : Z) :
  obeys Idle (write_idb_block flag offset) Idle.
Proof. unfold write_idb_block. obey. Qed.

Lemma obeys_write_idb_loop (fuel : nat) (flag offset size : Z) :
  (Z.to_nat size < fuel)%nat ->
  obeys Idle (write_idb_loop fuel flag offset size) Idle.
Proof.
  revert offset size. induction fuel as [| fuel IH]; intros offset size Hf; [lia |].
  cbn [write_idb_loop].
  destruct (Z.gtb_spec size 0) as [Hs | Hs]; [| apply obeys_ret].
  eapply obeys_bind; [apply obeys_write_idb_block |].
  intros [|]; obey. apply IH. apply fuel_lasts; lia.
Qed.

Lemma obeys_write_idb (flag offset size : Z) :
  obeys Idle (write_idb flag offset size) Idle.
Proof.
  unfold write_idb. eapply obeys_bind; [apply obeys_write_idb_loop; lia |].
  intros _. apply obeys_info.
Qed.

Lemma obeys_erase_flash_loop (fuel : nat) (flag offset size : Z) :
  (Z.to_nat size < fuel)%nat ->
  obeys Idle (erase_flash_loop fuel flag offset size) Idle.
Proof.
  revert offset size. induction fuel as [| fuel IH]; intros offset size Hf; [lia |].
  cbn [erase_flash_loop].
  destruct (Z.gtb_spec size 0) as [Hs | Hs]; [| apply obeys_ret].
  obey. apply IH. apply fuel_lasts; [lia | unfold RKFT_OFF_INCR; cbn; lia | lia].
Qed.

Lemma obeys_erase_flash (flag offset size : Z) :
  obeys Idle (erase_flash flag offset size) Idle.
Proof.
  unfold erase_flash. obey. apply obeys_erase_flash_loop. lia.
Qed.

Lemma obeys_read_chip_version (flag : Z) :
  obeys Idle (read_chip_version flag) Idle.
Proof. unfold read_chip_version. obey. Qed.

Lemma obeys_read_nand_info (flag : Z) : obeys Idle (read_nand_info flag) Idle.
Proof. unfold read_nand_info. obey. Qed.

Lemma obeys_do_action (action flag offset size : Z) :
  obeys Idle (do_action action flag offset size) Idle.
Proof.
  unfold do_action. cbv zeta.
  repeat match goal with
         | |- obeys _ (if ?c then _ else _) _ => destruct c
         end;
    lazymatch goal with
    | |- obeys _ (reboot_device _) _ => apply obeys_reboot_device
    | |- obeys _ (read_flash _ _ _) _ => apply obeys_read_flash
    | |- obeys _ (write_flash _ _ _) _ => apply obeys_write_flash
    | |- obeys _ (read_parameters _ _) _ => apply obeys_read_parameters
    | |- obeys _ (write_parameters _) _ => apply obeys_write_parameters
    | |- obeys _ (read_ram _ _ _) _ => apply obeys_read_ram
    | |- obeys _ (write_ram _ _ _) _ => apply obeys_write_ram
    | |- obeys _ (exec_ram _ _) _ => apply obeys_exec_ram
    | |- obeys _ (read_idb _ _ _) _ => apply obeys_read_idb
    | |- obeys _ (write_idb _ _ _) _ => apply obeys_write_idb
    | |- obeys _ (erase_flash _ _ _) _ => apply obeys_erase_flash
    | |- obeys _ (read_chip_version _) _ => apply obeys_read_chip_version
    | |- obeys _ (read_nand_info _) _ => apply obeys_read_nand_info
    | |- obeys _ (ret _) _ => apply obeys_ret
    end.
Qed.

End ObeysProgram.
Section ObeysMain.

Context {crc : RkCrc}.

Lemma load_loop_ends (fuel : nat) (index c : Z) (w : world) :
  (stdin_fuel (w_stdin w) <= fuel)%nat ->
  exists evs,
    w_trace (snd (load_loop fuel index c w)) = w_trace w ++ evs /\
    ends Idle Idle (fst (load_loop fuel index c w)) evs.
Proof.
  revert c w. induction fuel as [| fuel IH]; intros c w Hf.
  { pose proof (stdin_fuel_pos (w_stdin w)). lia. }
  cbn [load_loop]. unfold read_stdin_buf, control_transfer. exec.
  pose proof (sys_read_consumes 4096 (w_stdin w) ltac:(lia)) as Hless.
  destruct (sys_read 4096 (w_stdin w)) as [[n d] s']. cbn [fst snd] in Hless.
  exec.
  destruct (Z.eqb_spec n 4096) as [-> | Hn]; exec.
  - destruct (Buf.inside _ 0 4096); exec.
    + match goal with
      | |- context [load_loop fuel index ?c' ?w'] =>
          destruct (IH c' w') as (evs & Ht & He);
            [cbn [w_stdin]; specialize (Hless eq_refl); lia |];
            cbn [w_trace] in Ht; rewrite Ht
      end.
      eexists (_ :: evs). rewrite <- app_assoc. split; [reflexivity |].
      destruct (fst _) as [[] | []]; cbn [ends phases phase_step] in *;
        try assumption.
      destruct He as (pre & m & -> & Hpre).
      eexists (_ :: pre), m. split; [reflexivity | exact Hpre].
    + exists []. rewrite app_nil_r. split; [reflexivity | exact I].
  - destruct (negb (n =? -1)); exec.
    + destruct (Buf.inside _ 0 (n + 2)); exec.
      * eexists [_]. split; reflexivity.
      * exists []. rewrite app_nil_r. split; [reflexivity | exact I].
    + exists []. rewrite app_nil_r. split; reflexivity.
Qed.

Lemma obeys_load_loader (m : message) (index : Z) (q : phase) :
  obeys Idle (load_loader m index) q.
Proof.
  intros w. unfold load_loader. exec.
  match goal with
  | |- context [load_loop ?f index ?c ?w'] =>
      destruct (load_loop_ends f index c w') as (evs & Ht & He);
        [cbn [w_stdin]; lia |];
        cbn [w_trace] in Ht;
        destruct (load_loop f index c w') as [[[] | s] w1]
  end; cbn [fst snd] in *; rewrite Ht; exists (EvInfo m :: evs);
    rewrite <- app_assoc; (split; [reflexivity |]).
  - cbn [ends phases phase_step]. exact He.
  - destruct s; cbn [ends phases phase_step] in *; try assumption.
    destruct He as (pre & f & -> & Hpre).
    exists (EvInfo m :: pre), f. split; [reflexivity | exact Hpre].
Qed.

Lemma obeys_main_body (rq : request) : obeys Idle (main_body rq) Idle.
Proof.
  unfold main_body. cbv zeta.
  eapply obeys_bind.
  { destruct (rq_action rq =? Buf.ch "l"); [apply obeys_load_loader |].
    destruct (rq_action rq =? Buf.ch "L"); [apply obeys_load_loader |].
    apply obeys_ret. }
  intros _. obey.
  - apply obeys_resolve_partition.
  - apply obeys_do_action.
Qed.

(** How every run of [main] ends, and what its events are. *)
Lemma main_ends (args : list (list Z)) (w : world) :
  exists body,
    phases Idle body = Some Idle /\
    match fst (main args w) with
    | Returned code =>
        code = 0 /\
        w_trace (snd (main args w))
        = w_trace w ++ body ++ [EvRelease; EvClose; EvLibusbExit]
    | Exited code =>
        code = 1 /\
        exists m, w_trace (snd (main args w)) = w_trace w ++ body ++ [EvFatal m]
    | Crashed s =>
        s = Undefined
    end.
Proof.
  assert (Hrun : forall body : M unit, obeys Idle body Idle ->
    exists evs,
      phases Idle evs = Some Idle /\
      match fst (run body w) with
      | Returned code =>
          code = 0 /\
          w_trace (snd (run body w))
          = w_trace w ++ evs ++ [EvRelease; EvClose; EvLibusbExit]
      | Exited code =>
          code = 1 /\
          exists m, w_trace (snd (run body w)) = w_trace w ++ evs ++ [EvFatal m]
      | Crashed s => s = Undefined
      end).
  { intros body Hb. destruct (Hb w) as (evs & Ht & He). unfold run.
    destruct (body w) as [[[] | s] w1]; cbn [fst snd ends] in *.
    - exists evs. split; [assumption |]. split; [reflexivity |].
      exec. rewrite Ht, <- !app_assoc. reflexivity.
    - destruct s; cbn [fst snd] in *.
      + exists evs. split; [assumption |]. split; [reflexivity |].
        exec. rewrite Ht, <- !app_assoc. reflexivity.
      + destruct He as (pre & m & -> & Hpre).
        exists pre. split; [assumption |]. split; [reflexivity |].
        exists m. exact Ht.
      + exists []. split; reflexivity.
      + contradiction. }
  unfold main. destruct (parse_args args) as [rq |].
  - apply Hrun, obeys_main_body.
  - apply Hrun, obeys_fatal.
Qed.

End ObeysMain.
(** ** The command catalog *)

(** The frame of [send_exec] written out. *)
Lemma exec_frame_bytes (krnl_addr parm_addr r : Z) :
  0 <= krnl_addr < 2 ^ 32 -> 0 <= parm_addr < 2 ^ 32 ->
  exec_frame krnl_addr parm_addr r =
  [85; 83; 66; 67;
   Z.land (Z.shiftr r 24) 0xff; Z.land (Z.shiftr r 16) 0xff;
   Z.land (Z.shiftr r 8) 0xff; Z.land r 0xff;
   0; 0; 0; 0;
   0; 0; 0x0a; 0x19;
   0;
   Z.land (Z.shiftr krnl_addr 24) 0xff; Z.land (Z.shiftr krnl_addr 16) 0xff;
   Z.land (Z.shiftr krnl_addr 8) 0xff; Z.land krnl_addr 0xff;
   0;
   Z.land (Z.shiftr parm_addr 24) 0xff; Z.land (Z.shiftr parm_addr 16) 0xff;
   Z.land (Z.shiftr parm_addr 8) 0xff; Z.land parm_addr 0xff;
   0; 0; 0; 0; 0].
Proof.
  intros Hk Hp. unfold exec_frame.
  rewrite (u32_small krnl_addr), (u32_small parm_addr) by assumption.
  destruct (Z.eqb_spec r 0) as [-> | _];
  destruct (Z.eqb_spec krnl_addr 0) as [-> | _];
  destruct (Z.eqb_spec parm_addr 0) as [-> | _];
  reflexivity.
Qed.

Lemma exec_frame_truncates (krnl_addr parm_addr r : Z) :
  exec_frame krnl_addr parm_addr r
  = exec_frame (Int.u32 krnl_addr) (Int.u32 parm_addr) r.
Proof.
  unfold exec_frame, Int.u32. now rewrite !Z.mod_mod by lia.
Qed.

Lemma land_ff_byte (v : Z) : (0 <=? Z.land v 0xff) && (Z.land v 0xff <? 256) = true.
Proof. pose proof (land_ff_range v). apply andb_true_iff. lia. Qed.

Lemma byte_test (v : Z) : 0 <= v < 256 -> (0 <=? v) && (v <? 256) = true.
Proof. intros H. apply andb_true_iff. lia. Qed.

Lemma len_read (b : list Z) (i n : nat) : Buf.len (Buf.read b i n) <= Z.of_nat n.
Proof. unfold Buf.len, Buf.read. rewrite length_firstn. lia. Qed.

Section Catalog.

Context {crc : RkCrc}.

Variable ops : list Z.
Variables send out ctl : bool.

Local Abbreviation P := (within ops send out ctl).

Lemma within_cbw (c o n f r : Z) :
  In (Int.u32 c) ops -> P (EvCbw (cbw_frame c o n f r)).
Proof.
  intros Hin. unfold within.
  assert (Hc := u32_range c). assert (Ho := u32_range o).
  assert (Hn : 0 <= Int.u16 n < 2 ^ 16) by (apply Z.mod_pos_bound; lia).
  assert (Hf : 0 <= Int.u8 f < 2 ^ 8) by (apply Z.mod_pos_bound; lia).
  rewrite cbw_frame_truncates.
  split; [| split; [| split]].
  - rewrite cbw_frame_bytes by assumption. reflexivity.
  - rewrite cbw_frame_bytes by assumption. reflexivity.
  - rewrite cbw_frame_bytes by assumption. unfold Buf.bytes. cbn [forallb].
    rewrite !land_ff_byte, (byte_test (Int.u8 f)) by (cbn in Hf; lia).
    reflexivity.
  - rewrite opcode_cbw_frame by assumption. exact Hin.
Qed.

Lemma within_exec (k p r : Z) :
  In RKFT_CMD_EXECUTESDRAM ops -> P (EvCbw (exec_frame k p r)).
Proof.
  intros Hin. unfold within.
  assert (Hk := u32_range k). assert (Hp := u32_range p).
  rewrite exec_frame_truncates, exec_frame_bytes by assumption.
  split; [reflexivity | split; [reflexivity | split]].
  - unfold Buf.bytes. cbn [forallb]. rewrite !land_ff_byte. reflexivity.
  - exact Hin.
Qed.

Lemma emits_ret {A : Type} (a : A) : emits_only P (ret a).
Proof. intros w. exists []. cbn. rewrite app_nil_r. split; constructor. Qed.

Lemma emits_bind {A B : Type} (m : M A) (k : A -> M B) :
  emits_only P m -> (forall a, emits_only P (k a)) -> emits_only P (bind m k).
Proof.
  intros Hm Hk w. unfold bind.
  destruct (Hm w) as (e1 & Ht1 & He1).
  destruct (m w) as [[a | s] w1]; cbn [fst snd] in *.
  - destruct (Hk a w1) as (e2 & Ht2 & He2).
    exists (e1 ++ e2). rewrite Ht2, Ht1, app_assoc. split; [reflexivity |].
    apply Forall_app. now split.
  - exists e1. now split.
Qed.

Lemma emits_bind_with {A B : Type} (R : A -> Prop) (m : M A) (k : A -> M B) :
  emits_only P m -> (forall w a, fst (m w) = Ok a -> R a) ->
  (forall a, R a -> emits_only P (k a)) -> emits_only P (bind m k).
Proof.
  intros Hm HR Hk w. unfold bind.
  destruct (Hm w) as (e1 & Ht1 & He1). pose proof (HR w) as HRw.
  destruct (m w) as [[a | s] w1]; cbn [fst snd] in *.
  - destruct (Hk a (HRw a eq_refl) w1) as (e2 & Ht2 & He2).
    exists (e1 ++ e2). rewrite Ht2, Ht1, app_assoc. split; [reflexivity |].
    apply Forall_app. now split.
  - exists e1. now split.
Qed.

Lemma emits_emit (e : event) : P e -> emits_only P (emit e).
Proof. intros H w. exists [e]. cbn. split; [reflexivity | now constructor]. Qed.

Lemma emits_silent {A : Type} (m : M A) :
  (forall w, w_trace (snd (m w)) = w_trace w) -> emits_only P m.
Proof.
  intros H w. exists []. rewrite H, app_nil_r. split; constructor.
Qed.

Lemma emits_halt {A : Type} (s : stop) : emits_only P (@halt A s).
Proof. now apply emits_silent. Qed.

Lemma emits_goto_exit {A : Type} : emits_only P (@goto_exit A).
Proof. now apply emits_silent. Qed.

Lemma emits_fatal {A : Type} (m : fatal_message) : emits_only P (@fatal A m).
Proof.
  unfold fatal. apply emits_bind; [apply emits_emit; exact I |].
  intros _. apply emits_halt.
Qed.

Lemma emits_info (m : message) : emits_only P (info m).
Proof. apply emits_emit. exact I. Qed.

Lemma emits_get_buf : emits_only P get_buf.
Proof. now apply emits_silent. Qed.

Lemma emits_get_ibuf : emits_only P get_ibuf.
Proof. now apply emits_silent. Qed.

Lemma emits_set_buf (b : list Z) : emits_only P (set_buf b).
Proof. now apply emits_silent. Qed.

Lemma emits_set_ibuf (b : list Z) : emits_only P (set_ibuf b).
Proof. now apply emits_silent. Qed.

Lemma emits_read_stdin_buf (i : nat) (n : Z) : emits_only P (read_stdin_buf i n).
Proof.
  apply emits_silent. intros w. unfold read_stdin_buf.
  now destruct (sys_read n (w_stdin w)) as [[k d] s'].
Qed.

Lemma emits_read_stdin_ibuf (n : Z) : emits_only P (read_stdin_ibuf n).
Proof.
  apply emits_silent. intros w. unfold read_stdin_ibuf.
  now destruct (sys_read n (w_stdin w)) as [[k d] s'].
Qed.

Lemma emits_send_cbw (c o n f : Z) :
  In (Int.u32 c) ops -> emits_only P (send_cbw c o n f).
Proof.
  intros Hin w. eexists [_; _]. unfold send_cbw. exec.
  rewrite <- app_assoc. split; [reflexivity |].
  constructor; [| constructor; [now apply within_cbw | constructor]].
  exists (cbw_frame c o n f (hd 0 (w_rand w))).
  split; [exact (within_cbw c o n f _ Hin) | reflexivity].
Qed.

Lemma emits_send_exec (k p : Z) :
  In RKFT_CMD_EXECUTESDRAM ops -> emits_only P (send_exec k p).
Proof.
  intros Hin w. eexists [_]. unfold send_exec. exec.
  split; [reflexivity |]. constructor; [now apply within_exec | constructor].
Qed.

Lemma emits_send_buf (n : Z) :
  send = true -> n <= RKFT_BLOCKSIZE -> emits_only P (send_buf n).
Proof.
  intros Hs Hn w. unfold send_buf. exec.
  destruct (Buf.inside (w_buf w) 0 n) eqn:E; exec.
  - eexists [_]. split; [reflexivity |].
    constructor; [| constructor]. split; [assumption |].
    pose proof (len_read (w_buf w) 0 (Z.to_nat n)).
    unfold Buf.inside in E. lia.
  - exists []. rewrite app_nil_r. split; constructor.
Qed.

Lemma emits_recv_buf (n : Z) : emits_only P (recv_buf n).
Proof.
  intros w. unfold recv_buf. exec. exists [EvRecvBuf n].
  destruct (_ <=? _); cbn [fst snd w_trace];
    (split; [reflexivity | constructor; [exact I | constructor]]).
Qed.

Lemma emits_recv_csw : emits_only P recv_csw.
Proof. apply emits_emit. exact I. Qed.

Lemma emits_control_transfer (i n : Z) :
  ctl = true -> i = 1137 \/ i = 1138 -> n <= 4096 + 2 ->
  emits_only P (control_transfer 12 0 i n).
Proof.
  intros Hc Hi Hn w. unfold control_transfer. exec.
  destruct (Buf.inside (w_buf w) 0 n) eqn:E; exec.
  - eexists [_]. split; [reflexivity |].
    constructor; [| constructor].
    split; [assumption | split; [reflexivity | split; [reflexivity |]]].
    split; [assumption |].
    pose proof (len_read (w_buf w) 0 (Z.to_nat n)).
    unfold Buf.inside in E. lia.
  - exists []. rewrite app_nil_r. split; constructor.
Qed.

Lemma emits_write_stdout (i n : Z) :
  out = true -> emits_only P (write_stdout i n).
Proof.
  intros Ho w. unfold write_stdout. exec.
  destruct (negb (Buf.inside (w_buf w) i n)); exec.
  - exists []. rewrite app_nil_r. split; constructor.
  - destruct (w_room w) as [room |]; exec.
    + destruct ((0 <? n) && (room <=? 0)); cbn [fst snd w_trace].
      * exists []. rewrite app_nil_r. split; constructor.
      * eexists [_]. split; [reflexivity |].
        constructor; [exact Ho | constructor].
    + eexists [_]. split; [reflexivity |].
      constructor; [exact Ho | constructor].
Qed.

End Catalog.
Ltac cat_step :=
  lazymatch goal with
  | |- emits_only _ (ret _) => apply emits_ret
  | |- emits_only _ (info _) => apply emits_info
  | |- emits_only _ (fatal _) => apply emits_fatal
  | |- emits_only _ goto_exit => apply emits_goto_exit
  | |- emits_only _ (halt _) => apply emits_halt
  | |- emits_only _ get_buf => apply emits_get_buf
  | |- emits_only _ get_ibuf => apply emits_get_ibuf
  | |- emits_only _ (set_buf _) => apply emits_set_buf
  | |- emits_only _ (set_ibuf _) => apply emits_set_ibuf
  | |- emits_only _ (read_stdin_buf _ _) => apply emits_read_stdin_buf
  | |- emits_only _ (read_stdin_ibuf _) => apply emits_read_stdin_ibuf
  | |- emits_only _ (send_cbw _ _ _ _) => apply emits_send_cbw; assumption
  | |- emits_only _ (send_exec _ _) => apply emits_send_exec; assumption
  | |- emits_only _ (recv_buf _) => apply emits_recv_buf
  | |- emits_only _ recv_csw => apply emits_recv_csw
  | |- emits_only _ (write_stdout _ _) => apply emits_write_stdout; reflexivity
  | |- emits_only _ (emit (EvUsleep _)) => apply emits_emit; exact I
  | |- emits_only _ (bind _ _) => apply emits_bind; [| intros ?]
  | |- emits_only _ (if ?c then _ else _) => destruct c eqn:?
  | |- emits_only _ (match ?c with Some _ => _ | None => _ end) =>
      destruct c eqn:?
  end.

Ltac cat := cbv zeta; repeat cat_step.

Section CatalogProgram.

Context {crc : RkCrc}.

Variable ops : list Z.
Variable ctl : bool.

Lemma emits_resolve_partition (send out : bool) (partname : list Z) (flag : Z) :
  In RKFT_CMD_READLBA ops -> In RKFT_CMD_READFLASHINFO ops ->
  emits_only (within ops send out ctl) (resolve_partition partname flag).
Proof. intros H1 H2. unfold resolve_partition. cat. Qed.

Lemma emits_reboot_device (flag : Z) :
  In RKFT_CMD_RESETDEVICE ops ->
  emits_only (within ops false false ctl) (reboot_device flag).
Proof. intros H. unfold reboot_device. cat. Qed.

Lemma emits_read_flash (flag offset size : Z) :
  In RKFT_CMD_READLBA ops ->
  emits_only (within ops false true ctl) (read_flash flag offset size).
Proof.
  intros H. unfold read_flash. apply emits_bind; [| intros _; apply emits_info].
  generalize (S (Z.to_nat size)). intros fuel. revert offset size.
  induction fuel as [| fuel IH]; intros offset size; cbn [read_flash_loop]; cat.
  apply IH.
Qed.

Lemma emits_write_flash (flag offset size : Z) :
  In RKFT_CMD_WRITELBA ops ->
  emits_only (within ops true false ctl) (write_flash flag offset size).
Proof.
  intros H. unfold write_flash. apply emits_bind; [| intros _; apply emits_info].
  generalize (S (Z.to_nat size)). intros fuel. revert offset size.
  induction fuel as [| fuel IH]; intros offset size; cbn [write_flash_loop]; cat.
  - apply emits_send_buf; [reflexivity | lia].
  - apply IH.
Qed.

Lemma emits_read_parameters (flag offset : Z) :
  In RKFT_CMD_READLBA ops ->
  emits_only (within ops false true ctl) (read_parameters flag offset).
Proof. intros H. unfold read_parameters. cat. Qed.

Lemma emits_write_parameters (flag : Z) :
  In RKFT_CMD_WRITELBA ops ->
  emits_only (within ops true false ctl) (write_parameters flag).
Proof.
  intros H. unfold write_parameters. cat.
  generalize 9%nat 0. intros fuel.
  induction fuel as [| fuel IH]; intros offset; cbn [write_parameters_loop]; cat.
  - apply emits_send_buf; [reflexivity | lia].
  - apply IH.
Qed.

Lemma emits_read_ram (flag offset size : Z) :
  In RKFT_CMD_READSDRAM ops ->
  emits_only (within ops false true ctl) (read_ram flag offset size).
Proof.
  intros H. unfold read_ram. apply emits_bind; [| intros _; apply emits_info].
  generalize (S (Z.to_nat size)). intros fuel. revert offset size.
  induction fuel as [| fuel IH]; intros offset size; cbn [read_ram_loop]; cat;
    apply IH.
Qed.

Lemma emits_write_ram (flag offset size : Z) :
  In RKFT_CMD_WRITESDRAM ops ->
  emits_only (within ops true false ctl) (write_ram flag offset size).
Proof.
  intros H. unfold write_ram. apply emits_bind; [| intros _; apply emits_info].
  generalize (S (Z.to_nat size)). intros fuel. revert offset size.
  induction fuel as [| fuel IH]; intros offset size; cbn [write_ram_loop];
    [apply emits_halt |].
  destruct (size >? 0); [| apply emits_ret].
  apply (emits_bind_with _ _ _ _ (fun n => n <= RKFT_BLOCKSIZE)).
  - apply emits_read_stdin_buf.
  - intros w n. apply read_stdin_buf_le. unfold RKFT_BLOCKSIZE. lia.
  - intros n Hn. cat.
    + apply emits_send_buf; [reflexivity | assumption].
    + apply IH.
Qed.

Lemma emits_exec_ram (offset size : Z) :
  In RKFT_CMD_EXECUTESDRAM ops ->
  emits_only (within ops false false ctl) (exec_ram offset size).
Proof. intros H. unfold exec_ram. cat. Qed.

Lemma emits_read_idb (flag offset size : Z) :
  In RKFT_CMD_READSECTOR ops ->
  emits_only (within ops false true ctl) (read_idb flag offset size).
Proof.
  intros H. unfold read_idb. apply emits_bind; [| intros _; apply emits_info].
  generalize (S (Z.to_nat size)). intros fuel. revert offset size.
  induction fuel as [| fuel IH]; intros offset size; cbn [read_idb_loop]; cat;
    apply IH.
Qed.

Lemma emits_write_idb (flag offset size : Z) :
  In RKFT_CMD_WRITESECTOR ops ->
  emits_only (within ops true false ctl) (write_idb flag offset size).
Proof.
  intros H. unfold write_idb. apply emits_bind; [| intros _; apply emits_info].
  generalize (S (Z.to_nat size)). intros fuel. revert offset size.
  induction fuel as [| fuel IH]; intros offset size; cbn [write_idb_loop]; cat.
  - unfold write_idb_block. cat.
    apply emits_emit. split; [reflexivity |].
    etransitivity; [apply len_read | unfold RKFT_IDB_BLOCKSIZE, RKFT_BLOCKSIZE; lia].
  - apply IH.
Qed.

Lemma emits_erase_flash (flag offset size : Z) :
  In RKFT_CMD_WRITELBA ops ->
  emits_only (within ops true false ctl) (erase_flash flag offset size).
Proof.
  intros H. unfold erase_flash. cat.
  generalize (S (Z.to_nat size)). intros fuel. revert offset size.
  induction fuel as [| fuel IH]; intros offset size; cbn [erase_flash_loop]; cat.
  - apply emits_send_buf; [reflexivity | lia].
  - apply IH.
Qed.

Lemma emits_read_chip_version (flag : Z) :
  In RKFT_CMD_READCHIPINFO ops ->
  emits_only (within ops false false ctl) (read_chip_version flag).
Proof. intros H. unfold read_chip_version. cat. Qed.

Lemma emits_read_nand_info (flag : Z) :
  In RKFT_CMD_READFLASHID ops -> In RKFT_CMD_READFLASHINFO ops ->
  emits_only (within ops false false ctl) (read_nand_info flag).
Proof. intros H1 H2. unfold read_nand_info. cat. Qed.

End CatalogProgram.
Section CatalogMain.

Context {crc : RkCrc}.

Lemma within_weaken (ops ops' : list Z) (send out ctl : bool) (e : event) :
  incl ops ops' -> within ops send out ctl e -> within ops' send out ctl e.
Proof.
  intros Hi. destruct e; cbn [within]; try tauto.
  - intros (f & (H1 & H2 & H3 & H4) & E). exists f.
    repeat split; try assumption. now apply Hi.
  - intros (H1 & H2 & H3 & H4). repeat split; try assumption. now apply Hi.
Qed.

Lemma emits_do_action (ops : list Z) (ctl : bool) (action flag offset size : Z) :
  incl (action_opcodes action) ops ->
  emits_only (within ops (action_sends action) (action_writes action) ctl)
             (do_action action flag offset size).
Proof.
  intros Hincl. unfold do_action. cbv zeta.
  repeat match goal with
         | |- emits_only _ (if ?a =? ?c then _ else _) =>
             destruct (Z.eqb_spec a c) as [-> | ?]
         end;
    try match type of Hincl with
        | incl (action_opcodes ?a) _ =>
            let v := eval vm_compute in (action_opcodes a) in
            change (action_opcodes a) with v in Hincl
        end;
    try match goal with
        | |- emits_only (within _ (action_sends ?a) (action_writes ?a) _) _ =>
            let s := eval vm_compute in (action_sends a) in
            let o := eval vm_compute in (action_writes a) in
            change (action_sends a) with s; change (action_writes a) with o
        end;
    lazymatch goal with
    | |- emits_only _ (reboot_device _) => apply emits_reboot_device
    | |- emits_only _ (read_flash _ _ _) => apply emits_read_flash
    | |- emits_only _ (write_flash _ _ _) => apply emits_write_flash
    | |- emits_only _ (read_parameters _ _) => apply emits_read_parameters
    | |- emits_only _ (write_parameters _) => apply emits_write_parameters
    | |- emits_only _ (read_ram _ _ _) => apply emits_read_ram
    | |- emits_only _ (write_ram _ _ _) => apply emits_write_ram
    | |- emits_only _ (exec_ram _ _) => apply emits_exec_ram
    | |- emits_only _ (read_idb _ _ _) => apply emits_read_idb
    | |- emits_only _ (write_idb _ _ _) => apply emits_write_idb
    | |- emits_only _ (erase_flash _ _ _) => apply emits_erase_flash
    | |- emits_only _ (read_chip_version _) => apply emits_read_chip_version
    | |- emits_only _ (read_nand_info _) => apply emits_read_nand_info
    | |- emits_only _ (ret _) => apply emits_ret
    end;
    apply Hincl; cbn [In]; tauto.
Qed.

Lemma emits_load_loop (ops : list Z) (send out : bool)
    (fuel : nat) (index c : Z) (w : world) :
  index = 1137 \/ index = 1138 ->
  exists evs,
    w_trace (snd (load_loop fuel index c w)) = w_trace w ++ evs /\
    Forall (within ops send out true) evs.
Proof.
  intros Hi. revert c w. induction fuel as [| fuel IH]; intros c w.
  { exists []. cbn. rewrite app_nil_r. split; constructor. }
  cbn [load_loop]. unfold read_stdin_buf, control_transfer. exec.
  pose proof (sys_read_le 4096 (w_stdin w) ltac:(lia)) as Hle.
  destruct (sys_read 4096 (w_stdin w)) as [[n d] s']. cbn [fst snd] in Hle.
  exec.
  destruct (Z.eqb_spec n 4096) as [-> | Hn]; exec.
  - destruct (Buf.inside _ 0 4096) eqn:E; exec.
    + match goal with
      | |- context [load_loop fuel index ?c' ?w'] =>
          destruct (IH c' w') as (evs & Ht & He);
            cbn [w_trace] in Ht; rewrite Ht
      end.
      eexists (_ :: evs). rewrite <- app_assoc. split; [reflexivity |].
      constructor; [| exact He].
      repeat split; try assumption.
      etransitivity; [apply len_read | lia].
    + exists []. rewrite app_nil_r. split; constructor.
  - destruct (negb (n =? -1)); exec.
    + destruct (Buf.inside _ 0 (n + 2)) eqn:E; exec.
      * eexists [_]. split; [reflexivity |].
        constructor; [| constructor].
        repeat split; try assumption.
        etransitivity; [apply len_read |].
        unfold Buf.inside in E. lia.
      * exists []. rewrite app_nil_r. split; constructor.
    + exists []. rewrite app_nil_r. split; constructor.
Qed.

Lemma emits_load_loader (ops : list Z) (send out : bool)
    (m : message) (index : Z) :
  index = 1137 \/ index = 1138 ->
  emits_only (within ops send out true) (load_loader m index).
Proof.
  intros Hi w. unfold load_loader. exec.
  match goal with
  | |- context [load_loop ?f index ?c ?w'] =>
      destruct (emits_load_loop ops send out f index c w' Hi) as (evs & Ht & He);
        cbn [w_trace] in Ht;
        destruct (load_loop f index c w') as [[[] | s] w1]
  end; cbn [fst snd] in *; rewrite Ht; exists (EvInfo m :: evs);
    rewrite <- app_assoc; (split; [reflexivity |]);
    (constructor; [exact I | exact He]).
Qed.

(** The loaders leave through [goto exit]: what follows them in [main]
    is not reached. *)
Lemma load_loader_stops (m : message) (index : Z) (w : world) :
  exists s, fst (load_loader m index w) = Stop s.
Proof.
  unfold load_loader. exec.
  match goal with
  | |- context [load_loop ?f index ?c ?w'] =>
      destruct (load_loop f index c w') as [[[] | s] w1]
  end; cbn [fst]; eauto.
Qed.

Lemma emits_bind_stops {A B : Type} (P : event -> Prop) (m : M A) (k : A -> M B) :
  emits_only P m -> (forall w, exists s, fst (m w) = Stop s) ->
  emits_only P (bind m k).
Proof.
  intros Hm Hs w. unfold bind.
  destruct (Hm w) as (e1 & Ht1 & He1). destruct (Hs w) as (s & Hw).
  destruct (m w) as [[a | s'] w1]; cbn [fst snd] in *; [discriminate |].
  exists e1. now split.
Qed.

Lemma emits_main_body (rq : request) :
  emits_only (within (request_opcodes rq) (action_sends (rq_action rq))
                     (action_writes (rq_action rq)) (action_loads (rq_action rq)))
             (main_body rq).
Proof.
  unfold main_body, request_opcodes. cbv zeta.
  destruct (Z.eqb_spec (rq_action rq) (Buf.ch "l")) as [El | Nl].
  { rewrite El. apply emits_bind_stops.
    - apply (emits_load_loader [] false false). now left.
    - apply load_loader_stops. }
  destruct (Z.eqb_spec (rq_action rq) (Buf.ch "L")) as [EL | NL].
  { rewrite EL. apply emits_bind_stops.
    - apply (emits_load_loader [] false false). now right.
    - apply load_loader_stops. }
  assert (Hloads : action_loads (rq_action rq) = false).
  { unfold action_loads. cbn [existsb].
    apply Z.eqb_neq in Nl, NL. now rewrite Nl, NL. }
  rewrite Hloads.
  apply emits_bind; [apply emits_ret | intros _].
  apply emits_bind; [apply emits_send_cbw; now left | intros _].
  apply emits_bind; [apply emits_recv_csw | intros _].
  apply emits_bind; [apply emits_emit; exact I | intros _].
  apply emits_bind.
  - destruct (rq_partname rq) as [partname |]; [| apply emits_ret].
    apply emits_resolve_partition; cbn [In app]; tauto.
  - intros os. apply emits_do_action.
    intros c Hc. right. apply in_or_app. now right.
Qed.

(** What every run of [main] adds to the trace. *)
Lemma catalog_main (args : list (list Z)) (w : world) :
  match parse_args args with
  | Some rq =>
      Forall (within (request_opcodes rq) (action_sends (rq_action rq))
                     (action_writes (rq_action rq))
                     (action_loads (rq_action rq)))
             (added w (main args w))
  | None =>
      fst (main args w) = Exited 1 /\
      added w (main args w) = [EvFatal FatalUsage]
  end.
Proof.
  unfold main, added.
  destruct (parse_args args) as [rq |].
  - destruct (emits_main_body rq w) as (evs & Ht & He). unfold run.
    destruct (main_body rq w) as [[[] | s] w1]; cbn [fst snd] in *.
    + exec. rewrite Ht, <- !app_assoc, skipn_app, skipn_all, Nat.sub_diag.
      cbn [skipn app]. apply Forall_app. split; [assumption |].
      repeat constructor.
    + destruct s; cbn [snd]; exec;
        rewrite Ht, <- ?app_assoc, skipn_app, skipn_all, Nat.sub_diag;
        cbn [skipn app]; try assumption.
      apply Forall_app. split; [assumption |]. repeat constructor.
  - unfold run. exec. split; [reflexivity |].
    now rewrite skipn_app, skipn_all, Nat.sub_diag.
Qed.

End CatalogMain.
(** ** Every run: exchanges, exit and catalog *)

Lemma frames_cons (e : event) (t : list event) :
  frames (e :: t) = frames [e] ++ frames t.
Proof. apply (frames_app [e] t). Qed.

(** In a sequence of exchanges every command has its status read, and
    at most one data transfer. *)
Lemma phases_counts (p q : phase) (evs : list event) :
  phases p evs = Some q ->
  let opened x := match x with Idle => 0%nat | _ => 1%nat end in
  let moved x := match x with Transferred => 1%nat | _ => 0%nat end in
  (List.length (frames evs) + opened p = status_reads evs + opened q)%nat /\
  (moved q = 0%nat ->
   data_transfers evs + moved p <= List.length (frames evs) + opened p)%nat.
Proof.
  intros H opened moved. subst opened moved. cbv beta. revert p H.
  induction evs as [| e evs IH]; intros p H.
  - injection H as <-. cbn. destruct p; cbn; lia.
  - cbn [phases] in H.
    destruct (phase_step p e) as [p' |] eqn:E; [| discriminate].
    destruct (IH p' H) as [IH1 IH2].
    unfold status_reads, data_transfers in *.
    destruct e, p; cbn [phase_step] in E; try discriminate;
      injection E as <-; rewrite frames_cons;
      cbn [frames flat_map filter List.length app] in *;
      (split; [lia | intros Hq; specialize (IH2 Hq); lia]).
Qed.

Section EveryRun.

Context {crc : RkCrc}.

Lemma added_app (w : world) (out : outcome * world) (evs : list event) :
  w_trace (snd out) = w_trace w ++ evs -> added w out = evs.
Proof.
  intros H. unfold added.
  now rewrite H, skipn_app, skipn_all, Nat.sub_diag.
Qed.

(** X1.  Every run of [main], for every command line, input, output
    sink, device and initial buffers, ends by [return 0] after the label
    [exit], by [exit(1)] in [fatal], or by an access outside [buf].  In
    the first two cases what the run did before its closing events (the
    three calls of the label [exit], or the fatal message) is a sequence
    of complete exchanges: a command frame is sent only when no exchange
    is open, it is followed by at most one bulk transfer of data and
    then by the read of its status, and messages, output and control
    transfers happen only between exchanges.  So there are as many
    status reads as command frames and no more data transfers than
    command frames. *)
Theorem exchanges_are_complete (args : list (list Z)) (w : world) :
  let out := main args w in
  match fst out with
  | Crashed s => s = Undefined
  | Returned _ | Exited _ =>
      exists body closing,
        added w out = body ++ closing /\
        phases Idle body = Some Idle /\
        (closing = [EvRelease; EvClose; EvLibusbExit]
         \/ exists m, closing = [EvFatal m]) /\
        List.length (frames (added w out)) = status_reads (added w out) /\
        (data_transfers (added w out) <= List.length (frames (added w out)))%nat
  end.
Proof.
  intros out. subst out.
  destruct (main_ends args w) as (body & Hph & Hend).
  pose proof (phases_counts _ _ _ Hph) as [Hc Hd]. cbn in Hc, Hd.
  specialize (Hd eq_refl).
  destruct (fst (main args w)) as [code | code | s]; [| | exact Hend].
  - destruct Hend as [_ Ht]. exists body, [EvRelease; EvClose; EvLibusbExit].
    rewrite (added_app _ _ _ Ht).
    unfold status_reads, data_transfers in *.
    rewrite frames_app, !filter_app, !length_app. cbn.
    repeat split; try tauto; lia.
  - destruct Hend as [_ [m Ht]]. exists body, [EvFatal m].
    rewrite (added_app _ _ _ Ht).
    unfold status_reads, data_transfers in *.
    rewrite frames_app, !filter_app, !length_app. cbn.
    repeat split; eauto; lia.
Qed.

(** X2.  The exit code and the cleanup of every run of [main] from the
    first switch on (the version banner is printed before it; the
    device is taken as found and opened).  A run that returns has exit code 0, and the three
    calls of the label [exit] (release the interface, close the handle,
    leave libusb) are its last three events and occur nowhere else; no
    fatal message was printed.  A run that ends in [fatal] has exit
    code 1; the fatal message is its last event and its only fatal
    message, and none of the three cleanup calls is made: [exit(1)]
    skips the label [exit].  A command line that the first switch
    rejects ends in this way, with exit code 1, before any transfer: no
    frame, payload or control transfer is sent, nothing is asked from
    the device and [write] is not called. *)
Theorem teardown_exactly_once (args : list (list Z)) (w : world) :
  let out := main args w in
  let evs := added w out in
  match fst out with
  | Returned code =>
      code = 0 /\
      (exists body, evs = body ++ [EvRelease; EvClose; EvLibusbExit]) /\
      filter is_teardown evs = [EvRelease; EvClose; EvLibusbExit] /\
      filter is_fatal evs = []
  | Exited code =>
      code = 1 /\
      (exists body m, evs = body ++ [EvFatal m] /\ filter is_fatal body = []) /\
      filter is_teardown evs = []
  | Crashed s => s = Undefined
  end /\
  (parse_args args = None ->
   fst out = Exited 1 /\ fatals evs = [FatalUsage] /\
   frames evs = [] /\ sent evs = [] /\ requested evs = [] /\
   controls evs = [] /\ written evs = []).
Proof.
  intros out evs. subst out evs.
  destruct (main_ends args w) as (body & Hph & Hend).
  pose proof (phases_teardown _ _ _ Hph) as [Htd Hfa].
  pose proof (catalog_main args w) as Hcat.
  split.
  - destruct (fst (main args w)) as [code | code | s]; [| | exact Hend].
    + destruct Hend as [-> Ht]. rewrite (added_app _ _ _ Ht).
      rewrite !filter_app, Htd, Hfa. cbn. eauto.
    + destruct Hend as [-> [m Ht]]. rewrite (added_app _ _ _ Ht).
      rewrite !filter_app, Htd. cbn.
      repeat split; eauto.
  - intros Hnone. rewrite Hnone in Hcat. destruct Hcat as [_ Hu].
    rewrite Hu. split; [| repeat split; reflexivity].
    unfold main. rewrite Hnone. reflexivity.
Qed.

End EveryRun.
Lemma Forall_frames (P : event -> Prop) (Q : list Z -> Prop) (evs : list event) :
  (forall f, P (EvCbw f) -> Q f) -> Forall P evs -> Forall Q (frames evs).
Proof.
  intros H. induction 1 as [| e evs He _ IH]; [constructor |].
  rewrite frames_cons. apply Forall_app. split; [| exact IH].
  destruct e; cbn [frames flat_map app]; constructor; [now apply H | constructor].
Qed.

(** The opcodes of an action are among those the program uses, not
    among those it only defines. *)
Lemma request_opcodes_used (rq : request) (c : Z) :
  In c (request_opcodes rq) -> ~ In c unused_opcodes.
Proof.
  unfold request_opcodes, action_opcodes. cbv zeta.
  destruct (action_loads _); [intros [] |].
  destruct (rq_partname rq);
    repeat match goal with
           | |- context [if ?a =? ?b then _ else _] => destruct (a =? b)
           end;
    cbn [In app]; intros Hc Hu; unfold unused_opcodes in Hu; cbn [In] in Hu;
    repeat match type of Hc with
           | _ \/ _ => destruct Hc as [<- | Hc]
           | False => contradiction
           end;
    repeat match type of Hu with
           | _ \/ _ => destruct Hu as [Hu | Hu]; [vm_compute in Hu; discriminate Hu |]
           | False => contradiction
           end.
Qed.

(** The opcodes of an action that does not change the device have the
    direction bit. *)
Lemma request_opcodes_read (rq : request) (c : Z) :
  action_mutates (rq_action rq) = false ->
  In c (request_opcodes rq) -> Z.testbit c 31 = true.
Proof.
  destruct rq as [a part o s f]. cbn [rq_action rq_partname].
  unfold request_opcodes, action_opcodes. cbn [rq_action rq_partname]. cbv zeta.
  intros Hm. destruct (action_loads a); [intros [] |].
  destruct part;
    repeat match goal with
           | |- context [if ?x =? ?y then _ else _] =>
               destruct (Z.eqb_spec x y) as [-> | ?]
           end;
    try (vm_compute in Hm; discriminate Hm);
    cbn [In app]; intros Hc;
    repeat match type of Hc with
           | _ \/ _ => destruct Hc as [<- | Hc]
           | False => contradiction
           end;
    reflexivity.
Qed.

Section CatalogProperty.

Context {crc : RkCrc}.

(** X3.  The command catalog.  For every command line that the first
    switch accepts and every input, output sink and device, the events
    of the run stay within the catalog of the action: every command
    frame is 31 bytes, begins with "USBC", holds only bytes and carries
    an opcode of the action (none for the loaders; else the readiness
    probe, [READLBA] and [READFLASHINFO] when a partition name is
    resolved, and the action's own); a bulk payload is sent only by
    [w], [P], [M], [j] and [e] and is at most a block; control
    transfers are made only by the loaders, with request 12, value 0,
    index 1137 or 1138 and at most 4098 bytes.  On standard output,
    [write] is called only by [r], [p], [m] and [i], and what [printf]
    puts there is nothing but dumps of frames of the catalog, so the
    loaders print nothing there.  No run sends an opcode that the
    program only defines (erase sectors, low-level format, efuse, ...),
    and an action other than [b], [w], [P], [M], [B], [j], [e] sends
    only frames whose direction bit is set.  A command line that the
    first switch rejects sends nothing and puts nothing on standard
    output. *)
Theorem command_catalog (args : list (list Z)) (w : world) :
  let evs := added w (main args w) in
  match parse_args args with
  | Some rq =>
      let a := rq_action rq in
      Forall (within (request_opcodes rq) (action_sends a) (action_writes a)
                     (action_loads a)) evs /\
      Forall (fun f => ~ In (Frame.opcode f) unused_opcodes) (frames evs) /\
      (action_mutates a = false ->
       Forall (fun f => mutating f = false) (frames evs)) /\
      (action_writes a = false -> written evs = []) /\
      (action_loads a = true -> dumps evs = [] /\ frames evs = [])
  | None =>
      frames evs = [] /\ sent evs = [] /\ controls evs = [] /\
      written evs = [] /\ dumps evs = []
  end.
Proof.
  intros evs. subst evs. pose proof (catalog_main args w) as H.
  destruct (parse_args args) as [rq |];
    [| destruct H as [_ ->]; repeat split; reflexivity].
  cbv zeta. split; [exact H | split; [| split; [| split]]].
  - eapply Forall_frames; [| exact H].
    intros f (_ & _ & _ & Hin). now apply (request_opcodes_used rq).
  - intros Hm. eapply Forall_frames; [| exact H].
    intros f (_ & _ & _ & Hin). unfold mutating.
    now rewrite (request_opcodes_read rq _ Hm Hin).
  - intros Hw. rewrite Hw in H.
    induction H as [| e evs He _ IH]; [reflexivity |].
    destruct e; cbn [written flat_map app within] in *;
      try exact IH. discriminate He.
  - intros Hl. unfold request_opcodes in H. rewrite Hl in H.
    induction H as [| e evs He _ IH]; [split; reflexivity |].
    destruct IH as [IH1 IH2].
    destruct e; cbn [dumps frames flat_map app within In] in *;
      try (split; assumption).
    + destruct He as (f & (_ & _ & _ & []) & _).
    + destruct He as (_ & _ & _ & []).
Qed.

End CatalogProperty.
(** ** Case ['e']: erase *)

(** The number of full windows: the count divided by the window, rounded
    up. *)
Lemma full_windows_count (incr : Z) (fuel : nat) (offset size : Z) :
  0 < incr -> (Z.to_nat size < fuel)%nat ->
  List.length (full_windows fuel incr offset size)
  = Z.to_nat ((size + incr - 1) / incr).
Proof.
  intros Hi. revert offset size.
  induction fuel as [| fuel IH]; intros offset size Hf; [lia |].
  cbn [full_windows].
  destruct (Z.gtb_spec size 0) as [Hs | Hs].
  - cbn [List.length]. rewrite IH by lia.
    replace (size + incr - 1) with (size - incr + incr - 1 + 1 * incr) by lia.
    rewrite Z.div_add by lia.
    assert (0 <= (size - incr + incr - 1) / incr) by (apply Z.div_pos; lia).
    lia.
  - cbn [List.length].
    assert ((size + incr - 1) / incr <= 0); [| lia].
    assert ((size + incr - 1) / incr < 1); [| lia].
    apply Z.div_lt_upper_bound; lia.
Qed.

Lemma len_memset_all (b : list Z) (c : Z) :
  Buf.memset b c (List.length b) = repeat (Int.u8 c) (List.length b).
Proof.
  unfold Buf.memset, Buf.write. cbn [firstn app Nat.add].
  rewrite repeat_length, skipn_all. apply app_nil_r.
Qed.

Section Erase.

Context {crc : RkCrc}.

(** The erase loop on a buffer that holds a block: one frame and the
    block for every full window; nothing is read and nothing is
    written to standard output. *)
Lemma erase_flash_loop_windows (flag : Z) :
  forall (fuel : nat) (offset size : Z) (w : world),
    (Z.to_nat size < fuel)%nat ->
    - 2 ^ 31 <= offset -> offset + size + RKFT_OFF_INCR <= 2 ^ 31 ->
    size < 2 ^ 31 ->
    Buf.len (w_buf w) = RKFT_BLOCKSIZE ->
    exists w' evs,
      erase_flash_loop fuel flag offset size w = (Ok tt, w') /\
      w_trace w' = w_trace w ++ evs /\
      w_buf w' = w_buf w /\ w_stdin w' = w_stdin w /\ w_dev w' = w_dev w /\
      map fields (frames evs) =
        map (fun p => (RKFT_CMD_WRITELBA, Int.u32 (fst p), snd p, Int.u8 flag))
            (full_windows fuel RKFT_OFF_INCR offset size) /\
      sent evs =
        repeat (w_buf w)
               (List.length (full_windows fuel RKFT_OFF_INCR offset size)) /\
      requested evs = [] /\ written evs = [] /\ fatals evs = [] /\
      controls evs = [] /\ dumps evs = map dump_of (frames evs).
Proof.
  induction fuel as [| fuel IH];
    intros offset size w Hfuel Hoff Hend Hsize Hlen; [lia |].
  cbn [erase_flash_loop full_windows].
  destruct (Z.gtb_spec size 0) as [Hpos | Hnpos].
  2:{ exists w, []. rewrite app_nil_r. repeat split; reflexivity. }
  exec. rewrite send_buf_block by exact Hlen. exec.
  change RKFT_OFF_INCR with 32 in *.
  rewrite (s32_small (offset + 32)), (s32_small (size - 32)) by lia.
  match goal with
  | |- context [erase_flash_loop fuel flag _ _ ?w1] =>
      destruct (IH (offset + 32) (size - 32) w1)
        as (w' & evs & Hrun & Ht & Hb & Hin & Hdev & Hf & Hs & Hr & Hwr & Hfa & Hc
            & Hdu);
        try lia; try assumption
  end.
  cbn [w_buf w_stdin w_dev w_trace] in *.
  exists w'. eexists ([_; _; _; _; _] ++ evs).
  rewrite Hrun, Ht. split; [reflexivity |].
  split; [rewrite <- !app_assoc; reflexivity |].
  rewrite !dumps_app, Hdu.
  rewrite !frames_app, !sent_app, !requested_app, !written_app, !fatals_app,
    !controls_app, !map_app, Hf, Hs, Hr, Hwr, Hfa, Hc.
  cbn [frames sent requested written fatals controls dumps flat_map app map
       List.length repeat fst snd].
  rewrite fields_cbw_frame_any.
  repeat split; try assumption; reflexivity.
Qed.

Lemma erase_flash_run (flag offset size : Z) (w : world) :
  Buf.len (w_buf w) = RKFT_BLOCKSIZE ->
  - 2 ^ 31 <= offset -> offset + size + RKFT_OFF_INCR <= 2 ^ 31 ->
  size < 2 ^ 31 ->
  let ws := full_windows_of RKFT_OFF_INCR offset size in
  exists w' evs,
    erase_flash flag offset size w = (Ok tt, w') /\
    w_trace w' = w_trace w ++ evs /\
    w_stdin w' = w_stdin w /\ w_dev w' = w_dev w /\
    map fields (frames evs) =
      map (fun p => (RKFT_CMD_WRITELBA, Int.u32 (fst p), snd p, Int.u8 flag)) ws /\
    sent evs = repeat erased_block (List.length ws) /\
    requested evs = [] /\ written evs = [] /\ fatals evs = [] /\
    controls evs = [] /\ dumps evs = map dump_of (frames evs).
Proof.
  intros Hlen Hoff Hend Hsize ws. unfold erase_flash. exec.
  assert (Hmem : Buf.memset (w_buf w) 255 (Z.to_nat RKFT_BLOCKSIZE) = erased_block).
  { replace (Z.to_nat RKFT_BLOCKSIZE) with (List.length (w_buf w))
      by (unfold Buf.len in Hlen; lia).
    rewrite len_memset_all. unfold erased_block.
    replace (List.length (w_buf w)) with (Z.to_nat RKFT_BLOCKSIZE)
      by (unfold Buf.len in Hlen; lia).
    reflexivity. }
  rewrite Hmem.
  match goal with
  | |- context [erase_flash_loop ?f flag offset size ?w1] =>
      destruct (erase_flash_loop_windows flag f offset size w1)
        as (w' & evs & Hrun & Ht & Hb & Hin & Hdev & Hf & Hs & Hr & Hwr & Hfa & Hc
            & Hdu);
        try lia; [reflexivity |]
  end.
  cbn [w_buf w_stdin w_dev w_trace] in *.
  rewrite Hrun. eexists. exists (evs ++ [EvInfo MsgDone]).
  split; [reflexivity |]. cbn [w_trace w_stdin w_dev].
  rewrite Ht, <- app_assoc.
  rewrite !dumps_app, Hdu.
  rewrite !frames_app, !sent_app, !requested_app, !written_app, !fatals_app,
    !controls_app, !map_app, Hf, Hs, Hr, Hwr, Hfa, Hc.
  cbn [frames sent requested written fatals controls dumps flat_map app map].
  rewrite !app_nil_r.
  repeat split; try assumption; reflexivity.
Qed.

(** X4.  Erasing by offset and count ([e offset size]; the command line
    is any that the first switch reads as this request).  After the
    readiness probe the run sends one [WRITELBA] frame of
    [RKFT_OFF_INCR] = 32 sectors for every window, at offsets [offset],
    [offset + 32], ..., each followed by one block of 16384 bytes
    [0xff]; the number of windows is the count divided by 32, rounded
    up, so a count that is no multiple of 32 erases up to 31 sectors
    beyond the range, and a count of zero or less erases nothing.
    Standard input is not read, nothing is asked from the device, and
    the run returns 0.  [write] is not called; what standard output
    receives is the text that [send_cbw] prints, one dump for each
    frame of the run. *)
Theorem erase_sends_full_blocks (args : list (list Z)) (offset size : Z)
    (stdin : list read_result) (room : option Z) (dev : list (list Z))
    (rand : list Z) :
  parse_args args = Some (erase_request offset size) ->
  - 2 ^ 31 <= offset -> offset + size + RKFT_OFF_INCR <= 2 ^ 31 ->
  size < 2 ^ 31 ->
  let out := main args (initial_world stdin room dev rand) in
  let t := w_trace (snd out) in
  let ws := full_windows_of RKFT_OFF_INCR offset size in
  fst out = Returned 0 /\
  map fields (frames t) =
    (RKFT_CMD_TESTUNITREADY, 0, 0, 0)
    :: map (fun p => (RKFT_CMD_WRITELBA, Int.u32 (fst p), RKFT_OFF_INCR, 0)) ws /\
  sent t = repeat erased_block (List.length ws) /\
  List.length ws = Z.to_nat ((size + 31) / 32) /\
  requested t = [] /\ written t = [] /\ fatals t = [] /\ controls t = [] /\
  dumps t = map dump_of (frames t) /\
  List.length (dumps t) = S (List.length ws) /\
  w_stdin (snd out) = stdin /\ w_dev (snd out) = dev.
Proof.
  intros Hargs Hoff Hend Hsize out t ws.
  destruct (erase_flash_run 0 offset size
              (probed (initial_world stdin room dev rand) 0))
    as (w' & evs & Hrun & Ht & Hin & Hdev & Hf & Hs & Hr & Hwr & Hfa & Hc & Hdu);
    try assumption; [reflexivity |].
  assert (Hcount : List.length (frames evs) = List.length ws).
  { rewrite <- (length_map fields), Hf. apply length_map. }
  assert (Hout : out = (Returned 0, snd (teardown w'))).
  { subst out. rewrite (main_parsed _ _ _ Hargs). unfold run.
    rewrite main_body_probed by reflexivity.
    unfold erase_request.
    cbn [rq_partname rq_action rq_flag rq_offset rq_size].
    unfold bind at 1, ret. cbn [fst snd]. unfold do_action. dispatch.
    now rewrite Hrun. }
  subst t. rewrite Hout. exec. rewrite Ht, Hin, Hdev.
  unfold probed, initial_world in *.
  cbn [w_buf w_ibuf w_stdin w_room w_dev w_rand w_trace app] in *.
  unfold cbw_events.
  rewrite !dumps_app, Hdu.
  rewrite !frames_app, !sent_app, !requested_app, !written_app, !fatals_app,
    !controls_app, !map_app, Hf, Hs, Hr, Hwr, Hfa, Hc.
  cbn [frames sent requested written fatals controls dumps flat_map app map
       List.length].
  rewrite fields_cbw_frame_any, !app_nil_r, !length_map, Hcount.
  split; [reflexivity |]. split.
  { change (Int.u8 0) with 0. f_equal.
    apply map_ext_in. intros [o n] Hp.
    pose proof (full_windows_full (S (Z.to_nat size)) RKFT_OFF_INCR offset size) as Hfull.
    rewrite Forall_forall in Hfull. specialize (Hfull _ Hp).
    cbn [fst snd] in *. now rewrite Hfull. }
  split; [reflexivity |]. split.
  { subst ws. unfold full_windows_of.
    rewrite full_windows_count by (unfold RKFT_OFF_INCR; cbn; lia).
    change RKFT_OFF_INCR with 32. do 2 f_equal. lia. }
  repeat split; try assumption; reflexivity.
Qed.

End Erase.
Section EraseByName.

Context {crc : RkCrc}.







End EraseByName.
(** ** Case ['M']: writing RAM *)

Lemma len_app (a b : list Z) : Buf.len (a ++ b) = Buf.len a + Buf.len b.
Proof. unfold Buf.len. rewrite length_app. lia. Qed.

Lemma len_nonneg (a : list Z) : 0 <= Buf.len a.
Proof. unfold Buf.len. lia. Qed.

Section WriteRam.

Context {crc : RkCrc}.

Lemma write_ram_loop_run (flag : Z) (chunks : list (list Z)) :
  forall (fuel : nat) (offset size : Z) (w : world) (rest : list read_result),
    w_stdin w = map RdData chunks ++ rest ->
    forallb window_chunk chunks = true ->
    next_read rest <= 0 ->
    size < 2 ^ 31 -> (Z.to_nat size < fuel)%nat ->
    - 2 ^ 31 <= offset -> offset + Buf.len (List.concat chunks) < 2 ^ 31 ->
    Buf.len (w_buf w) = RKFT_BLOCKSIZE ->
    let ws := ram_writes offset size chunks in
    let complete := size <=? written_bytes ws in
    exists w' evs,
      write_ram_loop fuel flag offset size w =
        (if complete then Ok tt else Stop GotoExit, w') /\
      w_trace w' =
        w_trace w ++ evs
        ++ (if complete then [] else [EvInfo MsgPrematureEOF]) /\
      map fields (frames evs) =
        map (fun p => (RKFT_CMD_WRITESDRAM, Int.u32 (fst p - SDRAM_BASE_ADDRESS),
                       Buf.len (snd p), Int.u8 flag)) ws /\
      sent evs = map snd ws /\
      fatals evs = [] /\ controls evs = [] /\ requested evs = [] /\
      written evs = [].
Proof.
  induction chunks as [| c chunks IH];
    intros fuel offset size w rest Hin Hchunks Hnext Hmax Hfuel Hoff Hend Hlen
           ws complete; subst complete ws.
  - destruct fuel as [| fuel]; [lia |].
    cbn [ram_writes map List.concat written_bytes]. unfold written_bytes.
    cbn [map List.concat]. change (Buf.len []) with 0.
    cbn [write_ram_loop map app] in *.
    destruct (Z.gtb_spec size 0) as [Hpos | Hnpos].
    + destruct (Z.leb_spec size 0) as [? | _]; [lia |].
      exec. unfold next_read in Hnext.
      destruct (sys_read RKFT_BLOCKSIZE rest) as [[n d] s'] eqn:Eread.
      cbn [fst] in Hnext.
      erewrite read_stdin_buf_eq by (rewrite Hin; exact Eread).
      destruct (Z.leb_spec n 0) as [_ | ?]; [| lia].
      exec. eexists. exists []. split; [reflexivity |].
      cbn [w_trace app]. repeat split; reflexivity.
    + destruct (Z.leb_spec size 0) as [_ | ?]; [| lia].
      exists w, []. rewrite !app_nil_r. repeat split; reflexivity.
  - destruct fuel as [| fuel]; [lia |].
    cbn [forallb] in Hchunks. apply andb_true_iff in Hchunks.
    destruct Hchunks as [Hc Hchunks].
    cbn [map app List.concat] in *. rewrite len_app in Hend.
    assert (Hcl : 0 < Buf.len c <= RKFT_BLOCKSIZE).
    { unfold window_chunk in Hc. apply andb_true_iff in Hc. lia. }
    pose proof (len_nonneg (List.concat chunks)) as Hcat.
    cbn [write_ram_loop ram_writes].
    destruct (Z.gtb_spec size 0) as [Hpos | Hnpos].
    2:{ unfold written_bytes. cbn [map List.concat]. change (Buf.len []) with 0.
        destruct (Z.leb_spec size 0) as [_ | ?]; [| lia].
        exists w, []. rewrite !app_nil_r. repeat split; reflexivity. }
    exec.
    erewrite read_stdin_buf_eq
      by (rewrite Hin; apply sys_read_chunk; exact Hc).
    destruct (Z.leb_spec (Buf.len c) 0) as [? | _]; [lia |].
    exec. unfold send_buf. exec.
    assert (Hov : Buf.len (Buf.write (w_buf w) 0 c) = RKFT_BLOCKSIZE)
      by (apply overlay_length; assumption).
    assert (Hins : Buf.inside (Buf.write (w_buf w) 0 c) 0 (Buf.len c) = true).
    { unfold Buf.inside. rewrite Hov. apply andb_true_iff. split; [| lia].
      apply andb_true_iff. split; lia. }
    rewrite Hins. exec.
    rewrite (read_write_0_n (w_buf w) c)
      by (unfold Buf.len in *; lia).
    rewrite (s32_small (offset + Buf.len c)),
      (s32_small (size - Buf.len c)) by (unfold RKFT_BLOCKSIZE in *; lia).
    match goal with
    | |- context [write_ram_loop fuel flag _ _ ?w1] =>
        destruct (IH fuel (offset + Buf.len c) (size - Buf.len c) w1 rest)
          as (w' & evs & Hrun & Ht & Hf & Hs & Hfa & Hco & Hr & Hwr);
          try assumption; try reflexivity; try lia
    end.
    unfold written_bytes in *. cbn [map List.concat snd]. rewrite len_app.
    replace (size <=? Buf.len c + Buf.len (List.concat (map snd
               (ram_writes (offset + Buf.len c) (size - Buf.len c) chunks))))
      with (size - Buf.len c <=? Buf.len (List.concat (map snd
               (ram_writes (offset + Buf.len c) (size - Buf.len c) chunks)))).
    2:{ destruct (Z.leb_spec (size - Buf.len c)
                    (Buf.len (List.concat (map snd
                       (ram_writes (offset + Buf.len c) (size - Buf.len c) chunks)))));
        symmetry; [apply Z.leb_le | apply Z.leb_gt]; lia. }
    exists w'. eexists ([_; _; _; _; _] ++ evs).
    rewrite Hrun, Ht. cbn [w_trace]. split; [reflexivity |].
    split; [rewrite <- !app_assoc; reflexivity |].
    rewrite !frames_app, !sent_app, !fatals_app, !controls_app, !requested_app,
      !written_app, !map_app, Hf, Hs, Hfa, Hco, Hr, Hwr.
    cbn [frames sent requested written fatals controls flat_map app map fst snd].
    rewrite fields_cbw_frame_any.
    rewrite (u16_small (Buf.len c)) by (unfold RKFT_BLOCKSIZE in *; lia).
    repeat split; reflexivity.
Qed.

(** X6.  Writing RAM ([M offset size]) on an input whose reads deliver
    the given chunks (each non-empty and at most a block) and then
    nothing.  While the count is positive the loop reads up to a block,
    whatever is left of the count, and writes exactly the bytes of that
    read: the frame carries the running offset less the RAM base
    address and the number of bytes read as its length, and the payload
    is the chunk itself, not a full block.  So the last write may go
    beyond the count.  When the count is used up the run reports that
    it is done; when the input ends first it reports the premature end;
    either way the cleanup runs and the run returns 0. *)
Theorem ram_write_sends_each_read (args : list (list Z)) (offset size : Z)
    (chunks : list (list Z)) (rest : list read_result)
    (room : option Z) (dev : list (list Z)) (rand : list Z) :
  parse_args args = Some (ram_write_request offset size) ->
  forallb window_chunk chunks = true ->
  next_read rest <= 0 ->
  size < 2 ^ 31 ->
  - 2 ^ 31 <= offset -> offset + Buf.len (List.concat chunks) < 2 ^ 31 ->
  let out := main args (initial_world (map RdData chunks ++ rest) room dev rand) in
  let t := w_trace (snd out) in
  let ws := ram_writes offset size chunks in
  fst out = Returned 0 /\
  map fields (frames t) =
    (RKFT_CMD_TESTUNITREADY, 0, 0, 0)
    :: map (fun p => (RKFT_CMD_WRITESDRAM, Int.u32 (fst p - SDRAM_BASE_ADDRESS),
                      Buf.len (snd p), 0)) ws /\
  sent t = map snd ws /\
  (exists pre,
     t = pre ++ [EvInfo (if size <=? written_bytes ws
                         then MsgDone else MsgPrematureEOF);
                 EvRelease; EvClose; EvLibusbExit]) /\
  written t = [] /\ fatals t = [] /\ requested t = [] /\ controls t = [].
Proof.
  intros Hargs Hchunks Hnext Hmax Hoff Hend out t ws.
  destruct (write_ram_loop_run 0 chunks (S (Z.to_nat size)) offset size
              (probed (initial_world (map RdData chunks ++ rest) room dev rand) 0)
              rest)
    as (w' & evs & Hrun & Ht & Hf & Hs & Hfa & Hco & Hr & Hwr);
    try reflexivity; try assumption; try lia.
  fold ws in Hrun, Ht, Hf, Hs.
  set (closing := if size <=? written_bytes ws
                  then MsgDone else MsgPrematureEOF).
  assert (Hout : exists w'',
    out = (Returned 0, snd (teardown w'')) /\
    w_trace w'' = w_trace w' ++
      (if size <=? written_bytes ws then [EvInfo MsgDone] else [])).
  { subst out. rewrite (main_parsed _ _ _ Hargs). unfold run.
    rewrite main_body_probed by reflexivity.
    unfold ram_write_request.
    cbn [rq_partname rq_action rq_flag rq_offset rq_size].
    unfold bind at 1, ret. cbn [fst snd]. unfold do_action. dispatch.
    unfold write_ram. unfold bind at 1. rewrite Hrun.
    destruct (size <=? written_bytes ws).
    - exists (snd (info MsgDone w')). split; reflexivity.
    - exists w'. split; [reflexivity | now rewrite app_nil_r]. }
  destruct Hout as (w'' & Hout & Ht'').
  subst t closing. rewrite Hout. exec. rewrite Ht'', Ht.
  unfold probed, initial_world.
  cbn [w_buf w_ibuf w_stdin w_room w_dev w_rand w_trace app].
  unfold cbw_events.
  split; [reflexivity |].
  destruct (size <=? written_bytes ws);
    rewrite !frames_app, !sent_app, !written_app, !fatals_app, !requested_app,
      !controls_app, !map_app, Hf, Hs, Hfa, Hco, Hr, Hwr;
    cbn [frames sent requested written fatals controls flat_map app map];
    rewrite fields_cbw_frame_any, ?app_nil_r;
    (split; [reflexivity |]); (split; [reflexivity |]);
    (split; [eexists ([_; _; _; _] ++ evs); rewrite <- !app_assoc; reflexivity |]);
    repeat split; reflexivity.
Qed.

End WriteRam.
(** ** Case ['w'] on an input that lasts *)

Lemma firstn_add (a b : nat) (d : list Z) :
  firstn (a + b) d = firstn a d ++ firstn b (skipn a d).
Proof.
  revert d. induction a as [| a IH]; intros d; [reflexivity |].
  destruct d as [| x d]; cbn [Nat.add firstn skipn app].
  - now rewrite firstn_nil.
  - now rewrite IH.
Qed.

Lemma concat_slices (k n : nat) (d : list Z) :
  List.concat (slices k n d) = firstn (k * n) d.
Proof.
  revert d. induction k as [| k IH]; intros d; [reflexivity |].
  cbn [slices List.concat Nat.mul]. now rewrite IH, firstn_add.
Qed.

Section WriteFlashFile.

Context {crc : RkCrc}.

Lemma write_flash_loop_file (flag : Z) :
  forall (fuel : nat) (offset size : Z) (w : world) (d : list Z)
         (rest : list read_result),
    let ws := full_windows fuel RKFT_OFF_INCR offset size in
    (ws <> [] -> w_stdin w = RdData d :: rest) ->
    RKFT_BLOCKSIZE * Z.of_nat (List.length ws) <= Buf.len d ->
    (Z.to_nat size < fuel)%nat ->
    - 2 ^ 31 <= offset -> offset + size + RKFT_OFF_INCR <= 2 ^ 31 ->
    size < 2 ^ 31 ->
    Buf.len (w_buf w) = RKFT_BLOCKSIZE ->
    exists w' evs,
      write_flash_loop fuel flag offset size w = (Ok tt, w') /\
      w_trace w' = w_trace w ++ evs /\
      map fields (frames evs) =
        map (fun p => (RKFT_CMD_WRITELBA, Int.u32 (fst p), snd p, Int.u8 flag)) ws /\
      sent evs = slices (List.length ws) (Z.to_nat RKFT_BLOCKSIZE) d /\
      fatals evs = [] /\ controls evs = [] /\ requested evs = [] /\
      written evs = [] /\ dumps evs = map dump_of (frames evs).
Proof.
  induction fuel as [| fuel IH];
    intros offset size w d rest ws Hin Hd Hfuel Hoff Hend Hsize Hlen; [lia |].
  subst ws. cbn [write_flash_loop full_windows] in *.
  destruct (Z.gtb_spec size 0) as [Hpos | Hnpos].
  2:{ exists w, []. rewrite app_nil_r. repeat split; reflexivity. }
  cbn [List.length] in Hd.
  specialize (Hin ltac:(discriminate)).
  change RKFT_OFF_INCR with 32 in *.
  set (n := Z.to_nat RKFT_BLOCKSIZE) in *.
  assert (Hn : Z.of_nat n = RKFT_BLOCKSIZE) by reflexivity.
  assert (Hdn : (n <= List.length d)%nat)
    by (unfold Buf.len in Hd; unfold RKFT_BLOCKSIZE in *; lia).
  (* the read *)
  assert (Hread : exists s',
    sys_read RKFT_BLOCKSIZE (RdData d :: rest)
    = (RKFT_BLOCKSIZE, firstn n d, s') /\
    (full_windows fuel 32 (offset + 32) (size - 32) <> [] ->
     s' = RdData (skipn n d) :: rest)).
  { unfold sys_read.
    destruct (Z.leb_spec (Buf.len d) RKFT_BLOCKSIZE) as [Hle | Hgt].
    - assert (Hall : List.length d = n) by (unfold Buf.len in Hle; lia).
      exists rest. split.
      + unfold Buf.len. rewrite Hall, firstn_all2 by lia. now rewrite Hn.
      + intros Hne. exfalso.
        destruct (full_windows fuel 32 (offset + 32) (size - 32)); [congruence |].
        cbn [List.length] in Hd. unfold Buf.len in Hd.
        unfold RKFT_BLOCKSIZE in *. lia.
    - eexists. split; reflexivity. }
  destruct Hread as (s' & Hread & Hs').
  exec. erewrite read_stdin_buf_eq by (rewrite Hin; exact Hread).
  change (RKFT_BLOCKSIZE <=? 0) with false. exec.
  assert (Hb1 : Buf.write (w_buf w) 0 (firstn n d) = firstn n d).
  { apply write_whole. rewrite length_firstn. unfold Buf.len in Hlen. lia. }
  rewrite Hb1.
  assert (Hl1 : Buf.len (firstn n d) = RKFT_BLOCKSIZE).
  { unfold Buf.len. rewrite length_firstn. lia. }
  rewrite send_buf_block by exact Hl1. exec.
  rewrite (s32_small (offset + 32)), (s32_small (size - 32)) by lia.
  match goal with
  | |- context [write_flash_loop fuel flag _ _ ?w1] =>
      destruct (IH (offset + 32) (size - 32) w1 (skipn n d) rest)
        as (w' & evs & Hrun & Ht & Hf & Hs & Hfa & Hco & Hr & Hwr & Hdu);
        try assumption; try lia
  end.
  { unfold Buf.len in *. rewrite length_skipn.
    change RKFT_OFF_INCR with 32. lia. }
  change RKFT_OFF_INCR with 32 in *.
  exists w'. eexists ([_; _; _; _; _] ++ evs).
  rewrite Hrun, Ht. cbn [w_trace]. split; [reflexivity |].
  split; [rewrite <- !app_assoc; reflexivity |].
  rewrite !dumps_app, Hdu.
  rewrite !frames_app, !sent_app, !fatals_app, !controls_app, !requested_app,
    !written_app, !map_app, Hf, Hs, Hfa, Hco, Hr, Hwr.
  cbn [frames sent requested written fatals controls dumps flat_map app map
       fst snd List.length slices].
  rewrite fields_cbw_frame_any.
  repeat split; reflexivity.
Qed.

(** X7.  Writing flash ([w offset size]) from a file that holds at
    least one block for every window.  After the readiness probe the
    run sends one [WRITELBA] frame of 32 sectors for each of the
    windows (the count divided by 32, rounded up), and the payloads are
    the consecutive 16384-byte slices of the file: together they are
    the first windows times 16384 bytes of the input, unchanged.  The
    run reports that it is done, makes the cleanup and returns 0; there
    is no fatal message.  [write] is not called; what standard output
    receives is the text that [send_cbw] prints, one dump for each
    frame of the run. *)
Theorem flash_write_sends_the_input (args : list (list Z)) (offset size : Z)
    (input : list Z) (room : option Z) (dev : list (list Z)) (rand : list Z) :
  parse_args args = Some (write_request offset size) ->
  - 2 ^ 31 <= offset -> offset + size + RKFT_OFF_INCR <= 2 ^ 31 ->
  size < 2 ^ 31 ->
  let ws := full_windows_of RKFT_OFF_INCR offset size in
  RKFT_BLOCKSIZE * Z.of_nat (List.length ws) <= Buf.len input ->
  let out := main args (initial_world (file_stdin input) room dev rand) in
  let t := w_trace (snd out) in
  fst out = Returned 0 /\
  map fields (frames t) =
    (RKFT_CMD_TESTUNITREADY, 0, 0, 0)
    :: map (fun p => (RKFT_CMD_WRITELBA, Int.u32 (fst p), RKFT_OFF_INCR, 0)) ws /\
  List.length ws = Z.to_nat ((size + 31) / 32) /\
  sent t = slices (List.length ws) (Z.to_nat RKFT_BLOCKSIZE) input /\
  List.concat (sent t)
    = firstn (List.length ws * Z.to_nat RKFT_BLOCKSIZE) input /\
  (exists pre, t = pre ++ [EvInfo MsgDone; EvRelease; EvClose; EvLibusbExit]) /\
  fatals t = [] /\ written t = [] /\ requested t = [] /\ controls t = [] /\
  dumps t = map dump_of (frames t).
Proof.
  intros Hargs Hoff Hend Hsize ws Hinput out t.
  destruct (write_flash_loop_file 0 (S (Z.to_nat size)) offset size
              (probed (initial_world (file_stdin input) room dev rand) 0)
              input [])
    as (w' & evs & Hrun & Ht & Hf & Hs & Hfa & Hco & Hr & Hwr & Hdu);
    try reflexivity; try assumption; try lia.
  fold (full_windows_of RKFT_OFF_INCR offset size) in Hf, Hs. fold ws in Hf, Hs.
  assert (Hout : out = (Returned 0, snd (teardown (snd (info MsgDone w'))))).
  { subst out. rewrite (main_parsed _ _ _ Hargs). unfold run.
    rewrite main_body_write. unfold write_flash.
    unfold bind at 1. now rewrite Hrun. }
  subst t. rewrite Hout. exec. rewrite Ht.
  unfold probed, initial_world.
  cbn [w_buf w_ibuf w_stdin w_room w_dev w_rand w_trace app].
  unfold cbw_events.
  rewrite !dumps_app, Hdu.
  rewrite !frames_app, !sent_app, !written_app, !fatals_app, !requested_app,
    !controls_app, !map_app, Hf, Hs, Hfa, Hco, Hr, Hwr.
  cbn [frames sent requested written fatals controls dumps flat_map app map].
  rewrite fields_cbw_frame_any, ?app_nil_r.
  split; [reflexivity |]. split.
  { change (Int.u8 0) with 0. f_equal.
    apply map_ext_in. intros [o n] Hp.
    pose proof (full_windows_full (S (Z.to_nat size)) RKFT_OFF_INCR offset size)
      as Hfull.
    rewrite Forall_forall in Hfull. specialize (Hfull _ Hp).
    cbn [fst snd] in *. now rewrite Hfull. }
  split.
  { subst ws. unfold full_windows_of.
    rewrite full_windows_count by (unfold RKFT_OFF_INCR; cbn; lia).
    change RKFT_OFF_INCR with 32. do 2 f_equal. lia. }
  split; [reflexivity |]. split; [apply concat_slices |]. split.
  { eexists ([_; _; _; _] ++ evs). rewrite <- !app_assoc. reflexivity. }
  repeat split; reflexivity.
Qed.

End WriteFlashFile.
(** ** Case ['i']: reading ID blocks *)

Lemma len_zeros_nat (n : nat) : List.length (Buf.zeros n) = n.
Proof. apply repeat_length. Qed.

Section ReadIdb.

Context {crc : RkCrc}.

Lemma main_body_idb_read (offset size : Z) (w : world) :
  main_body (idb_read_request offset size) w =
  read_idb 0 offset size (probed w 0).
Proof.
  rewrite main_body_probed by reflexivity.
  unfold idb_read_request.
  cbn [rq_partname rq_action rq_flag rq_offset rq_size].
  unfold bind, ret. cbn [fst snd]. unfold do_action. dispatch. reflexivity.
Qed.

(** X8.  Reading ID blocks ([i offset size]).  A window is at most
    [RKFT_IDB_INCR] = 32 units of [RKFT_IDB_BLOCKSIZE] = 528 bytes, which
    is 16896 bytes, more than the 16384 bytes of [buf].  For a count of
    1 to 31 units the run makes one exchange: a [READSECTOR] frame with
    the offset and the count, a read of count times 528 bytes into
    [buf], and one call of [write] with that many bytes from the start
    of [buf]; it returns 0, and standard output also receives the dump
    of the two frames.  For a count of 32 or more the first window asks
    the device for 16896 bytes into [buf] and hands [write] 16896 bytes
    from [buf], 512 more than [buf] holds: the run makes an access
    outside [buf], after the frame and the request for 16896 bytes. *)
Theorem idb_read_window_exceeds_buffer (args : list (list Z)) (offset size : Z)
    (stdin : list read_result) (room : option Z) (dev : list (list Z))
    (rand : list Z) :
  parse_args args = Some (idb_read_request offset size) ->
  0 < size < 2 ^ 31 -> - 2 ^ 31 <= offset -> offset + size < 2 ^ 31 ->
  let out := main args (initial_world stdin room dev rand) in
  let t := w_trace (snd out) in
  RKFT_IDB_BLOCKSIZE * RKFT_IDB_INCR = RKFT_BLOCKSIZE + 512 /\
  (size <= 31 -> room = None ->
   fst out = Returned 0 /\
   map fields (frames t) =
     [(RKFT_CMD_TESTUNITREADY, 0, 0, 0);
      (RKFT_CMD_READSECTOR, Int.u32 offset, size, 0)] /\
   requested t = [RKFT_IDB_BLOCKSIZE * size] /\
   map Buf.len (written t) = [RKFT_IDB_BLOCKSIZE * size] /\
   written t =
     forwarded (Buf.zeros (Z.to_nat RKFT_BLOCKSIZE)) dev
               [RKFT_IDB_BLOCKSIZE * size] /\
   dumps t = map dump_of (frames t) /\
   fatals t = []) /\
  (32 <= size ->
   exists pre,
     undefined_after pre out /\
     map fields (frames pre) =
       [(RKFT_CMD_TESTUNITREADY, 0, 0, 0);
        (RKFT_CMD_READSECTOR, Int.u32 offset, RKFT_IDB_INCR, 0)] /\
     requested pre = [RKFT_IDB_BLOCKSIZE * RKFT_IDB_INCR]).
Proof.
  intros Hargs Hsize Hoff Hend out t.
  split; [reflexivity |].
  assert (Hmain : out = run (read_idb 0 offset size)
                          (probed (initial_world stdin room dev rand) 0)).
  { subst out. rewrite (main_parsed _ _ _ Hargs). unfold run.
    now rewrite main_body_idb_read. }
  split.
  - (* one window that fits *)
    intros Hfit ->.
    set (w0 := probed (initial_world stdin None dev rand) 0) in *.
    destruct (read_pass RKFT_CMD_READSECTOR offset size 0
                (RKFT_IDB_BLOCKSIZE * size) (MsgReadingIDB offset) w0 eq_refl)
      as (w1 & Hpass & Hroom1 & Hlen1 & Hb1 & Hd1 & evs1 & Ht1 & Hf1 & Hr1 & Hwr1
          & Hfa1 & Hs1 & Hc1 & Hdu1).
    { change (Buf.len (w_buf w0)) with RKFT_BLOCKSIZE.
      unfold RKFT_IDB_BLOCKSIZE, RKFT_BLOCKSIZE. lia. }
    assert (Hout : out = (Returned 0, snd (teardown (snd (info MsgDone w1))))).
    { rewrite Hmain. unfold run, read_idb. unfold bind at 1.
      cbn [read_idb_loop].
      destruct (Z.gtb_spec size 0) as [_ | ?]; [| lia].
      destruct (Z.gtb_spec size RKFT_IDB_INCR) as [H | _];
        [unfold RKFT_IDB_INCR in H; lia |].
      cbv zeta. rewrite Hpass.
      destruct (Z.leb_spec (RKFT_IDB_BLOCKSIZE * size) 0) as [H | _];
        [unfold RKFT_IDB_BLOCKSIZE in H; lia |].
      replace (size - size) with 0 by lia. change (Int.s32 0) with 0.
      destruct (Z.to_nat size) as [| n] eqn:En; [lia |].
      cbn [read_idb_loop]. change (0 >? 0) with false. reflexivity. }
    subst t. rewrite Hout. exec. rewrite Ht1.
    subst w0. unfold probed, initial_world.
    cbn [w_buf w_ibuf w_stdin w_room w_dev w_rand w_trace app].
    unfold cbw_events.
    rewrite !dumps_app, Hdu1.
    rewrite !frames_app, !written_app, !fatals_app, !requested_app, !map_app,
      Hc1, Hf1, Hr1, Hfa1.
    rewrite Hc1 in Hwr1. rewrite Hwr1.
    cbn [frames requested written fatals dumps flat_map app map].
    rewrite !fields_cbw_frame_any.
    rewrite (u16_small size) by lia.
    repeat split; reflexivity.
  - (* the first window does not fit *)
    intros Hbig.
    assert (Hwin : (if size >? RKFT_IDB_INCR then RKFT_IDB_INCR else size)
                   = RKFT_IDB_INCR).
    { destruct (Z.gtb_spec size RKFT_IDB_INCR) as [_ | H]; [reflexivity |].
      unfold RKFT_IDB_INCR in *. lia. }
    unfold undefined_after.
    rewrite Hmain. unfold run, read_idb. unfold bind at 1.
    cbn [read_idb_loop].
    destruct (Z.gtb_spec size 0) as [_ | ?]; [| lia].
    cbv zeta. rewrite Hwin.
    unfold recv_buf, write_stdout. exec.
    unfold probed, initial_world.
    cbn [w_buf w_ibuf w_stdin w_room w_dev w_rand w_trace app].
    unfold cbw_events.
    match goal with
    | |- context [Buf.len ?d <=? Buf.len ?b] =>
        destruct (Z.leb_spec (Buf.len d) (Buf.len b)) as [Hle | Hgt]
    end.
    + exec.
      match goal with
      | |- context [Buf.inside ?b 0 ?n] =>
          assert (Hin : Buf.inside b 0 n = false)
      end.
      { unfold Buf.inside. apply andb_false_iff. right. apply Z.leb_gt.
        rewrite len_zeros in Hle.
        unfold Buf.len in *. rewrite write_length by (rewrite len_zeros_nat; lia).
        rewrite len_zeros_nat. reflexivity. }
      rewrite Hin. cbn [negb]. exec.
      eexists. split; [split; reflexivity |].
      rewrite ?frames_app, ?requested_app.
      cbn [frames requested flat_map app map].
      rewrite !fields_cbw_frame_any.
      split; reflexivity.
    + exec.
      eexists. split; [split; reflexivity |].
      rewrite ?frames_app, ?requested_app.
      cbn [frames requested flat_map app map].
      rewrite !fields_cbw_frame_any.
      split; reflexivity.
Qed.

End ReadIdb.
(** Straight-line runs on a world that is written out. *)
Ltac exec_all :=
  cbv beta iota zeta delta
      [bind ret halt emit get_buf get_ibuf set_buf set_ibuf info fatal goto_exit
       random send_cbw send_exec recv_csw teardown run
       w_buf w_ibuf w_stdin w_room w_dev w_rand w_trace fst snd
       probed initial_world];
  cbn [hd tl app].

(** ** Cases ['B'] and ['b']: start a kernel, reboot *)

Section ExecAndReboot.

Context {crc : RkCrc}.

(** X9.  Starting a kernel ([B krnl_addr parm_addr]).  After the
    readiness probe the run sends one frame built by [send_exec] and
    reads its status; it sends no payload, makes no call of [write]
    (standard output gets only the dumps that [send_cbw] prints, and
    [send_exec] prints none) and returns 0.  The frame is 31 bytes: the signature "USBC",
    the tag, the opcode [EXECUTESDRAM] big-endian at byte 12, the
    kernel address less the RAM base address big-endian at bytes 17 to
    20 (where [send_cbw] has the offset) and the parameter address less
    the RAM base address big-endian at bytes 22 to 25 (four bytes,
    where [send_cbw] has its two-byte length); both differences are
    taken modulo 2^32, and byte 16, the mode flag, stays zero. *)
Theorem exec_frame_carries_both_addresses
    (args : list (list Z)) (krnl_addr parm_addr : Z)
    (stdin : list read_result) (room : option Z) (dev : list (list Z))
    (rand : list Z) :
  parse_args args = Some (exec_request krnl_addr parm_addr) ->
  let out := main args (initial_world stdin room dev rand) in
  let t := w_trace (snd out) in
  let f := exec_frame (krnl_addr - SDRAM_BASE_ADDRESS)
                      (parm_addr - SDRAM_BASE_ADDRESS) (hd 0 (tl rand)) in
  fst out = Returned 0 /\
  frames t = [cbw_frame RKFT_CMD_TESTUNITREADY 0 0 0 (hd 0 rand); f] /\
  status_reads t = 2%nat /\
  sent t = [] /\ requested t = [] /\ written t = [] /\ fatals t = [] /\
  List.length f = 31%nat /\
  Frame.signature f = USBC /\
  Frame.opcode f = RKFT_CMD_EXECUTESDRAM /\
  GETBE32 f 17 = Int.u32 (krnl_addr - SDRAM_BASE_ADDRESS) /\
  GETBE32 f 22 = Int.u32 (parm_addr - SDRAM_BASE_ADDRESS) /\
  Frame.modeFlag f = 0 /\ Buf.get f 21 = 0 /\
  Buf.read f 26 5 = [0; 0; 0; 0; 0].
Proof.
  intros Hargs out t.
  assert (Hout : fst out = Returned 0 /\
    t = cbw_events RKFT_CMD_TESTUNITREADY 0 0 0 (hd 0 rand)
        ++ [EvRecvCsw; EvUsleep (20 * 1000); EvInfo MsgBooting;
            EvCbw (exec_frame (krnl_addr - SDRAM_BASE_ADDRESS)
                              (parm_addr - SDRAM_BASE_ADDRESS) (hd 0 (tl rand)));
            EvRecvCsw; EvRelease; EvClose; EvLibusbExit]).
  { subst t out. rewrite (main_parsed _ _ _ Hargs). unfold run.
    rewrite main_body_probed by reflexivity.
    unfold exec_request.
    cbn [rq_partname rq_action rq_flag rq_offset rq_size].
    unfold bind at 1, ret. cbn [fst snd]. unfold do_action. dispatch.
    unfold exec_ram, cbw_events. exec_all. split; reflexivity. }
  destruct Hout as [Hfst Ht]. clearbody t out. subst t.
  intros f. split; [exact Hfst |].
  unfold cbw_events.
  split; [reflexivity |]. split; [reflexivity |].
  do 4 (split; [reflexivity |]).
  subst f.
  assert (Hk := u32_range (krnl_addr - SDRAM_BASE_ADDRESS)).
  assert (Hp := u32_range (parm_addr - SDRAM_BASE_ADDRESS)).
  rewrite exec_frame_truncates, exec_frame_bytes by assumption.
  unfold Frame.signature, Frame.opcode, Frame.modeFlag, GETBE32, Buf.get, Buf.read.
  cbn [nth Nat.add firstn skipn List.length].
  rewrite !be32_join by assumption.
  repeat split; reflexivity.
Qed.

(** X10.  Rebooting with a mode flag ([b flag]).  For every text given
    as the flag, the first switch keeps the low eight bits of the
    number it reads, and the run sends two frames, the readiness probe
    and [RESETDEVICE]; both carry the flag at byte 16 and neither has
    an offset or a length.  Each status is read, nothing else is sent
    or received, and the run returns 0.  Without the argument the flag
    is 0. *)
Theorem reboot_carries_the_flag (text : list Z)
    (stdin : list read_result) (room : option Z) (dev : list (list Z))
    (rand : list Z) :
  let flag := Int.u8 (CStr.strtoul text) in
  let w := initial_world stdin room dev rand in
  let out := main [Buf.of_string "b"; text] w in
  let t := w_trace (snd out) in
  fst out = Returned 0 /\
  map fields (frames t) =
    [(RKFT_CMD_TESTUNITREADY, 0, 0, flag); (RKFT_CMD_RESETDEVICE, 0, 0, flag)] /\
  status_reads t = 2%nat /\
  sent t = [] /\ requested t = [] /\ written t = [] /\ fatals t = [] /\
  map fields (frames (w_trace (snd (main [Buf.of_string "b"] w)))) =
    [(RKFT_CMD_TESTUNITREADY, 0, 0, 0); (RKFT_CMD_RESETDEVICE, 0, 0, 0)].
Proof.
  intros flag. assert (Hf : 0 <= flag < 2 ^ 8) by (apply Z.mod_pos_bound; lia).
  assert (Hflag : flag = Int.u8 (CStr.strtoul text)) by reflexivity.
  clearbody flag. intros w out t.
  assert (Hrun : forall fl,
    w_trace (snd (run (reboot_device fl) (probed w fl)))
    = cbw_events RKFT_CMD_TESTUNITREADY 0 0 fl (hd 0 rand)
      ++ [EvRecvCsw; EvUsleep (20 * 1000); EvInfo MsgRebooting]
      ++ cbw_events RKFT_CMD_RESETDEVICE 0 0 fl (hd 0 (tl rand))
      ++ [EvRecvCsw; EvRelease; EvClose; EvLibusbExit] /\
    fst (run (reboot_device fl) (probed w fl)) = Returned 0).
  { intros fl. subst w. unfold reboot_device, cbw_events. exec_all.
    split; reflexivity. }
  assert (Hout : out = run (reboot_device flag) (probed w flag)).
  { subst out.
    rewrite (main_parsed _ (mkRequest (Buf.ch "b") None 0 0 flag))
      by (rewrite Hflag; reflexivity).
    unfold run. rewrite main_body_probed by reflexivity.
    cbn [rq_partname rq_action rq_flag rq_offset rq_size].
    unfold bind at 1, ret. cbn [fst snd]. unfold do_action. dispatch.
    reflexivity. }
  assert (Hout0 : main [Buf.of_string "b"] w = run (reboot_device 0) (probed w 0)).
  { rewrite (main_parsed _ (mkRequest (Buf.ch "b") None 0 0 0)) by reflexivity.
    unfold run. rewrite main_body_probed by reflexivity.
    cbn [rq_partname rq_action rq_flag rq_offset rq_size].
    unfold bind at 1, ret. cbn [fst snd]. unfold do_action. dispatch.
    reflexivity. }
  subst t. rewrite Hout0, Hout.
  destruct (Hrun flag) as [Ht Hfst]. destruct (Hrun 0) as [Ht0 _].
  rewrite Ht, Ht0, Hfst. unfold cbw_events.
  cbn [frames sent requested written fatals flat_map app map].
  rewrite !fields_cbw_frame_any. rewrite (u8_small flag) by assumption.
  repeat split; reflexivity.
Qed.

End ExecAndReboot.
(** ** Cases ['v'] and ['n']: chip version and NAND information *)

Lemma version_bytes (b : list Z) :
  (16 <= List.length b)%nat ->
  map (Buf.get b) [3; 2; 1; 0; 7; 6; 5; 4; 11; 10; 9; 8; 15; 14; 13; 12]%nat
  = chip_version_text (firstn 16 b).
Proof.
  intros H.
  do 16 (destruct b as [| ? b]; [cbn [List.length] in H; lia |]).
  reflexivity.
Qed.

(** What the start of [buf] holds after an answer of at most 16 bytes
    was received into the zero buffer. *)
Lemma answer_prefix (blk : list Z) :
  firstn 16 (Buf.write (Buf.zeros (Z.to_nat RKFT_BLOCKSIZE)) 0 (firstn 16 blk))
  = firstn 16 (blk ++ Buf.zeros 16).
Proof.
  do 16 (destruct blk as [| ? blk]; [vm_compute; reflexivity |]).
  vm_compute. reflexivity.
Qed.

Lemma id_prefix (blk : list Z) :
  firstn 5 (Buf.write (Buf.zeros (Z.to_nat RKFT_BLOCKSIZE)) 0 (firstn 5 blk))
  = firstn 5 (blk ++ Buf.zeros 5).
Proof.
  do 5 (destruct blk as [| ? blk]; [vm_compute; reflexivity |]).
  vm_compute. reflexivity.
Qed.

Lemma read_received (b d : list Z) (n : nat) :
  (n <= List.length d)%nat -> Buf.read (Buf.write b 0 d) 0 n = firstn n d.
Proof.
  intros H. unfold Buf.read, Buf.write. cbn [skipn firstn app Nat.add].
  rewrite firstn_app. replace (n - List.length d)%nat with 0%nat by lia.
  cbn [firstn]. apply app_nil_r.
Qed.

Lemma nand_of_prefix (info : list Z) :
  nand_of_buf (firstn 11 info) = nand_of_buf info.
Proof.
  unfold nand_of_buf, load_u32, Buf.get. cbn [Nat.add].
  now rewrite !nth_firstn.
Qed.

Lemma land_pow2_testbit (a k : Z) :
  0 <= k -> (Z.land a (2 ^ k) =? 0) = negb (Z.testbit a k).
Proof.
  intros Hk.
  destruct (Z.testbit a k) eqn:E; cbn [negb].
  - apply Z.eqb_neq. intros H.
    assert (H0 : Z.testbit (Z.land a (2 ^ k)) k = true).
    { rewrite Z.land_spec, E, Z.pow2_bits_true by lia. reflexivity. }
    rewrite H, Z.bits_0 in H0. discriminate.
  - apply Z.eqb_eq. apply Z.bits_inj'. intros n Hn.
    rewrite Z.land_spec, Z.bits_0.
    destruct (Z.eq_dec n k) as [-> | Hne].
    + now rewrite E.
    + rewrite Z.pow2_bits_false by lia. apply andb_false_r.
Qed.

Section VersionAndNand.

Context {crc : RkCrc}.

(** X11.  Reading the chip version ([v]).  After the readiness probe
    the run sends [READCHIPINFO], asks for 16 bytes and reads the
    status.  The message holds sixteen characters: the four groups of
    four bytes of the answer, each group last byte first.  When the
    device answers with fewer than 16 bytes the missing ones are what
    [buf] held, zero bytes in a fresh process.  The run returns 0.
    [write] is not called; what standard output receives is the text
    that [send_cbw] prints for the two frames, 117 bytes. *)
Theorem chip_version_reverses_each_group (blk : list Z)
    (stdin : list read_result) (room : option Z) (dev : list (list Z))
    (rand : list Z) :
  let out := main [Buf.of_string "v"]
                  (initial_world stdin room (blk :: dev) rand) in
  let t := w_trace (snd out) in
  let answer := firstn 16 (blk ++ Buf.zeros 16) in
  fst out = Returned 0 /\
  map fields (frames t) =
    [(RKFT_CMD_TESTUNITREADY, 0, 0, 0); (RKFT_CMD_READCHIPINFO, 0, 0, 0)] /\
  requested t = [16] /\
  (exists pre,
     t = pre ++ [EvInfo (MsgChipVersion (chip_version_text answer));
                 EvRelease; EvClose; EvLibusbExit]) /\
  sent t = [] /\ written t = [] /\ fatals t = [] /\
  dumps t = [(0x80, 0x06, 0, 0); (0x80, 0x06, 0x1b, 0)] /\
  Buf.len (printed t) = 117.
Proof.
  intros out t answer.
  assert (Hout : fst out = Returned 0 /\
    t = cbw_events RKFT_CMD_TESTUNITREADY 0 0 0 (hd 0 rand)
        ++ [EvRecvCsw; EvUsleep (20 * 1000)]
        ++ cbw_events RKFT_CMD_READCHIPINFO 0 0 0 (hd 0 (tl rand))
        ++ [EvRecvBuf 16; EvRecvCsw;
            EvInfo (MsgChipVersion (chip_version_text answer));
            EvRelease; EvClose; EvLibusbExit]).
  { subst t out answer.
    rewrite (main_parsed _ (mkRequest (Buf.ch "v") None 0 1024 0)) by reflexivity.
    unfold run. rewrite main_body_probed by reflexivity.
    cbn [rq_partname rq_action rq_flag rq_offset rq_size].
    unfold bind at 1, ret. cbn [fst snd]. unfold do_action. dispatch.
    unfold read_chip_version, probed, initial_world. exec.
    rewrite recv_buf_fits
      by (cbn [w_buf w_dev hd]; rewrite len_zeros; unfold Buf.len;
          rewrite length_firstn; unfold RKFT_BLOCKSIZE; lia).
    exec. cbn [app]. unfold cbw_events.
    change (Z.to_nat 16) with 16%nat.
    rewrite version_bytes, answer_prefix.
    - split; reflexivity.
    - rewrite write_length; rewrite ?len_zeros_nat, ?length_firstn;
        unfold RKFT_BLOCKSIZE; lia. }
  destruct Hout as [Hfst Ht]. clearbody t out. subst t.
  assert (Hdumps :
    dumps (cbw_events RKFT_CMD_TESTUNITREADY 0 0 0 (hd 0 rand)
           ++ [EvRecvCsw; EvUsleep (20 * 1000)]
           ++ cbw_events RKFT_CMD_READCHIPINFO 0 0 0 (hd 0 (tl rand))
           ++ [EvRecvBuf 16; EvRecvCsw;
               EvInfo (MsgChipVersion (chip_version_text answer));
               EvRelease; EvClose; EvLibusbExit])
    = [(0x80, 0x06, 0, 0); (0x80, 0x06, 0x1b, 0)]).
  { rewrite !dumps_app, !dumps_cbw.
    rewrite !dump_cbw_frame
      by (unfold RKFT_CMD_TESTUNITREADY, RKFT_CMD_READCHIPINFO; cbn; lia).
    reflexivity. }
  unfold printed. rewrite Hdumps.
  split; [exact Hfst |]. unfold cbw_events.
  cbn [frames sent requested written fatals flat_map app map].
  rewrite !fields_cbw_frame_any.
  split; [reflexivity |]. split; [reflexivity |]. split.
  { eexists [_; _; _; _; _; _; _; _]. reflexivity. }
  repeat split; reflexivity.
Qed.

(** X12.  Reading the NAND information ([n]) from a device whose second
    answer holds the eleven bytes of the structure.  After the
    readiness probe the run sends [READFLASHID], asking for 5 bytes,
    and [READFLASHINFO], asking for 512; it reports the five ID bytes
    and the information, makes no call of [write] and returns
    0.  The fields are read at their offsets in the answer: the flash
    size as a little-endian 32-bit number at byte 0, the block size as
    a 16-bit number at byte 4, then page size, ECC bits, access time,
    manufacturer and chip selects, one byte each.  The report gives the
    flash size in megabytes (sectors of 512 bytes, rounded down) and
    block and page size in kilobytes; the manufacturer is the table
    entry of an ID below 9, else "Unknown", so the table is never read
    beyond its end; and the chip selects named are exactly the set
    bits among bits 0 to 3 of the chip-select byte. *)
Theorem nand_info_report (idblk info : list Z)
    (stdin : list read_result) (room : option Z) (dev : list (list Z))
    (rand : list Z) :
  (11 <= List.length info)%nat ->
  let out := main [Buf.of_string "n"]
                  (initial_world stdin room (idblk :: info :: dev) rand) in
  let t := w_trace (snd out) in
  let nand := nand_of_buf info in
  let report := flash_info_args nand in
  fst out = Returned 0 /\
  map fields (frames t) =
    [(RKFT_CMD_TESTUNITREADY, 0, 0, 0); (RKFT_CMD_READFLASHID, 0, 0, 0);
     (RKFT_CMD_READFLASHINFO, 0, 0, 0)] /\
  requested t = [5; 512] /\
  In (EvInfo (MsgFlashID (firstn 5 (idblk ++ Buf.zeros 5)))) t /\
  (exists pre,
     t = pre ++ [EvInfo (MsgFlashInfo (firstn 11 info));
                 EvRelease; EvClose; EvLibusbExit]) /\
  nand_of_buf (firstn 11 info) = nand /\
  sent t = [] /\ written t = [] /\ fatals t = [] /\
  flash_size nand = load_u32 info 0 /\
  fr_flash_mb report * 2 ^ 20 <= flash_size nand * 512
    < (fr_flash_mb report + 1) * 2 ^ 20 /\
  fr_block_kb report * 2 ^ 10 <= block_size nand * 512
    < (fr_block_kb report + 1) * 2 ^ 10 /\
  fr_page_kb report * 2 ^ 10 <= page_size nand * 512
    < (fr_page_kb report + 1) * 2 ^ 10 /\
  (0 <= manufacturer_id nand < MAX_NAND_ID ->
   nth_error manufacturer (Z.to_nat (manufacturer_id nand))
   = Some (fr_manufacturer report)) /\
  (MAX_NAND_ID <= manufacturer_id nand ->
   fr_manufacturer report = "Unknown"%string) /\
  selected report
  = filter (fun i => Z.testbit (chip_select nand) (Z.of_nat i)) [0; 1; 2; 3]%nat.
Proof.
  intros Hinfo out t nand report.
  assert (Hout : fst out = Returned 0 /\
    t = cbw_events RKFT_CMD_TESTUNITREADY 0 0 0 (hd 0 rand)
        ++ [EvRecvCsw; EvUsleep (20 * 1000)]
        ++ cbw_events RKFT_CMD_READFLASHID 0 0 0 (hd 0 (tl rand))
        ++ [EvRecvBuf 5; EvRecvCsw;
            EvInfo (MsgFlashID (firstn 5 (idblk ++ Buf.zeros 5)))]
        ++ cbw_events RKFT_CMD_READFLASHINFO 0 0 0 (hd 0 (tl (tl rand)))
        ++ [EvRecvBuf 512; EvRecvCsw;
            EvInfo (MsgFlashInfo (firstn 11 info));
            EvRelease; EvClose; EvLibusbExit]).
  { subst t out.
    rewrite (main_parsed _ (mkRequest (Buf.ch "n") None 0 1024 0)) by reflexivity.
    unfold run. rewrite main_body_probed by reflexivity.
    cbn [rq_partname rq_action rq_flag rq_offset rq_size].
    unfold bind at 1, ret. cbn [fst snd]. unfold do_action. dispatch.
    unfold read_nand_info, probed, initial_world. exec.
    rewrite recv_buf_fits
      by (cbn [w_buf w_dev hd]; rewrite len_zeros; unfold Buf.len;
          rewrite length_firstn; unfold RKFT_BLOCKSIZE; lia).
    exec.
    assert (Hl1 : List.length (Buf.write (Buf.zeros (Z.to_nat RKFT_BLOCKSIZE)) 0
                                 (firstn (Z.to_nat 5) idblk))
                  = Z.to_nat RKFT_BLOCKSIZE).
    { rewrite write_length; rewrite ?len_zeros_nat, ?length_firstn;
        unfold RKFT_BLOCKSIZE; lia. }
    rewrite recv_buf_fits
      by (cbn [w_buf w_dev hd tl]; unfold Buf.len; rewrite Hl1, length_firstn;
          unfold RKFT_BLOCKSIZE; lia).
    exec. cbn [app]. unfold cbw_events.
    change (Z.to_nat 5) with 5%nat.
    change (Buf.read ?b 0 5) with (firstn 5 b). rewrite id_prefix.
    rewrite read_received by (rewrite length_firstn; lia).
    rewrite firstn_firstn.
    replace (Nat.min 11 (Z.to_nat 512)) with 11%nat by lia.
    rewrite <- !app_assoc. cbn [app]. split; reflexivity. }
  destruct Hout as [Hfst Ht]. clearbody t out. subst t.
  split; [exact Hfst |]. unfold cbw_events.
  cbn [frames sent requested written fatals flat_map app map].
  rewrite !fields_cbw_frame_any.
  split; [reflexivity |]. split; [reflexivity |]. split.
  { cbn [In]. tauto. }
  split.
  { eexists [_; _; _; _; _; _; _; _; _; _; _; _; _]. reflexivity. }
  split; [apply nand_of_prefix |].
  do 4 (split; [reflexivity |]).
  subst report. unfold flash_info_args. cbv zeta.
  cbn [fr_flash_mb fr_block_kb fr_page_kb fr_manufacturer fr_chip_selects].
  rewrite !Z.shiftr_div_pow2 by lia.
  split; [| split; [| split]].
  - change (2 ^ 20) with (512 * 2 ^ 11).
    pose proof (Z.div_mod (flash_size nand) (2 ^ 11) ltac:(lia)).
    pose proof (Z.mod_pos_bound (flash_size nand) (2 ^ 11) ltac:(lia)). lia.
  - change (2 ^ 10) with (512 * 2 ^ 1).
    pose proof (Z.div_mod (block_size nand) (2 ^ 1) ltac:(lia)).
    pose proof (Z.mod_pos_bound (block_size nand) (2 ^ 1) ltac:(lia)). lia.
  - change (2 ^ 10) with (512 * 2 ^ 1).
    pose proof (Z.div_mod (page_size nand) (2 ^ 1) ltac:(lia)).
    pose proof (Z.mod_pos_bound (page_size nand) (2 ^ 1) ltac:(lia)). lia.
  - split; [| split].
    + intros Hid. destruct (Z.ltb_spec (manufacturer_id nand) MAX_NAND_ID); [| lia].
      apply nth_error_nth'. unfold MAX_NAND_ID in Hid. lia.
    + intros Hid. destruct (Z.ltb_spec (manufacturer_id nand) MAX_NAND_ID); [lia |].
      reflexivity.
    + unfold selected.
      assert (H0 : (Z.land (chip_select nand) 1 =? 0)
                   = negb (Z.testbit (chip_select nand) 0))
        by (apply (land_pow2_testbit _ 0); lia).
      assert (H1 : (Z.land (chip_select nand) 2 =? 0)
                   = negb (Z.testbit (chip_select nand) 1))
        by (apply (land_pow2_testbit _ 1); lia).
      assert (H2 : (Z.land (chip_select nand) 4 =? 0)
                   = negb (Z.testbit (chip_select nand) 2))
        by (apply (land_pow2_testbit _ 2); lia).
      assert (H3 : (Z.land (chip_select nand) 8 =? 0)
                   = negb (Z.testbit (chip_select nand) 3))
        by (apply (land_pow2_testbit _ 3); lia).
      cbn [fr_chip_selects combine flat_map filter fst snd app].
      rewrite H0, H1, H2, H3.
      change (Z.of_nat 0) with 0. change (Z.of_nat 1) with 1.
      change (Z.of_nat 2) with 2. change (Z.of_nat 3) with 3.
      destruct (Z.testbit (chip_select nand) 0),
               (Z.testbit (chip_select nand) 1),
               (Z.testbit (chip_select nand) 2),
               (Z.testbit (chip_select nand) 3); reflexivity.
Qed.

End VersionAndNand.
(** ** The loaders on an input that is no file *)

Lemma stdin_fuel_length (s : list read_result) :
  (List.length s < stdin_fuel s)%nat.
Proof.
  induction s as [| [| d] s IH]; cbn [stdin_fuel List.length]; lia.
Qed.

Section LoaderPipe.

Context {crc : RkCrc}.

(** Full reads of 4096 bytes: each goes out as it was read, and the
    loop goes on with the checksum run over it. *)
Lemma load_loop_chunks (index : Z) (fulls : list (list Z)) :
  forall (fuel : nat) (crc16 : Z) (w : world) (tail : list read_result),
    w_stdin w = map RdData fulls ++ tail ->
    Forall (fun c => Buf.len c = 4096) fulls ->
    Buf.len (w_buf w) = RKFT_BLOCKSIZE ->
    exists w1,
      load_loop (List.length fulls + fuel) index crc16 w =
      load_loop fuel index
        (fold_left (fun c chunk => Int.u16 (rkcrc16 c chunk)) fulls crc16) w1 /\
      w_stdin w1 = tail /\ Buf.len (w_buf w1) = RKFT_BLOCKSIZE /\
      w_trace w1 = w_trace w ++ map (EvControl 12 0 index) fulls.
Proof.
  induction fulls as [| c fulls IH]; intros fuel crc16 w tail Hin Hfull Hlen.
  - exists w. cbn [List.length Nat.add fold_left map]. rewrite app_nil_r.
    repeat split; assumption.
  - inversion Hfull as [| ? ? Hc Hrest]; subst.
    cbn [List.length Nat.add load_loop map app fold_left] in *.
    unfold bind at 1.
    assert (Hread : sys_read 4096 (w_stdin w) = (4096, c, map RdData fulls ++ tail)).
    { rewrite Hin. unfold sys_read. rewrite Hc. reflexivity. }
    rewrite (read_stdin_buf_eq _ _ _ _ _ _ Hread).
    change (4096 =? 4096) with true. cbv iota. exec.
    change (Z.to_nat 4096) with 4096%nat.
    assert (Hcn : List.length c = 4096%nat) by (unfold Buf.len in Hc; lia).
    rewrite (read_write_0_n _ c 4096)
      by (first [symmetry; exact Hcn
                | unfold Buf.len, RKFT_BLOCKSIZE in *; lia]).
    assert (Hlen1 : Buf.len (Buf.write (w_buf w) 0 c) = RKFT_BLOCKSIZE).
    { unfold Buf.len in *. rewrite write_length; [assumption |].
      unfold RKFT_BLOCKSIZE in *. lia. }
    rewrite control_transfer_ok
      by (cbn [w_buf]; rewrite Hlen1; unfold RKFT_BLOCKSIZE; lia).
    cbn [w_buf w_trace].
    change (Z.to_nat 4096) with 4096%nat.
    rewrite (read_write_0_n _ c 4096)
      by (first [symmetry; exact Hcn
                | unfold Buf.len, RKFT_BLOCKSIZE in *; lia]).
    match goal with
    | |- context [load_loop _ index ?c1 ?w1] =>
        destruct (IH fuel c1 w1 tail) as (w2 & Hrun & Hin2 & Hlen2 & Ht2);
          [reflexivity | assumption | exact Hlen1 |]
    end.
    exists w2. rewrite Hrun. cbn [w_trace] in Ht2.
    rewrite Ht2, <- app_assoc. repeat split; assumption.
Qed.

(** The read that ends the loop. *)
Lemma load_loop_last (index : Z) (fuel : nat) (crc16 : Z) (w : world) :
  Buf.len (w_buf w) = RKFT_BLOCKSIZE ->
  (forall short, last_read (w_stdin w) = Some short -> Buf.len short < 4096) ->
  exists w',
    load_loop (S fuel) index crc16 w = (Ok tt, w') /\
    w_stdin w' = tl (w_stdin w) /\
    w_trace w' =
      w_trace w ++
      match last_read (w_stdin w) with
      | Some short =>
          let c := Int.u16 (rkcrc16 crc16 short) in
          [EvControl 12 0 index (short ++ [Z.shiftr c 8; Z.land c 0xff])]
      | None => []
      end.
Proof.
  intros Hlen Hshort.
  assert (Hb : List.length (w_buf w) = Z.to_nat RKFT_BLOCKSIZE)
    by (unfold Buf.len in Hlen; lia).
  cbn [load_loop]. unfold bind at 1.
  destruct (w_stdin w) as [| [| d] s] eqn:Hin;
    cbn [last_read tl] in *.
  - (* end of input *)
    rewrite (read_stdin_buf_eq _ _ _ 0 [] []) by (rewrite Hin; reflexivity).
    change (0 =? 4096) with false. change (negb (0 =? -1)) with true.
    cbv iota. exec.
    change (Buf.read (Buf.write (w_buf w) 0 []) 0 (Z.to_nat 0)) with (@nil Z).
    set (c := Int.u16 (rkcrc16 crc16 [])).
    destruct (u16_bytes (rkcrc16 crc16 [])) as (Hhi & Hlo & _). fold c in Hhi, Hlo.
    rewrite Hhi, Hlo.
    destruct (append_crc (w_buf w) [] (Z.shiftr c 8) (Z.land c 0xff))
      as [Hdata Hlen3];
      [cbn [List.length]; unfold RKFT_BLOCKSIZE in *; lia |].
    cbv zeta in Hdata, Hlen3. cbn [List.length Nat.add app] in Hdata, Hlen3.
    change (Z.to_nat 0) with 0%nat. change (Z.to_nat (0 + 1)) with 1%nat.
    rewrite control_transfer_ok
      by (cbn [w_buf]; unfold Buf.len in *; rewrite Hlen3;
          unfold RKFT_BLOCKSIZE in *; lia).
    cbn [w_buf w_trace w_stdin].
    change (Z.to_nat (0 + 2)) with 2%nat. rewrite Hdata.
    eexists. split; [reflexivity |]. split; reflexivity.
  - (* a read error *)
    rewrite (read_stdin_buf_eq _ _ _ (-1) [] s) by (rewrite Hin; reflexivity).
    change (-1 =? 4096) with false. change (negb (-1 =? -1)) with false.
    cbv iota. eexists. split; [reflexivity |].
    cbn [w_stdin w_trace]. rewrite app_nil_r. split; reflexivity.
  - (* a short read *)
    specialize (Hshort d eq_refl).
    assert (Hread : sys_read 4096 (w_stdin w) = (Buf.len d, d, s)).
    { rewrite Hin. unfold sys_read.
      destruct (Z.leb_spec (Buf.len d) 4096); [reflexivity | lia]. }
    rewrite (read_stdin_buf_eq _ _ _ _ _ _ Hread).
    destruct (Z.eqb_spec (Buf.len d) 4096) as [? | _]; [lia |].
    destruct (Z.eqb_spec (Buf.len d) (-1)) as [? | _];
      [unfold Buf.len in *; lia |].
    cbn [negb]. exec.
    replace (Z.to_nat (Buf.len d)) with (List.length d) by (unfold Buf.len; lia).
    replace (Z.to_nat (Buf.len d + 1)) with (List.length d + 1)%nat
      by (unfold Buf.len; lia).
    rewrite read_write_0 by (unfold Buf.len, RKFT_BLOCKSIZE in *; lia).
    set (c := Int.u16 (rkcrc16 crc16 d)).
    destruct (u16_bytes (rkcrc16 crc16 d)) as (Hhi & Hlo & _). fold c in Hhi, Hlo.
    rewrite Hhi, Hlo.
    destruct (append_crc (w_buf w) d (Z.shiftr c 8) (Z.land c 0xff))
      as [Hdata Hlen3];
      [unfold Buf.len, RKFT_BLOCKSIZE in *; lia |].
    cbv zeta in Hdata, Hlen3.
    rewrite control_transfer_ok
      by (cbn [w_buf]; unfold Buf.len in *; rewrite Hlen3;
          unfold RKFT_BLOCKSIZE in *; lia).
    cbn [w_buf w_trace w_stdin].
    replace (Z.to_nat (Buf.len d + 2)) with (List.length d + 2)%nat
      by (unfold Buf.len; lia).
    rewrite Hdata.
    eexists. split; [reflexivity |]. split; reflexivity.
Qed.

(** X13.  The loaders ([l], [L]) on any input: a pipe, a terminal, a
    file that cannot be read.  While [read] returns 4096 bytes each
    chunk goes out in a control transfer as it was read.  The first
    read that returns fewer bytes ends the upload: its bytes, with the
    two bytes of the running checksum after them, are the last
    transfer, and what standard input would deliver after it is never
    read.  A read error ends the upload with no further transfer, so
    the chunks that were sent are followed by no checksum; no message
    tells of it and the run returns 0 like a complete one.  No command
    frame and no bulk payload is sent. *)
Theorem loader_ends_at_the_first_short_read
    (fulls : list (list Z)) (tail : list read_result)
    (room : option Z) (dev : list (list Z)) (rand : list Z) :
  Forall (fun c => Buf.len c = 4096) fulls ->
  (forall short, last_read tail = Some short -> Buf.len short < 4096) ->
  forall (name : string) (index : Z),
    In (name, index) [("l"%string, 1137); ("L"%string, 1138)] ->
    let out := main [Buf.of_string name]
                    (initial_world (map RdData fulls ++ tail) room dev rand) in
    let t := w_trace (snd out) in
    fst out = Returned 0 /\
    controls t =
      fulls ++ match last_read tail with
               | Some short => [closing_chunk fulls short]
               | None => []
               end /\
    control_targets t = repeat (12, 0, index) (List.length (controls t)) /\
    w_stdin (snd out) = tl tail /\
    fatals t = [] /\ frames t = [] /\ sent t = [] /\ requested t = [] /\
    written t = [].
Proof.
  intros Hfull Hshort name index Hname out t.
  assert (Hcase : exists m rq,
    parse_args [Buf.of_string name] = Some rq /\
    main_body rq = fun w => bind (load_loader m index)
                              (fun _ => bind (send_cbw RKFT_CMD_TESTUNITREADY 0 0 0)
                                 (fun _ => bind recv_csw (fun _ =>
                                    bind (emit (EvUsleep (20 * 1000)))
                                      (fun _ => bind (ret (0, 0))
                                         (fun os => do_action (rq_action rq) 0
                                                      (fst os) (snd os)))))) w).
  { destruct Hname as [H | [H | []]]; injection H as <- <-.
    - exists MsgLoadDDR, (mkRequest (Buf.ch "l") None 0 0 0).
      split; reflexivity.
    - exists MsgLoadUSB, (mkRequest (Buf.ch "L") None 0 0 0).
      split; reflexivity. }
  destruct Hcase as (m & rq & Hparse & Hbody).
  set (w0 := initial_world (map RdData fulls ++ tail) room dev rand) in *.
  assert (Hw0in : w_stdin w0 = map RdData fulls ++ tail) by reflexivity.
  assert (Hw0len : Buf.len (w_buf w0) = RKFT_BLOCKSIZE) by reflexivity.
  assert (Hw0t : w_trace w0 = []) by reflexivity.
  clearbody w0.
  assert (Hfuel : exists k, stdin_fuel (map RdData fulls ++ tail)
                            = (List.length fulls + S k)%nat).
  { pose proof (stdin_fuel_length (map RdData fulls ++ tail)) as H.
    rewrite length_app, length_map in H.
    exists (stdin_fuel (map RdData fulls ++ tail) - List.length fulls - 1)%nat.
    lia. }
  destruct Hfuel as [k Hk].
  destruct (load_loop_chunks index fulls (S k) 0xffff
              (mkWorld (w_buf w0) (w_ibuf w0) (w_stdin w0) (w_room w0) (w_dev w0)
                       (w_rand w0) (w_trace w0 ++ [EvInfo m])) tail)
    as (w1 & Hrun1 & Hin1 & Hlen1 & Ht1);
    [exact Hw0in | assumption | exact Hw0len |].
  destruct (load_loop_last index k
              (fold_left (fun c chunk => Int.u16 (rkcrc16 c chunk)) fulls 0xffff)
              w1 Hlen1)
    as (w2 & Hrun2 & Hin2 & Ht2).
  { rewrite Hin1. exact Hshort. }
  assert (Hload : load_loader m index w0 = (Stop GotoExit, w2)).
  { unfold load_loader. exec. rewrite Hw0in in Hrun1 |- *. rewrite Hk.
    change 65535 with 0xffff. rewrite Hrun1, Hrun2. reflexivity. }
  assert (Hout : out = (Returned 0, snd (teardown w2))).
  { subst out. rewrite (main_parsed _ _ _ Hparse). unfold run.
    rewrite Hbody. unfold bind at 1. rewrite Hload. reflexivity. }
  cbn [w_trace] in Ht1. rewrite Hw0t in Ht1. cbn [app] in Ht1.
  subst t. rewrite Hout. exec. rewrite Hin2, Hin1, Ht2, Ht1.
  destruct (controls_map index fulls) as (Hc1 & Hc2 & Hc3 & Hc4 & Hc5).
  assert (Hinfo : forall l, fatals (map (EvControl 12 0 index) l) = [] /\
                            written (map (EvControl 12 0 index) l) = []).
  { induction l as [| x l [IH1 IH2]]; [split; reflexivity |].
    cbn [map]. split; assumption. }
  destruct (Hinfo fulls) as [Hfa Hwr].
  split; [reflexivity |].
  change (EvInfo m :: map (EvControl 12 0 index) fulls)
    with ([EvInfo m] ++ map (EvControl 12 0 index) fulls).
  rewrite !controls_app, !control_targets_app, !fatals_app, !frames_app,
    !sent_app, !requested_app, !written_app, Hc1, Hc2, Hc3, Hc4, Hc5, Hfa, Hwr.
  rewrite Hin1 in *.
  destruct (last_read tail) as [short |];
    cbn [controls control_targets fatals frames sent requested written
         flat_map app];
    rewrite ?app_nil_r, ?length_app; cbn [List.length];
    rewrite ?repeat_app; cbn [repeat];
    repeat split; try reflexivity.
  unfold closing_chunk, running_crc16. rewrite fold_left_app. reflexivity.
Qed.

End LoaderPipe.
(** ** Failing input and failing output *)

Section Failures.

Context {crc : RkCrc}.

(** X14.  Writing the parameters ([P]) when [read] fails.  The run
    reports the read error and leaves through the label [exit]: after
    the readiness probe no frame and no payload is sent, so the flash
    is not touched; the cleanup runs and the exit code is 0 all the
    same. *)
Theorem parameter_write_stops_on_read_error
    (rest : list read_result) (room : option Z) (dev : list (list Z))
    (rand : list Z) :
  let out := main [Buf.of_string "P"]
                  (initial_world (RdErr :: rest) room dev rand) in
  let t := w_trace (snd out) in
  fst out = Returned 0 /\
  map fields (frames t) = [(RKFT_CMD_TESTUNITREADY, 0, 0, 0)] /\
  (exists pre,
     t = pre ++ [EvInfo MsgReadError; EvRelease; EvClose; EvLibusbExit]) /\
  sent t = [] /\ fatals t = [] /\ written t = [] /\
  w_stdin (snd out) = rest.
Proof.
  intros out t.
  assert (Hout : fst out = Returned 0 /\
    t = cbw_events RKFT_CMD_TESTUNITREADY 0 0 0 (hd 0 rand)
        ++ [EvRecvCsw; EvUsleep (20 * 1000); EvInfo MsgReadError;
            EvRelease; EvClose; EvLibusbExit] /\
    w_stdin (snd out) = rest).
  { subst t out. rewrite main_P. unfold write_parameters, cbw_events.
    unfold read_stdin_buf, sys_read. exec_all. repeat split; reflexivity. }
  destruct Hout as (Hfst & Ht & Hin). clearbody t out. subst t.
  split; [exact Hfst |]. unfold cbw_events.
  cbn [frames sent requested written fatals flat_map app map].
  rewrite !fields_cbw_frame_any.
  split; [reflexivity |]. split.
  { eexists [_; _; _; _]. reflexivity. }
  repeat split; try reflexivity. exact Hin.
Qed.

Lemma main_body_read (offset size : Z) (w : world) :
  main_body (read_request offset size) w =
  read_flash 0 offset size (probed w 0).
Proof.
  rewrite main_body_probed by reflexivity.
  unfold read_request.
  cbn [rq_partname rq_action rq_flag rq_offset rq_size].
  unfold bind, ret. cbn [fst snd]. unfold do_action. dispatch. reflexivity.
Qed.

(** One pass of the flash read loop from a fresh process, into an
    output that takes [k] more bytes. *)
Lemma read_pass_into_room (offset k : Z) (blk : list Z)
    (stdin : list read_result) (dev : list (list Z)) (rand : list Z)
    (A : Type) (kont : Z -> M A) :
  Buf.len blk = RKFT_BLOCKSIZE ->
  let before :=
    cbw_events RKFT_CMD_TESTUNITREADY 0 0 0 (hd 0 rand)
    ++ [EvRecvCsw; EvUsleep (20 * 1000); EvInfo (MsgReadingFlash offset)]
    ++ cbw_events RKFT_CMD_READLBA offset RKFT_OFF_INCR 0 (hd 0 (tl rand))
    ++ [EvRecvBuf RKFT_BLOCKSIZE; EvRecvCsw] in
  (info (MsgReadingFlash offset) ;;
   send_cbw RKFT_CMD_READLBA offset RKFT_OFF_INCR 0 ;;
   recv_buf RKFT_BLOCKSIZE ;;
   recv_csw ;;
   n <- write_stdout 0 RKFT_BLOCKSIZE ;;
   kont n)%prog
    (probed (initial_world stdin (Some k) (blk :: dev) rand) 0)
  = if k <=? 0
    then kont (-1)
           (mkWorld blk (Buf.zeros (Z.to_nat RKFT_IDB_BLOCKSIZE)) stdin (Some k)
                    dev (tl (tl rand)) before)
    else kont (Z.min RKFT_BLOCKSIZE k)
           (mkWorld blk (Buf.zeros (Z.to_nat RKFT_IDB_BLOCKSIZE)) stdin
                    (Some (k - Z.min RKFT_BLOCKSIZE k)) dev (tl (tl rand))
                    (before
                     ++ [EvWrite (firstn (Z.to_nat (Z.min RKFT_BLOCKSIZE k)) blk)])).
Proof.
  intros Hblk before. subst before.
  unfold probed, initial_world, cbw_events. exec.
  rewrite recv_buf_fits
    by (cbn [w_buf w_dev hd]; rewrite len_zeros; unfold Buf.len in *;
        rewrite length_firstn; lia).
  exec. rewrite (recv_full_block _ blk) by (rewrite ?len_zeros; auto).
  unfold write_stdout. exec.
  assert (Hin : Buf.inside blk 0 RKFT_BLOCKSIZE = true)
    by (unfold Buf.inside; rewrite Hblk; reflexivity).
  rewrite Hin. cbn [negb]. exec.
  change (0 <? RKFT_BLOCKSIZE) with true. cbn [andb].
  destruct (k <=? 0); cbn [app]; [reflexivity |].
  unfold Buf.read. cbn [skipn Z.to_nat].
  rewrite firstn_firstn.
  replace (Nat.min (Z.to_nat (Z.min RKFT_BLOCKSIZE k)) (Z.to_nat RKFT_BLOCKSIZE))
    with (Z.to_nat (Z.min RKFT_BLOCKSIZE k)) by lia.
  reflexivity.
Qed.

(** X15.  Reading flash ([r offset size], a positive count) into an
    output that takes only [k] more bytes.  When it takes none, the
    first [write] fails: the run ends in the fatal "Write error" with
    exit code 1 after one exchange, no call of [write] has passed a
    byte on and the cleanup of the label [exit] is not made.  When it takes some bytes but
    fewer than a block, [write] returns that number, which the loop
    does not compare with the block size: for a count of one window
    the run reports that it is done and returns 0, although only the
    first [k] bytes of the block were written by [write]. *)
Theorem short_write_passes_for_complete (args : list (list Z))
    (offset size k : Z) (blk : list Z)
    (stdin : list read_result) (dev : list (list Z)) (rand : list Z) :
  parse_args args = Some (read_request offset size) ->
  0 < size -> Buf.len blk = RKFT_BLOCKSIZE ->
  let out := main args (initial_world stdin (Some k) (blk :: dev) rand) in
  let t := w_trace (snd out) in
  let one_exchange :=
    [(RKFT_CMD_TESTUNITREADY, 0, 0, 0);
     (RKFT_CMD_READLBA, Int.u32 offset, RKFT_OFF_INCR, 0)] in
  (k <= 0 ->
   fst out = Exited 1 /\ map fields (frames t) = one_exchange /\
   written t = [] /\ fatals t = [FatalWriteError] /\
   (exists pre, t = pre ++ [EvRecvCsw; EvFatal FatalWriteError])) /\
  (0 < k < RKFT_BLOCKSIZE -> size <= RKFT_OFF_INCR ->
   fst out = Returned 0 /\ map fields (frames t) = one_exchange /\
   written t = [firstn (Z.to_nat k) blk] /\ fatals t = [] /\
   (exists pre, t = pre ++ [EvInfo MsgDone; EvRelease; EvClose; EvLibusbExit])).
Proof.
  intros Hargs Hsize Hblk out t one_exchange.
  assert (Hmain : out =
    run (read_flash 0 offset size)
        (probed (initial_world stdin (Some k) (blk :: dev) rand) 0)).
  { subst out. rewrite (main_parsed _ _ _ Hargs). unfold run.
    now rewrite main_body_read. }
  assert (Hfuel : exists n, S (Z.to_nat size) = S (S n))
    by (exists (Z.to_nat size - 1)%nat; lia).
  destruct Hfuel as [n Hn].
  split.
  - intros Hk.
    assert (Hout : exists w', out = (Exited 1, w') /\
      w_trace w' = cbw_events RKFT_CMD_TESTUNITREADY 0 0 0 (hd 0 rand)
          ++ [EvRecvCsw; EvUsleep (20 * 1000); EvInfo (MsgReadingFlash offset)]
          ++ cbw_events RKFT_CMD_READLBA offset RKFT_OFF_INCR 0 (hd 0 (tl rand))
          ++ [EvRecvBuf RKFT_BLOCKSIZE; EvRecvCsw; EvFatal FatalWriteError]).
    { rewrite Hmain. unfold run, read_flash. unfold bind at 1.
      rewrite Hn. cbn [read_flash_loop].
      destruct (Z.gtb_spec size 0) as [_ | ?]; [| lia].
      rewrite read_pass_into_room by exact Hblk.
      destruct (Z.leb_spec k 0) as [_ | ?]; [| lia].
      change (-1 <=? 0) with true. cbv iota. exec.
      eexists. split; [reflexivity |]. cbn [w_trace].
      unfold cbw_events. cbn [app]. rewrite <- ?app_assoc. reflexivity. }
    destruct Hout as (w' & Hout & Ht). subst t. rewrite Hout.
    cbn [fst snd]. rewrite Ht. clear Hout Ht Hmain. subst one_exchange.
    split; [reflexivity |]. unfold cbw_events.
    cbn [frames sent requested written fatals flat_map app map].
    rewrite !fields_cbw_frame_any.
    split; [reflexivity |]. split; [reflexivity |]. split; [reflexivity |].
    eexists [_; _; _; _; _; _; _; _]. reflexivity.
  - intros Hk Hone.
    assert (Hout : exists w', out = (Returned 0, w') /\
      w_trace w' = cbw_events RKFT_CMD_TESTUNITREADY 0 0 0 (hd 0 rand)
          ++ [EvRecvCsw; EvUsleep (20 * 1000); EvInfo (MsgReadingFlash offset)]
          ++ cbw_events RKFT_CMD_READLBA offset RKFT_OFF_INCR 0 (hd 0 (tl rand))
          ++ [EvRecvBuf RKFT_BLOCKSIZE; EvRecvCsw;
              EvWrite (firstn (Z.to_nat k) blk);
              EvInfo MsgDone; EvRelease; EvClose; EvLibusbExit]).
    { rewrite Hmain. unfold run, read_flash. unfold bind at 1.
      rewrite Hn. cbn [read_flash_loop].
      destruct (Z.gtb_spec size 0) as [_ | ?]; [| lia].
      rewrite read_pass_into_room by exact Hblk.
      destruct (Z.leb_spec k 0) as [? | _]; [lia |].
      replace (Z.min RKFT_BLOCKSIZE k) with k by lia.
      destruct (Z.leb_spec k 0) as [? | _]; [lia |].
      change RKFT_OFF_INCR with 32 in *.
      rewrite (s32_small (size - 32)) by lia.
      destruct (Z.gtb_spec (size - 32) 0) as [? | _]; [lia |].
      exec. eexists. split; [reflexivity |]. cbn [w_trace].
      unfold cbw_events. cbn [app]. rewrite <- ?app_assoc. reflexivity. }
    destruct Hout as (w' & Hout & Ht). subst t. rewrite Hout.
    cbn [fst snd]. rewrite Ht. clear Hout Ht Hmain. subst one_exchange.
    split; [reflexivity |]. unfold cbw_events.
    cbn [frames sent requested written fatals flat_map app map].
    rewrite !fields_cbw_frame_any.
    split; [reflexivity |]. split; [reflexivity |]. split; [reflexivity |].
    eexists [_; _; _; _; _; _; _; _; _; _]. reflexivity.
Qed.

End Failures.
(** ** The first switch: the command line *)

Lemma s32_range (v : Z) : - 2 ^ 31 <= Int.s32 v < 2 ^ 31.
Proof.
  unfold Int.s32.
  pose proof (Z.mod_pos_bound v (2 ^ 32) ltac:(lia)) as H.
  destruct (Z.ltb_spec (v mod 2 ^ 32) (2 ^ 31)); lia.
Qed.

Lemma u8_range (v : Z) : 0 <= Int.u8 v < 256.
Proof. apply (Z.mod_pos_bound v (2 ^ 8)). lia. Qed.

(** X16.  What the first switch accepts.  A command line that is not
    answered with the usage message has an action character of the
    list [b l L e r w m M B i j n v p P] (the first character of the
    first argument: what follows it in that argument is not looked at)
    and at most two more arguments.  Offset and count are in the range
    of [int] and the mode flag in that of a byte; the flag is non-zero
    only for [b]; a partition name is taken only for [e], [r] and [w]
    with exactly one more argument, which is taken as the name whatever
    it looks like, and offset and count are then zero until the name is
    resolved. *)
Theorem accepted_command_lines (args : list (list Z)) (rq : request) :
  parse_args args = Some rq ->
  (exists a rest,
     args = a :: rest /\ rq_action rq = hd 0 a /\ (List.length rest <= 2)%nat) /\
  In (rq_action rq) actions /\
  0 <= rq_flag rq < 256 /\
  - 2 ^ 31 <= rq_offset rq < 2 ^ 31 /\
  - 2 ^ 31 <= rq_size rq < 2 ^ 31 /\
  (rq_flag rq <> 0 -> rq_action rq = Buf.ch "b") /\
  (forall name, rq_partname rq = Some name ->
     In (rq_action rq) (map Buf.ch ["e"; "r"; "w"]%char) /\
     tl args = [name] /\ rq_offset rq = 0 /\ rq_size rq = 0) /\
  (forall more, parse_args ((rq_action rq :: more) :: tl args) = Some rq).
Proof.
  intros H. destruct args as [| a rest]; [discriminate |].
  assert (Hmore : forall more,
            parse_args ((hd 0 a :: more) :: rest) = parse_args (a :: rest))
    by reflexivity.
  assert (Hact : parse_args (a :: rest) = Some rq -> rq_action rq = hd 0 a).
  { unfold parse_args. cbv zeta.
    repeat match goal with
           | |- context [if ?c then _ else _] => destruct c
           end; intros E; try discriminate E; injection E as <-; reflexivity. }
  specialize (Hact H).
  assert (Hlast : forall more,
            parse_args ((rq_action rq :: more) :: tl (a :: rest)) = Some rq).
  { intros more. cbn [tl]. rewrite Hact, Hmore. exact H. }
  assert (Hargc : (List.length rest <= 2)%nat).
  { unfold parse_args in H. cbv zeta in H.
    repeat match type of H with
           | context [(?x =? ?y)%nat] =>
               destruct (Nat.eqb_spec x y); cbn [orb andb negb] in H
           | context [(?x <? ?y)%nat] =>
               destruct (Nat.ltb_spec x y); cbn [orb andb negb] in H
           | context [if ?c then _ else _] => destruct c
           end; try discriminate H; lia. }
  split; [exists a, rest; repeat split; assumption |].
  cut (In (rq_action rq) actions /\
       0 <= rq_flag rq < 256 /\
       - 2 ^ 31 <= rq_offset rq < 2 ^ 31 /\
       - 2 ^ 31 <= rq_size rq < 2 ^ 31 /\
       (rq_flag rq <> 0 -> rq_action rq = Buf.ch "b") /\
       (forall name, rq_partname rq = Some name ->
          In (rq_action rq) (map Buf.ch ["e"; "r"; "w"]%char) /\
          tl (a :: rest) = [name] /\ rq_offset rq = 0 /\ rq_size rq = 0)).
  { intros (H1 & H2 & H3 & H4 & H5 & H6).
    split; [exact H1 |]. split; [exact H2 |]. split; [exact H3 |].
    split; [exact H4 |]. split; [exact H5 |]. split; [exact H6 | exact Hlast]. }
  clear Hlast Hmore Hact. cbn [tl].
  pose proof (u8_range (CStr.strtoul (nth 0 rest []))) as Hu8.
  pose proof (s32_range (CStr.strtoul (nth 0 rest []))) as Hs0.
  pose proof (s32_range (CStr.strtoul (nth 1 rest []))) as Hs1.
  unfold parse_args in H. cbv zeta in H.
  repeat match type of H with
         | context [?x =? ?y] =>
             destruct (Z.eqb_spec x y) as [?E | ?N]; cbn [orb andb negb] in H
         | context [(?x =? ?y)%nat] =>
             destruct (Nat.eqb_spec x y); cbn [orb andb negb] in H
         | context [(?x <? ?y)%nat] =>
             destruct (Nat.ltb_spec x y); cbn [orb andb negb] in H
         end; try discriminate H; injection H as <-;
    cbn [rq_action rq_partname rq_offset rq_size rq_flag] in *;
    match goal with E : hd 0 a = _ |- _ => rename E into Ea end;
    (split; [unfold actions; cbn [map In]; rewrite Ea; tauto |]);
    (split; [lia |]); (split; [lia |]); (split; [lia |]);
    (split; [first [intros _; exact Ea
                   | intros F; exfalso; apply F; reflexivity] |]);
    intros name Hname; try discriminate Hname;
    injection Hname as <-;
    (split; [cbn [map In]; rewrite Ea; tauto |]);
    (split; [| split; reflexivity]);
    destruct rest as [| x [| y rest]]; cbn [List.length] in *; try lia;
    reflexivity.
Qed.
(** ** A parameter block with a bad length, when a partition is named *)

Lemma named_request (args : list (list Z)) (rq : request) (partname : list Z) :
  parse_args args = Some rq -> rq_partname rq = Some partname ->
  rq = mkRequest (rq_action rq) (Some partname) 0 0 0 /\
  rq_action rq <> Buf.ch "l" /\ rq_action rq <> Buf.ch "L".
Proof.
  intros H Hname. destruct args as [| a rest]; [discriminate |].
  unfold parse_args in H. cbv zeta in H.
  repeat match type of H with
         | context [?x =? ?y] =>
             destruct (Z.eqb_spec x y) as [?E | ?N]; cbn [orb andb negb] in H
         | context [if ?c then _ else _] => destruct c
         end; try discriminate H; injection H as <-;
    cbn [rq_action rq_partname] in *; try discriminate Hname;
    injection Hname as <-;
    (split; [reflexivity |]);
    match goal with E : hd 0 a = _ |- _ => rewrite E end;
    split; intros F; vm_compute in F; discriminate F.
Qed.

Section BadDataLength.

Context {crc : RkCrc}.

(** X17.  A partition name and a parameter block with a bad length.
    When [e], [r] or [w] is given a partition name and the length field
    of the block that the device returns (bytes 4 to 7, little-endian,
    read as an [int]) is negative or greater than [MAX_PARAM_LENGTH],
    the run ends in the fatal "Bad data length!" with exit status 1
    right after the read of the parameter block.  Only the readiness
    probe and that [READLBA] frame were sent: nothing is erased or
    written to the device, [write] is not called (standard output has
    only the dumps that [send_cbw] printed for the two frames),
    standard input is not read, and the exit is without the cleanup. *)
Theorem bad_data_length_ends_the_run
    (args : list (list Z)) (rq : request) (partname : list Z)
    (stdin : list read_result) (room : option Z)
    (blk : list Z) (dev : list (list Z)) (rand : list Z) :
  parse_args args = Some rq ->
  rq_partname rq = Some partname ->
  Buf.len blk = RKFT_BLOCKSIZE ->
  let size := Int.s32 (load_u32 blk 4) in
  size < 0 \/ MAX_PARAM_LENGTH < size ->
  let out := main args (initial_world stdin room (blk :: dev) rand) in
  let t := w_trace (snd out) in
  fst out = Exited 1 /\
  map fields (frames t) =
    [(RKFT_CMD_TESTUNITREADY, 0, 0, 0);
     (RKFT_CMD_READLBA, 0, RKFT_OFF_INCR, 0)] /\
  requested t = [RKFT_BLOCKSIZE] /\
  fatals t = [FatalBadDataLength] /\
  (exists pre, t = pre ++ [EvFatal FatalBadDataLength]) /\
  sent t = [] /\ written t = [] /\ controls t = [] /\
  ~ In EvRelease t /\ ~ In EvClose t /\ ~ In EvLibusbExit t /\
  w_stdin (snd out) = stdin.
Proof.
  intros Hargs Hname Hblk size Hsize out t.
  destruct (named_request args rq partname Hargs Hname) as (Hrq & Hl & HL).
  assert (Hchk : (size <? 0) || (size >? MAX_PARAM_LENGTH) = true).
  { apply orb_true_iff. rewrite Z.gtb_ltb.
    destruct Hsize; [left; apply Z.ltb_lt | right; apply Z.ltb_lt]; assumption. }
  assert (Hz : Buf.len (Buf.zeros (Z.to_nat RKFT_BLOCKSIZE)) = RKFT_BLOCKSIZE)
    by (rewrite len_zeros; reflexivity).
  assert (Hout :
    out = (Exited 1,
           mkWorld blk (Buf.zeros (Z.to_nat RKFT_IDB_BLOCKSIZE)) stdin room dev
                   (tl (tl rand))
                   (cbw_events RKFT_CMD_TESTUNITREADY 0 0 0 (hd 0 rand)
                    ++ [EvRecvCsw; EvUsleep (20 * 1000);
                        EvInfo (MsgWorkingWith partname)]
                    ++ cbw_events RKFT_CMD_READLBA 0 RKFT_OFF_INCR 0
                         (hd 0 (tl rand))
                    ++ [EvRecvBuf RKFT_BLOCKSIZE; EvRecvCsw;
                        EvFatal FatalBadDataLength]))).
  { subst out. rewrite (main_parsed _ _ _ Hargs). rewrite Hrq. unfold run.
    rewrite main_body_probed
      by (cbn [rq_action]; apply Z.eqb_neq; assumption).
    cbn [rq_action rq_partname rq_flag].
    match goal with
    | |- match bind ?m ?k ?w with _ => _ end = (_, ?w') =>
        assert (Hres : m w = (Stop Exit1, w'))
    end.
    { unfold probed, initial_world.
      cbn [w_buf w_ibuf w_stdin w_room w_dev w_rand w_trace app].
      unfold resolve_partition. exec.
      rewrite recv_buf_fits
        by (cbn [w_buf w_dev hd]; unfold Buf.len in *;
            rewrite length_firstn, len_zeros_nat; lia).
      exec.
      rewrite (recv_full_block _ blk Hz Hblk).
      fold size. rewrite Hchk. exec. unfold cbw_events. flatten_trace.
      reflexivity. }
    rewrite (bind_stop _ _ _ _ _ Hres). reflexivity. }
  subst t. rewrite Hout. cbn [fst snd w_trace w_stdin].
  split; [reflexivity |].
  rewrite !frames_app, !requested_app, !fatals_app, !sent_app, !written_app,
    !controls_app, !map_app.
  split.
  { unfold cbw_events. cbn [frames flat_map app map].
    rewrite !fields_cbw_frame_any. reflexivity. }
  split; [reflexivity |]. split; [reflexivity |].
  split.
  { change [EvRecvBuf RKFT_BLOCKSIZE; EvRecvCsw; EvFatal FatalBadDataLength]
      with ([EvRecvBuf RKFT_BLOCKSIZE; EvRecvCsw] ++ [EvFatal FatalBadDataLength]).
    rewrite !app_assoc. eexists. reflexivity. }
  split; [reflexivity |]. split; [reflexivity |]. split; [reflexivity |].
  unfold cbw_events.
  repeat split; intros Hin; cbn [In app] in Hin;
    repeat (destruct Hin as [Hin | Hin]; [discriminate Hin |]); exact Hin.
Qed.

End BadDataLength.
(** ** Case ['j'] on an input that lasts *)

Lemma slices_lengths (k n : nat) (d : list Z) :
  (k * n <= List.length d)%nat ->
  Forall (fun s => List.length s = n) (slices k n d).
Proof.
  revert d. induction k as [| k IH]; intros d H; cbn [slices]; constructor.
  - rewrite length_firstn. lia.
  - apply IH. rewrite length_skipn. lia.
Qed.

Section WriteIdbFile.

Context {crc : RkCrc}.

Lemma main_body_idb_write (offset size : Z) (w : world) :
  main_body (idb_write_request offset size) w =
  write_idb 0 offset size (probed w 0).
Proof.
  rewrite main_body_probed by reflexivity.
  unfold idb_write_request.
  cbn [rq_partname rq_action rq_flag rq_offset rq_size].
  unfold bind, ret. cbn [fst snd]. unfold do_action. dispatch. reflexivity.
Qed.

Lemma write_idb_loop_file (flag : Z) :
  forall (fuel : nat) (offset size : Z) (w : world) (d : list Z)
         (rest : list read_result),
    (0 < size -> w_stdin w = RdData d :: rest) ->
    RKFT_IDB_DATASIZE * size <= Buf.len d ->
    (Z.to_nat size < fuel)%nat ->
    - 2 ^ 31 <= offset -> offset + size < 2 ^ 31 -> size < 2 ^ 31 ->
    List.length (w_ibuf w) = 528%nat ->
    exists w' evs,
      write_idb_loop fuel flag offset size w = (Ok tt, w') /\
      w_trace w' = w_trace w ++ evs /\
      map fields (frames evs) =
        map (fun o => (RKFT_CMD_WRITESECTOR, Int.u32 o, 1, Int.u8 flag))
            (unit_offsets (Z.to_nat size) offset) /\
      sent evs = map (fun s => s ++ skipn 512 (w_ibuf w))
                     (slices (Z.to_nat size) 512 d) /\
      fatals evs = [] /\ controls evs = [] /\ requested evs = [] /\
      written evs = [].
Proof.
  induction fuel as [| fuel IH];
    intros offset size w d rest Hin Hd Hfuel Hoff Hend Hsize Hlen; [lia |].
  cbn [write_idb_loop].
  destruct (Z.gtb_spec size 0) as [Hpos | Hnpos].
  2:{ exists w, []. rewrite app_nil_r.
      replace (Z.to_nat size) with 0%nat by lia.
      repeat split; reflexivity. }
  specialize (Hin Hpos).
  replace (Z.to_nat size) with (S (Z.to_nat (size - 1))) by lia.
  cbn [unit_offsets slices map].
  assert (Hdn : (512 <= List.length d)%nat)
    by (unfold Buf.len, RKFT_IDB_DATASIZE in Hd; lia).
  assert (Hread : exists s',
    sys_read RKFT_IDB_DATASIZE (RdData d :: rest)
    = (RKFT_IDB_DATASIZE, firstn 512 d, s') /\
    (0 < size - 1 -> s' = RdData (skipn 512 d) :: rest)).
  { unfold sys_read.
    destruct (Z.leb_spec (Buf.len d) RKFT_IDB_DATASIZE) as [Hle | Hgt].
    - assert (Hall : List.length d = 512%nat)
        by (unfold Buf.len, RKFT_IDB_DATASIZE in Hle; lia).
      exists rest. split.
      + unfold Buf.len. rewrite Hall, firstn_all2 by lia. reflexivity.
      + intros Hmore. exfalso.
        unfold Buf.len, RKFT_IDB_DATASIZE in Hd. lia.
    - eexists. split; reflexivity. }
  destruct Hread as (s' & Hread & Hs').
  set (ib1 := Buf.memset (w_ibuf w) RKFT_IDB_BLOCKSIZE (Z.to_nat 0xff)).
  assert (E1 : ib1 = repeat 0x10 255 ++ skipn 255 (w_ibuf w)) by reflexivity.
  assert (Hn1 : List.length ib1 = 528%nat).
  { rewrite E1, length_app, repeat_length, length_skipn. lia. }
  set (ib2 := Buf.write ib1 0 (firstn 512 d)).
  assert (E2 : ib2 = firstn 512 d ++ skipn 512 (w_ibuf w)).
  { subst ib2.
    change (Buf.write ib1 0 (firstn 512 d))
      with (firstn 512 d ++ skipn (List.length (firstn 512 d)) ib1).
    rewrite length_firstn.
    replace (Nat.min 512 (List.length d)) with 512%nat by lia.
    f_equal. rewrite E1, skipn_app, repeat_length.
    rewrite skipn_all2 by (rewrite repeat_length; lia).
    cbn [app]. rewrite skipn_skipn. f_equal. }
  assert (Hn2 : List.length ib2 = 528%nat).
  { rewrite E2, length_app, length_firstn, length_skipn. lia. }
  assert (Hblock :
    write_idb_block flag offset w =
    (Ok true,
     mkWorld (w_buf w) ib2 s' (w_room w) (w_dev w) (tl (w_rand w))
             (w_trace w
              ++ [EvInfo (MsgWritingIDB offset)]
              ++ cbw_events RKFT_CMD_WRITESECTOR offset 1 flag (hd 0 (w_rand w))
              ++ [EvSendBuf ib2; EvRecvCsw]))).
  { unfold write_idb_block. exec.
    unfold read_stdin_ibuf. cbn [w_stdin w_ibuf w_buf w_room w_dev w_rand w_trace].
    rewrite Hin, Hread.
    change (RKFT_IDB_DATASIZE <=? 0) with false.
    exec. fold ib1. fold ib2.
    replace (Buf.read ib2 0 (Z.to_nat RKFT_IDB_BLOCKSIZE)) with ib2.
    - unfold cbw_events. rewrite <- !app_assoc. reflexivity.
    - unfold Buf.read. cbn [skipn]. symmetry. apply firstn_all2.
      rewrite Hn2. unfold RKFT_IDB_BLOCKSIZE. lia. }
  rewrite (bind_eq _ _ _ _ _ Hblock).
  rewrite (s32_small (offset + 1)), (s32_small (size - 1)) by lia.
  match goal with
  | |- context [write_idb_loop fuel flag _ _ ?w1] =>
      destruct (IH (offset + 1) (size - 1) w1 (skipn 512 d) rest)
        as (w' & evs & Hrun & Ht & Hf & Hs & Hfa & Hco & Hr & Hwr);
        cbn [w_stdin w_ibuf]; try assumption; try lia
  end.
  { unfold Buf.len, RKFT_IDB_DATASIZE in *. rewrite length_skipn. lia. }
  cbn [w_ibuf w_trace] in Hs, Ht.
  assert (Etail : skipn 512 ib2 = skipn 512 (w_ibuf w)).
  { rewrite E2, skipn_app, length_firstn.
    replace (Nat.min 512 (List.length d)) with 512%nat by lia.
    rewrite skipn_all2 by (rewrite length_firstn; lia).
    cbn [app]. replace (512 - 512)%nat with 0%nat by lia. reflexivity. }
  rewrite Etail in Hs.
  exists w'. eexists ([_; _; _; _; _] ++ evs).
  rewrite Hrun, Ht. split; [reflexivity |].
  split; [rewrite <- !app_assoc; reflexivity |].
  unfold cbw_events.
  rewrite !frames_app, !sent_app, !fatals_app, !controls_app, !requested_app,
    !written_app, !map_app, Hf, Hs, Hfa, Hco, Hr, Hwr.
  cbn [frames sent requested written fatals controls flat_map app map].
  rewrite fields_cbw_frame_any, E2.
  repeat split; reflexivity.
Qed.

(** X18.  Writing ID blocks ([j offset size]) from a file that holds at
    least 512 bytes for every unit.  After the readiness probe the run
    sends one [WRITESECTOR] frame with a count of 1 for each unit, at
    the offsets [offset], [offset + 1], ..., and each payload has the
    ID-block size of 528 bytes: the next 512 bytes of the file followed
    by 16 zero bytes.  The bytes beyond the data come from [ibuf] as
    the program started, since neither the fill nor the read stores
    anything there; the fill byte [0xff] is in no payload unless the
    file has it.  The run reports that it is done, makes the cleanup
    and returns 0. *)
Theorem idb_write_sends_data_and_zero_spare
    (args : list (list Z)) (offset size : Z)
    (input : list Z) (room : option Z) (dev : list (list Z)) (rand : list Z) :
  parse_args args = Some (idb_write_request offset size) ->
  - 2 ^ 31 <= offset -> offset + size < 2 ^ 31 -> size < 2 ^ 31 ->
  RKFT_IDB_DATASIZE * size <= Buf.len input ->
  let out := main args (initial_world (file_stdin input) room dev rand) in
  let t := w_trace (snd out) in
  let n := Z.to_nat size in
  fst out = Returned 0 /\
  map fields (frames t) =
    (RKFT_CMD_TESTUNITREADY, 0, 0, 0)
    :: map (fun o => (RKFT_CMD_WRITESECTOR, Int.u32 o, 1, 0))
           (unit_offsets n offset) /\
  sent t = map (fun s => s ++ Buf.zeros 16) (slices n 512 input) /\
  Forall (fun p => Buf.len p = RKFT_IDB_BLOCKSIZE) (sent t) /\
  List.concat (slices n 512 input) = firstn (n * 512) input /\
  (exists pre, t = pre ++ [EvInfo MsgDone; EvRelease; EvClose; EvLibusbExit]) /\
  fatals t = [] /\ written t = [] /\ requested t = [] /\ controls t = [].
Proof.
  intros Hargs Hoff Hend Hsize Hinput out t n.
  destruct (write_idb_loop_file 0 (S (Z.to_nat size)) offset size
              (probed (initial_world (file_stdin input) room dev rand) 0)
              input [])
    as (w' & evs & Hrun & Ht & Hf & Hs & Hfa & Hco & Hr & Hwr);
    try reflexivity; try assumption; try lia.
  fold n in Hf, Hs.
  change (skipn 512 (w_ibuf (probed (initial_world (file_stdin input) room dev rand) 0)))
    with (Buf.zeros 16) in Hs.
  assert (Hout : out = (Returned 0, snd (teardown (snd (info MsgDone w'))))).
  { subst out. rewrite (main_parsed _ _ _ Hargs). unfold run.
    rewrite main_body_idb_write. unfold write_idb.
    unfold bind at 1. now rewrite Hrun. }
  subst t. rewrite Hout. exec. rewrite Ht.
  unfold probed, initial_world.
  cbn [w_buf w_ibuf w_stdin w_room w_dev w_rand w_trace app].
  unfold cbw_events.
  rewrite !frames_app, !sent_app, !written_app, !fatals_app, !requested_app,
    !controls_app, !map_app, Hf, Hs, Hfa, Hco, Hr, Hwr.
  cbn [frames sent requested written fatals controls flat_map app map].
  rewrite fields_cbw_frame_any, ?app_nil_r.
  split; [reflexivity |]. split; [reflexivity |].
  split; [reflexivity |]. split.
  { apply Forall_map.
    assert (Hk : (n * 512 <= List.length input)%nat)
      by (unfold Buf.len, RKFT_IDB_DATASIZE in Hinput; lia).
    pose proof (slices_lengths n 512 input Hk) as Hall.
    revert Hall. apply Forall_impl. intros s Hs512.
    unfold Buf.len, Buf.zeros, RKFT_IDB_BLOCKSIZE.
    rewrite length_app, repeat_length, Hs512. reflexivity. }
  split; [apply concat_slices |]. split.
  { eexists ([_; _; _; _] ++ evs). rewrite <- !app_assoc. reflexivity. }
  repeat split; reflexivity.
Qed.

End WriteIdbFile.
(** ** Opening the device *)

Lemma detect_found (u : usb) (before : list (Z * string)) (pid : Z)
    (name : string) (after : list (Z * string)) :
  Forall (fun e => fst e <> 0 /\ usb_open u ROCKCHIP_VID (fst e) = false) before ->
  pid <> 0 -> usb_open u ROCKCHIP_VID pid = true ->
  detect u (before ++ (pid, name) :: after) =
  (map (fun e => SeOpen ROCKCHIP_VID (fst e)) before
   ++ [SeOpen ROCKCHIP_VID pid; SeInfo (MsgDetected name)], Found name).
Proof.
  intros Hbefore Hpid Hopen.
  induction Hbefore as [| [p n] before [Hp Hn] _ IH]; cbn [app detect map fst] in *.
  - destruct (Z.eqb_spec pid 0); [contradiction |]. now rewrite Hopen.
  - destruct (Z.eqb_spec p 0); [contradiction |]. now rewrite Hn, IH.
Qed.

Lemma detect_none (u : usb) (before : list (Z * string)) (name : string)
    (after : list (Z * string)) :
  Forall (fun e => fst e <> 0 /\ usb_open u ROCKCHIP_VID (fst e) = false) before ->
  detect u (before ++ (0, name) :: after) =
  (map (fun e => SeOpen ROCKCHIP_VID (fst e)) before, NotFound).
Proof.
  intros Hbefore.
  induction Hbefore as [| [p n] before [Hp Hn] _ IH]; cbn [app detect map fst] in *.
  - reflexivity.
  - destruct (Z.eqb_spec p 0); [contradiction |]. now rewrite Hn, IH.
Qed.

(** A list has a first element that passes a test, or none. *)
Lemma first_or_none {A : Type} (f : A -> bool) (l : list A) :
  Forall (fun e => f e = false) l \/
  exists before x after,
    l = before ++ x :: after /\ Forall (fun e => f e = false) before /\
    f x = true.
Proof.
  induction l as [| a l IH]; [left; constructor |].
  destruct (f a) eqn:Ea.
  - right. exists [], a, l. repeat split; [constructor | assumption].
  - destruct IH as [IH | (before & x & after & -> & Hb & Hx)].
    + left. now constructor.
    + right. exists (a :: before), x, after.
      repeat split; [now constructor | assumption].
Qed.

Lemma supported_nonzero : Forall (fun e : Z * string => fst e <> 0) supported.
Proof. repeat constructor; discriminate. Qed.

Lemma pidtab_closed : pidtab = supported ++ [(0, EmptyString)].
Proof. reflexivity. Qed.

(** X19.  Which device is opened.  [main] tries the product ids of
    [pidtab] in the order of the table, each with the vendor id
    [0x2207], and takes the first one for which libusb gives a handle:
    it then reports the name of that entry and tries no further id, so
    of two attached devices the one earlier in the table is used.  When
    none of the fifteen ids gives a handle, all fifteen have been tried
    and the run ends in the fatal "cannot open device".  In every case
    only ids of the table are tried, the closing entry with id 0 is
    not, and the search does not run past the table. *)
Theorem detection_takes_the_first_attached (u : usb) :
  let attached e := usb_open u ROCKCHIP_VID (fst e) in
  let probe e := SeOpen ROCKCHIP_VID (fst e) in
  List.length supported = 15%nat /\
  (forall before pid name after,
     supported = before ++ (pid, name) :: after ->
     Forall (fun e => attached e = false) before ->
     attached (pid, name) = true ->
     detect u pidtab =
       (map probe before ++ [probe (pid, name); SeInfo (MsgDetected name)],
        Found name)) /\
  (Forall (fun e => attached e = false) supported ->
   detect u pidtab = (map probe supported, NotFound) /\
   (usb_init u = 0 ->
    open_device u =
      ([SeInit; SeSetDebug 3] ++ map probe supported ++ [SeFatal FatalOpen],
       StartFailed))) /\
  snd (detect u pidtab) <> PastTheTable /\
  (forall vid pid, In (SeOpen vid pid) (fst (detect u pidtab)) ->
     vid = ROCKCHIP_VID /\ pid <> 0 /\ In pid (map fst supported)) /\
  (snd (open_device u) = Started -> exists name, snd (detect u pidtab) = Found name).
Proof.
  intros attached probe.
  assert (Hfound : forall before pid name after,
     supported = before ++ (pid, name) :: after ->
     Forall (fun e => attached e = false) before ->
     attached (pid, name) = true ->
     detect u pidtab =
       (map probe before ++ [probe (pid, name); SeInfo (MsgDetected name)],
        Found name)).
  { intros before pid name after Hsplit Hbefore Hopen.
    rewrite pidtab_closed, Hsplit, <- app_assoc. cbn [app].
    pose proof supported_nonzero as Hnz. rewrite Hsplit in Hnz.
    apply Forall_app in Hnz. destruct Hnz as [Hnz1 Hnz2].
    apply detect_found.
    - rewrite Forall_forall in *. intros e He. split; [now apply Hnz1 |].
      now apply Hbefore.
    - inversion Hnz2; assumption.
    - exact Hopen. }
  assert (Hnone : Forall (fun e => attached e = false) supported ->
     detect u pidtab = (map probe supported, NotFound)).
  { intros Hall. rewrite pidtab_closed. apply detect_none.
    pose proof supported_nonzero as Hnz.
    rewrite Forall_forall in *. intros e He. split; [now apply Hnz |].
    now apply Hall. }
  split; [reflexivity |]. split; [exact Hfound |].
  split.
  { intros Hall. split; [now apply Hnone |].
    intros Hinit. unfold open_device. rewrite Hinit, (Hnone Hall).
    cbn [negb Z.eqb]. rewrite <- app_assoc. reflexivity. }
  destruct (first_or_none attached supported)
    as [Hall | (before & [pid name] & after & Hsplit & Hbefore & Hopen)].
  - rewrite (Hnone Hall). cbn [fst snd].
    split; [discriminate |]. split.
    + intros vid pid Hin. apply in_map_iff in Hin.
      destruct Hin as (e & He & Hin). injection He as <- <-.
      split; [reflexivity |]. split.
      * pose proof supported_nonzero as Hnz. rewrite Forall_forall in Hnz.
        now apply Hnz.
      * apply in_map. exact Hin.
    + unfold open_device. destruct (usb_init u =? 0); cbn [negb];
        [rewrite (Hnone Hall) |]; cbn [snd]; discriminate.
  - rewrite (Hfound _ _ _ _ Hsplit Hbefore Hopen). cbn [fst snd].
    split; [discriminate |]. split; [| intros _; now exists name].
    intros vid p Hin.
    assert (Hp : vid = ROCKCHIP_VID /\ In p (map fst (before ++ [(pid, name)]))).
    { apply in_app_or in Hin. destruct Hin as [Hin | Hin].
      - apply in_map_iff in Hin. destruct Hin as (e & He & Hin).
        injection He as <- <-. split; [reflexivity |].
        rewrite map_app. apply in_or_app. left. now apply in_map.
      - cbn [In] in Hin. destruct Hin as [He | [He | []]]; [| discriminate He].
        injection He as <- <-. split; [reflexivity |].
        rewrite map_app. apply in_or_app. right. left. reflexivity. }
    destruct Hp as [-> Hp]. split; [reflexivity |].
    assert (Hsub : In p (map fst supported)).
    { rewrite Hsplit. rewrite map_app in *. cbn [map] in *.
      apply in_app_or in Hp. apply in_or_app.
      destruct Hp as [Hp | Hp]; [now left |].
      right. cbn [In] in *. destruct Hp as [Hp | []]. now left. }
    split; [| exact Hsub].
    apply in_map_iff in Hsub. destruct Hsub as (e & <- & He).
    pose proof supported_nonzero as Hnz. rewrite Forall_forall in Hnz.
    now apply Hnz.
Qed.
(** ** The properties of Part III at concrete inputs *)

Lemma erase_sends_full_blocks_witness :
  let out := @main bit_crc
               [Buf.of_string "e"; Buf.of_string "0x2000"; Buf.of_string "40"]
               (initial_world [] None [] []) in
  fst out = Returned 0 /\
  sent (w_trace (snd out)) = [erased_block; erased_block] /\
  written (w_trace (snd out)) = [] /\
  dumps (w_trace (snd out)) = [(0x80, 0x06, 0, 0); (0, 0x0a, 0x15, 0); (0, 0x0a, 0x15, 0)] /\
  Buf.len (printed (w_trace (snd out))) = 174.
Proof.
  destruct (@erase_sends_full_blocks bit_crc
              [Buf.of_string "e"; Buf.of_string "0x2000"; Buf.of_string "40"]
              0x2000 40 [] None [] [])
    as (H1 & _ & H3 & H4 & _).
  - vm_compute. reflexivity.
  - by_computation.
  - by_computation.
  - by_computation.
  - cbv zeta. split; [exact H1 |]. split; [rewrite H3, H4; reflexivity |].
    vm_compute. repeat split; reflexivity.
Defined.


Lemma ram_write_sends_each_read_witness :
  let out := @main bit_crc
               [Buf.of_string "M"; Buf.of_string "0x60000000"; Buf.of_string "6"]
               (initial_world [RdData [1; 2; 3; 4]; RdData [5; 6]] None [] []) in
  fst out = Returned 0 /\
  sent (w_trace (snd out)) = [[1; 2; 3; 4]; [5; 6]].
Proof.
  destruct (@ram_write_sends_each_read bit_crc
              [Buf.of_string "M"; Buf.of_string "0x60000000"; Buf.of_string "6"]
              0x60000000 6 [[1; 2; 3; 4]; [5; 6]] [] None [] [])
    as (H1 & _ & H3 & _).
  - vm_compute. reflexivity.
  - vm_compute. reflexivity.
  - by_computation.
  - by_computation.
  - by_computation.
  - by_computation.
  - cbv zeta. split; [exact H1 |]. cbn [map app] in H3.
    rewrite H3. vm_compute. reflexivity.
Defined.

Lemma flash_write_sends_the_input_witness :
  let input := repeat 7 (Z.to_nat RKFT_BLOCKSIZE) in
  let out := @main bit_crc
               [Buf.of_string "w"; Buf.of_string "0"; Buf.of_string "32"]
               (initial_world (file_stdin input) None [] []) in
  fst out = Returned 0 /\ sent (w_trace (snd out)) = [input].
Proof.
  destruct (@flash_write_sends_the_input bit_crc
              [Buf.of_string "w"; Buf.of_string "0"; Buf.of_string "32"]
              0 32 (repeat 7 (Z.to_nat RKFT_BLOCKSIZE)) None [] [])
    as (H1 & _ & _ & H4 & _).
  - vm_compute. reflexivity.
  - by_computation.
  - by_computation.
  - by_computation.
  - by_computation.
  - cbv zeta. split; [exact H1 |]. rewrite H4. vm_compute. reflexivity.
Defined.

Lemma idb_read_window_exceeds_buffer_witness :
  let out := @main bit_crc
               [Buf.of_string "i"; Buf.of_string "0"; Buf.of_string "2"]
               (initial_world [] None [] []) in
  fst out = Returned 0 /\ requested (w_trace (snd out)) = [1056].
Proof.
  destruct (@idb_read_window_exceeds_buffer bit_crc
              [Buf.of_string "i"; Buf.of_string "0"; Buf.of_string "2"]
              0 2 [] None [] [])
    as (_ & Hsmall & _).
  - vm_compute. reflexivity.
  - by_computation.
  - by_computation.
  - by_computation.
  - destruct Hsmall as (H1 & _ & H3 & _); [by_computation | reflexivity |].
    cbv zeta. split; [exact H1 | exact H3].
Defined.

Lemma exec_frame_carries_both_addresses_witness :
  let out := @main bit_crc
               [Buf.of_string "B"; Buf.of_string "0x60000000";
                Buf.of_string "0x60001000"]
               (initial_world [] None [] []) in
  fst out = Returned 0 /\
  GETBE32 (exec_frame 0 0x1000 0) 17 = 0 /\
  GETBE32 (exec_frame 0 0x1000 0) 22 = 0x1000.
Proof.
  destruct (@exec_frame_carries_both_addresses bit_crc
              [Buf.of_string "B"; Buf.of_string "0x60000000";
               Buf.of_string "0x60001000"]
              0x60000000 0x60001000 [] None [] [])
    as (H1 & _ & _ & _ & _ & _ & _ & _ & _ & _ & H17 & H22 & _).
  - vm_compute. reflexivity.
  - cbv zeta. split; [exact H1 |]. split; [exact H17 | exact H22].
Defined.

Lemma nand_info_report_witness :
  let out := @main bit_crc [Buf.of_string "n"]
               (initial_world [] None
                  [[0x2c; 0x68; 0x04; 0x4a; 0xa9];
                   [0; 0; 0x80; 0; 0; 4; 8; 24; 32; 4; 3]] []) in
  fst out = Returned 0 /\ requested (w_trace (snd out)) = [5; 512].
Proof.
  destruct (@nand_info_report bit_crc [0x2c; 0x68; 0x04; 0x4a; 0xa9]
              [0; 0; 0x80; 0; 0; 4; 8; 24; 32; 4; 3] [] None [] [])
    as (H1 & _ & H3 & _).
  - cbn [List.length]. lia.
  - cbv zeta. split; [exact H1 | exact H3].
Defined.

Lemma loader_ends_at_the_first_short_read_witness :
  let out := @main bit_crc [Buf.of_string "l"]
               (initial_world
                  (map RdData [repeat 1 4096] ++ [RdData [1; 2; 3]; RdData [4]])
                  None [] []) in
  fst out = Returned 0 /\ w_stdin (snd out) = [RdData [4]].
Proof.
  destruct (@loader_ends_at_the_first_short_read bit_crc
              [repeat 1 4096] [RdData [1; 2; 3]; RdData [4]] None [] []
              ltac:(constructor; [vm_compute; reflexivity | constructor])
              ltac:(intros short H; injection H as <-; by_computation)
              "l"%string 1137)
    as (H1 & _ & _ & H4 & _).
  - left. reflexivity.
  - cbv zeta. split; [exact H1 | exact H4].
Defined.

Lemma short_write_passes_for_complete_witness :
  let blk := repeat 5 (Z.to_nat RKFT_BLOCKSIZE) in
  let out := @main bit_crc
               [Buf.of_string "r"; Buf.of_string "0"; Buf.of_string "32"]
               (initial_world [] (Some 100) [blk] []) in
  fst out = Returned 0 /\ written (w_trace (snd out)) = [repeat 5 100].
Proof.
  destruct (@short_write_passes_for_complete bit_crc
              [Buf.of_string "r"; Buf.of_string "0"; Buf.of_string "32"]
              0 32 100 (repeat 5 (Z.to_nat RKFT_BLOCKSIZE)) [] [] [])
    as (_ & Hshort).
  - vm_compute. reflexivity.
  - by_computation.
  - vm_compute. reflexivity.
  - destruct Hshort as (H1 & _ & H3 & _); [by_computation | by_computation |].
    cbv zeta. split; [exact H1 |]. rewrite H3. vm_compute. reflexivity.
Defined.

Lemma accepted_command_lines_witness :
  In (Buf.ch "e") actions /\
  parse_args [Buf.ch "e" :: Buf.of_string "rase"; Buf.of_string "boot"]
  = Some (erase_partition_request (Buf.of_string "boot")).
Proof.
  destruct (accepted_command_lines
              [Buf.of_string "e"; Buf.of_string "boot"]
              (erase_partition_request (Buf.of_string "boot")))
    as (_ & H2 & _ & _ & _ & _ & _ & H8).
  - vm_compute. reflexivity.
  - split; [exact H2 | exact (H8 (Buf.of_string "rase"))].
Defined.

Lemma bad_data_length_ends_the_run_witness :
  let out := @main bit_crc [Buf.of_string "e"; Buf.of_string "boot"]
               (initial_world [] None
                  [param_block (MAX_PARAM_LENGTH + 1) EmptyString] []) in
  fst out = Exited 1 /\ sent (w_trace (snd out)) = [].
Proof.
  destruct (@bad_data_length_ends_the_run bit_crc
              [Buf.of_string "e"; Buf.of_string "boot"]
              (erase_partition_request (Buf.of_string "boot"))
              (Buf.of_string "boot") [] None
              (param_block (MAX_PARAM_LENGTH + 1) EmptyString) [] [])
    as (H1 & _ & _ & _ & _ & H6 & _).
  - vm_compute. reflexivity.
  - reflexivity.
  - vm_compute. reflexivity.
  - right. by_computation.
  - cbv zeta. split; [exact H1 | exact H6].
Defined.

Lemma idb_write_sends_data_and_zero_spare_witness :
  let out := @main bit_crc
               [Buf.of_string "j"; Buf.of_string "0"; Buf.of_string "2"]
               (initial_world (file_stdin (repeat 0xAA 1024)) None [] []) in
  fst out = Returned 0 /\
  sent (w_trace (snd out))
  = [repeat 0xAA 512 ++ repeat 0 16; repeat 0xAA 512 ++ repeat 0 16].
Proof.
  destruct (@idb_write_sends_data_and_zero_spare bit_crc
              [Buf.of_string "j"; Buf.of_string "0"; Buf.of_string "2"]
              0 2 (repeat 0xAA 1024) None [] [])
    as (H1 & _ & H3 & _).
  - vm_compute. reflexivity.
  - by_computation.
  - by_computation.
  - by_computation.
  - by_computation.
  - cbv zeta. split; [exact H1 |]. rewrite H3. vm_compute. reflexivity.
Defined.
